(** * Quota enforcement and usage accounting of the download backend

    A shallow embedding of the quota logic of the repository:
    - [models/User.js]: the window roll-over methods
      [resetDailyDownloadsIfNeeded] and [resetMonthlyDownloadsIfNeeded], the
      evaluator [canDownload], the mutator [incrementDownloadCount] and
      [hasDownloadedRecently];
    - [routes/products.js]: the transactional handler
      [POST /api/download/:productId];
    - [routes/chatbot.js]: the handler [POST /download/:productId].

    Instants are JavaScript time values: integer milliseconds since the epoch.
    The several [new Date()] readings taken while one method or one handler
    runs are identified with a single instant [now], which every function
    below takes as an argument.  The local time zone of the process is taken
    to be UTC, so that the calendar fields of an instant are those of the
    proleptic Gregorian calendar at offset 0.  Counters are integers; the
    requests of a run are served one after the other. *)

From Stdlib Require Import ZArith Lia Bool List String Sorted.
From stdpp Require Import base option list strings pretty gmap.

Local Open Scope Z_scope.

(* ===================================================================== *)
(** ** The platform's [Date]: calendar fields of a time value            *)
(* ===================================================================== *)

Module JSDate.

Definition msPerHour : Z := 1000 * 60 * 60.
Definition msPerDay : Z := 1000 * 60 * 60 * 24.

(** [Day(t)] of ECMAScript: the number of the day an instant falls in. *)
Definition Day (t : Z) : Z := t / msPerDay.

(** Days are grouped in eras of 400 years (146097 days) that start on a
    1st of March; [shift] is the day number of 1970-01-01 counted from
    0000-03-01. *)
Definition daysPerEra : Z := 146097.
Definition shift : Z := 719468.

Definition yearOfEra (doe : Z) : Z :=
  (doe - doe / 1460 + doe / 36524 - doe / 146096) / 365.

Definition dayOfYear (doe : Z) : Z :=
  let yoe := yearOfEra doe in
  doe - (365 * yoe + yoe / 4 - yoe / 100).

(** Month counted from March (0) to February (11). *)
Definition marchMonth (doy : Z) : Z := (5 * doy + 2) / 153.
Definition daysBeforeMarchMonth (mp : Z) : Z := (153 * mp + 2) / 5.

(** Month index as [getMonth] gives it: January is 0. *)
Definition monthOfMarchMonth (mp : Z) : Z :=
  if mp <? 10 then mp + 2 else mp - 10.
Definition marchMonthOfMonth (m : Z) : Z :=
  if m <=? 1 then m + 10 else m - 2.

(** Length of the year that starts on the 1st of March of year [yoe] of
    an era. *)
Definition yearLen (yoe : Z) : Z :=
  365 + ((yoe + 1) / 4 - yoe / 4) - ((yoe + 1) / 100 - yoe / 100)
  + ((yoe + 1) / 400 - yoe / 400).

(** Day number of day [doy] of the year [yoe] of era [era]. *)
Definition marchDay (era yoe doy : Z) : Z :=
  era * daysPerEra + (yoe * 365 + yoe / 4 - yoe / 100 + doy) - shift.

Definition monthFromDay (z : Z) : Z :=
  monthOfMarchMonth (marchMonth (dayOfYear ((z + shift) mod daysPerEra))).

Definition dateFromDay (z : Z) : Z :=
  let doy := dayOfYear ((z + shift) mod daysPerEra) in
  doy - daysBeforeMarchMonth (marchMonth doy) + 1.

Definition yearFromDay (z : Z) : Z :=
  let era := (z + shift) / daysPerEra in
  let y := yearOfEra ((z + shift) mod daysPerEra) + era * 400 in
  if monthFromDay z <=? 1 then y + 1 else y.

(** Day number of the given date; [m] is a month index in 0..11, [d] any
    integer (day 1 is the first of the month, other values count on from
    it). *)
Definition dayFromCivil (y m d : Z) : Z :=
  let y' := if m <=? 1 then y - 1 else y in
  let era := y' / 400 in
  let yoe := y' - era * 400 in
  let doy := daysBeforeMarchMonth (marchMonthOfMonth m) + d - 1 in
  era * daysPerEra + (yoe * 365 + yoe / 4 - yoe / 100 + doy) - shift.

(** [MakeDay(year, month, date)] of ECMAScript: a month outside 0..11
    carries into the year, a date outside the month counts on in days. *)
Definition MakeDay (year month date : Z) : Z :=
  dayFromCivil (year + month / 12) (month mod 12) 1 + date - 1.

Definition getFullYear (t : Z) : Z := yearFromDay (Day t).
Definition getMonth (t : Z) : Z := monthFromDay (Day t).
Definition getDate (t : Z) : Z := dateFromDay (Day t).

(** [new Date(year, month, date)]: midnight of that day.  A year in 0..99
    denotes 1900 + year. *)
Definition newDate (year month date : Z) : Z :=
  let yr := if (0 <=? year) && (year <=? 99) then 1900 + year else year in
  MakeDay yr month date * msPerDay.

(** [d.setHours(0, 0, 0, 0)]: midnight of the day of [t]. *)
Definition setHours0 (t : Z) : Z := Day t * msPerDay.

(** [d.setDate(date)] and [d.setMonth(month)]: the other fields and the
    time within the day are kept, and an overflow carries. *)
Definition setDate (t date : Z) : Z :=
  MakeDay (getFullYear t) (getMonth t) date * msPerDay + t mod msPerDay.
Definition setMonth (t month : Z) : Z :=
  MakeDay (getFullYear t) month (getDate t) * msPerDay + t mod msPerDay.

(** Two instants fall on the same calendar day. *)
Definition sameCalendarDay (s t : Z) : Prop :=
  getFullYear s = getFullYear t /\ getMonth s = getMonth t
  /\ getDate s = getDate t.

(** Two instants fall in the same calendar month. *)
Definition sameCalendarMonth (s t : Z) : Prop :=
  getFullYear s = getFullYear t /\ getMonth s = getMonth t.

(** [b] is the first instant after [t] at which the predicate [same]
    stops holding: the next boundary of the window [t] lies in. *)
Definition nextBoundary (same : Z -> Z -> Prop) (t b : Z) : Prop :=
  t < b /\ (forall s, t <= s < b -> same s t) /\ ~ same b t.

(** [Math.ceil(a / b)] for integers [a] and a positive integer [b]. *)
Definition ceilDiv (a b : Z) : Z := - ((- a) / b).

(** [String(n).padStart(2, '0')]. *)
Definition padStart2 (s : string) : string :=
  if (String.length s <? 2)%nat
  then String.concat EmptyString (replicate (2 - String.length s) "0") +:+ s
  else s.

End JSDate.


(* ===================================================================== *)
(** ** Documents: the Mongoose schemas                                   *)
(* ===================================================================== *)

(** [x || 0] on a number. *)
Definition or0 (x : Z) : Z := if x =? 0 then 0 else x.

(** [o || dflt] on a value that may be missing. *)
Definition orDefault {A} (o : option A) (dflt : A) : A :=
  match o with Some a => a | None => dflt end.

Definition ObjectId := N.

Module Stats.
(** [downloadStats] of the user schema.  [averageDownloadsPerDay] (a
    floating-point quotient) and [mostActiveDay] (a locale string) are
    left out. *)
Record t := {
  totalDownloads : Z;
  themesDownloaded : Z;
  pluginsDownloaded : Z;
  templatesDownloaded : Z;
  graphicsDownloaded : Z;
  lastStatsUpdate : Z
}.

Definition set_totalDownloads (s : t) (n : Z) : t :=
  {| totalDownloads := n; themesDownloaded := themesDownloaded s;
     pluginsDownloaded := pluginsDownloaded s;
     templatesDownloaded := templatesDownloaded s;
     graphicsDownloaded := graphicsDownloaded s;
     lastStatsUpdate := lastStatsUpdate s |}.

Definition set_themesDownloaded (s : t) (n : Z) : t :=
  {| totalDownloads := totalDownloads s; themesDownloaded := n;
     pluginsDownloaded := pluginsDownloaded s;
     templatesDownloaded := templatesDownloaded s;
     graphicsDownloaded := graphicsDownloaded s;
     lastStatsUpdate := lastStatsUpdate s |}.

Definition set_pluginsDownloaded (s : t) (n : Z) : t :=
  {| totalDownloads := totalDownloads s;
     themesDownloaded := themesDownloaded s;
     pluginsDownloaded := n;
     templatesDownloaded := templatesDownloaded s;
     graphicsDownloaded := graphicsDownloaded s;
     lastStatsUpdate := lastStatsUpdate s |}.

Definition set_templatesDownloaded (s : t) (n : Z) : t :=
  {| totalDownloads := totalDownloads s;
     themesDownloaded := themesDownloaded s;
     pluginsDownloaded := pluginsDownloaded s;
     templatesDownloaded := n;
     graphicsDownloaded := graphicsDownloaded s;
     lastStatsUpdate := lastStatsUpdate s |}.

Definition set_graphicsDownloaded (s : t) (n : Z) : t :=
  {| totalDownloads := totalDownloads s;
     themesDownloaded := themesDownloaded s;
     pluginsDownloaded := pluginsDownloaded s;
     templatesDownloaded := templatesDownloaded s;
     graphicsDownloaded := n;
     lastStatsUpdate := lastStatsUpdate s |}.

Definition set_lastStatsUpdate (s : t) (n : Z) : t :=
  {| totalDownloads := totalDownloads s;
     themesDownloaded := themesDownloaded s;
     pluginsDownloaded := pluginsDownloaded s;
     templatesDownloaded := templatesDownloaded s;
     graphicsDownloaded := graphicsDownloaded s;
     lastStatsUpdate := n |}.
End Stats.

Module History.
(** An entry of the [downloads] array embedded in the user document. *)
Record t := {
  productId : ObjectId;
  productTitle : string;
  productCategory : string;
  downloadedAt : Z;
  downloadSource : string;
  ipAddress : string
}.
End History.

Module Product.
Record t := {
  title : string;
  category : string;
  downloadUrl : string;
  downloads : Z;
  isActive : bool
}.

Definition set_downloads (p : t) (n : Z) : t :=
  {| title := title p; category := category p; downloadUrl := downloadUrl p;
     downloads := n; isActive := isActive p |}.
End Product.

Module Download.
(** A document of the [Download] collection: the audit trail. *)
Record t := {
  userId : ObjectId;
  productId : ObjectId;
  downloadDate : Z;
  ipAddress : string;
  userAgent : string;
  downloadUrl : string
}.
End Download.

Inductive Subscription := free | premium.

Definition Subscription_eqb (a b : Subscription) : bool :=
  match a, b with
  | free, free | premium, premium => true
  | _, _ => false
  end.

Module User.
Import JSDate.
(** The fields of the user schema that the quota logic reads or writes. *)
Record t := {
  email : string;
  subscription : Subscription;
  isVerified : bool;
  dailyDownloads : Z;
  dailyDownloadDate : option Z;
  monthlyDownloads : Z;
  monthlyDownloadMonth : string;
  totalDownloads : Z;
  premiumExpiry : option Z;
  lastActivity : Z;
  downloads : list History.t;
  downloadStats : Stats.t;
  createdAt : Z
}.

Definition set_daily (u : t) (n : Z) (d : option Z) : t :=
  {| email := email u; subscription := subscription u;
     isVerified := isVerified u;
     dailyDownloads := n; dailyDownloadDate := d;
     monthlyDownloads := monthlyDownloads u;
     monthlyDownloadMonth := monthlyDownloadMonth u;
     totalDownloads := totalDownloads u; premiumExpiry := premiumExpiry u;
     lastActivity := lastActivity u; downloads := downloads u;
     downloadStats := downloadStats u; createdAt := createdAt u |}.

Definition set_monthly (u : t) (n : Z) (m : string) : t :=
  {| email := email u; subscription := subscription u;
     isVerified := isVerified u;
     dailyDownloads := dailyDownloads u;
     dailyDownloadDate := dailyDownloadDate u;
     monthlyDownloads := n; monthlyDownloadMonth := m;
     totalDownloads := totalDownloads u; premiumExpiry := premiumExpiry u;
     lastActivity := lastActivity u; downloads := downloads u;
     downloadStats := downloadStats u; createdAt := createdAt u |}.

Definition set_totalDownloads (u : t) (n : Z) : t :=
  {| email := email u; subscription := subscription u;
     isVerified := isVerified u;
     dailyDownloads := dailyDownloads u;
     dailyDownloadDate := dailyDownloadDate u;
     monthlyDownloads := monthlyDownloads u;
     monthlyDownloadMonth := monthlyDownloadMonth u;
     totalDownloads := n; premiumExpiry := premiumExpiry u;
     lastActivity := lastActivity u; downloads := downloads u;
     downloadStats := downloadStats u; createdAt := createdAt u |}.

Definition set_history (u : t) (h : list History.t) (st : Stats.t) : t :=
  {| email := email u; subscription := subscription u;
     isVerified := isVerified u;
     dailyDownloads := dailyDownloads u;
     dailyDownloadDate := dailyDownloadDate u;
     monthlyDownloads := monthlyDownloads u;
     monthlyDownloadMonth := monthlyDownloadMonth u;
     totalDownloads := totalDownloads u; premiumExpiry := premiumExpiry u;
     lastActivity := lastActivity u; downloads := h;
     downloadStats := st; createdAt := createdAt u |}.

Definition set_lastActivity (u : t) (a : Z) : t :=
  {| email := email u; subscription := subscription u;
     isVerified := isVerified u;
     dailyDownloads := dailyDownloads u;
     dailyDownloadDate := dailyDownloadDate u;
     monthlyDownloads := monthlyDownloads u;
     monthlyDownloadMonth := monthlyDownloadMonth u;
     totalDownloads := totalDownloads u; premiumExpiry := premiumExpiry u;
     lastActivity := a; downloads := downloads u;
     downloadStats := downloadStats u; createdAt := createdAt u |}.

(** *** Window roll-over and the evaluator *)

(** [`${now.getFullYear()}-${String(now.getMonth() + 1).padStart(2, '0')}`] *)
Definition monthToken (now : Z) : string :=
  pretty (getFullYear now) +:+ "-" +:+ padStart2 (pretty (getMonth now + 1)).

(** [new Date(d.getFullYear(), d.getMonth(), d.getDate())] *)
Definition startOfDay (d : Z) : Z :=
  newDate (getFullYear d) (getMonth d) (getDate d).

(** [userSchema.methods.resetDailyDownloadsIfNeeded]; the document is
    mutated in place, so the updated document is returned with the
    result. *)
Definition resetDailyDownloadsIfNeeded (now : Z) (this : t) : bool * t :=
  let today := startOfDay now in
  let lastDownloadDate := dailyDownloadDate this in
  let lastDownloadDay := startOfDay <$> lastDownloadDate in
  if match lastDownloadDay with
     | None => true
     | Some last => today >? last
     end
  then
    let wasReset := dailyDownloads this >? 0 in
    (wasReset, set_daily this 0 (Some today))
  else (false, this).

(** [userSchema.methods.resetMonthlyDownloadsIfNeeded] *)
Definition resetMonthlyDownloadsIfNeeded (now : Z) (this : t) : bool * t :=
  let currentMonth := monthToken now in
  if negb (String.eqb (monthlyDownloadMonth this) currentMonth) then
    let wasReset := monthlyDownloads this >? 0 in
    (wasReset, set_monthly this 0 currentMonth)
  else (false, this).

(** The document after the two roll-overs that open [canDownload],
    [incrementDownloadCount] and [getDownloadStats]. *)
Definition rolledOver (now : Z) (this : t) : t :=
  snd (resetMonthlyDownloadsIfNeeded now
         (snd (resetDailyDownloadsIfNeeded now this))).

(** One window of the object [canDownload] returns; [untilReset] is
    [hoursUntilReset] in [daily] and [daysUntilReset] in [monthly], and is
    absent in the answer for an unverified account. *)
Record Window := {
  used : Z;
  limit : Z;
  remaining : Z;
  untilReset : option Z
}.

Record SubscriptionStatus := {
  active : bool;
  expiry : option Z;
  daysLeft : Z
}.

(** [nextDailyReset] and [nextMonthlyReset] are kept as instants; the
    source renders them with [toISOString]. *)
Record ResetInfo := {
  dailyReset : bool;
  monthlyReset : bool;
  nextDailyReset : Z;
  nextMonthlyReset : Z
}.

Record Check := {
  canDownload_ : bool;
  reason : string;
  subscription_ : Subscription;
  daily : Window;
  monthly : Window;
  total : Z;
  requiresVerification : bool;
  subscriptionStatus : SubscriptionStatus;
  resetInfo : option ResetInfo
}.

(** [const isPremium = this.subscription === 'premium'] *)
Definition isPremium (this : t) : bool :=
  Subscription_eqb (subscription this) premium.

(** [isPremium && this.premiumExpiry && this.premiumExpiry > new Date()] *)
Definition isActive (now : Z) (this : t) : bool :=
  isPremium this &&
  match premiumExpiry this with
  | Some e => e >? now
  | None => false
  end.

Definition dailyLimit : Z := 15.

(** [isActive ? 500 : 350] *)
Definition monthlyLimit (now : Z) (this : t) : Z :=
  if isActive now this then 500 else 350.

(** [new Date(now.getFullYear(), now.getMonth(), now.getDate() + 1)] *)
Definition tomorrow (now : Z) : Z :=
  newDate (getFullYear now) (getMonth now) (getDate now + 1).

(** [new Date(now.getFullYear(), now.getMonth() + 1, 1)] *)
Definition nextMonth (now : Z) : Z :=
  newDate (getFullYear now) (getMonth now + 1) 1.

Definition plural (n : Z) : string :=
  if n =? 1 then EmptyString else "s".

Definition dailyReason (dailyUsed hoursUntilDailyReset : Z) : string :=
  "Daily limit reached (" +:+ pretty dailyUsed +:+ "/" +:+ pretty dailyLimit
  +:+ "). Resets automatically in " +:+ pretty hoursUntilDailyReset
  +:+ " hour" +:+ plural hoursUntilDailyReset +:+ ".".

Definition monthlyReason (monthlyUsed monthlyLim daysUntilMonthlyReset : Z)
    (upgradeHint : bool) : string :=
  "Monthly limit reached (" +:+ pretty monthlyUsed +:+ "/"
  +:+ pretty monthlyLim +:+ "). Resets in "
  +:+ pretty daysUntilMonthlyReset +:+ " day"
  +:+ plural daysUntilMonthlyReset +:+ "."
  +:+ (if upgradeHint then " Upgrade to premium for 500 downloads/month!"
       else EmptyString).

(** [userSchema.methods.canDownload] *)
Definition canDownload (now : Z) (this : t) : Check * t :=
  if negb (isVerified this) then
    ({| canDownload_ := false;
        reason := "Email not verified - please check your email and verify your account";
        subscription_ := subscription this;
        daily := {| used := 0; limit := 15; remaining := 15;
                    untilReset := None |};
        monthly := {| used := 0; limit := 350; remaining := 350;
                      untilReset := None |};
        total := or0 (totalDownloads this);
        requiresVerification := true;
        subscriptionStatus :=
          {| active := false; expiry := None; daysLeft := 0 |};
        resetInfo := None |}, this)
  else
    let '(dailyReset, this) := resetDailyDownloadsIfNeeded now this in
    let '(monthlyReset, this) := resetMonthlyDownloadsIfNeeded now this in
    let isPremium := isPremium this in
    let isActive := isActive now this in
    let dailyLimit := dailyLimit in
    let monthlyLimit := monthlyLimit now this in
    let dailyUsed := or0 (dailyDownloads this) in
    let monthlyUsed := or0 (monthlyDownloads this) in
    let dailyRemaining := Z.max 0 (dailyLimit - dailyUsed) in
    let monthlyRemaining := Z.max 0 (monthlyLimit - monthlyUsed) in
    let canDownload := (dailyRemaining >? 0) && (monthlyRemaining >? 0) in
    let subscriptionStatus :=
      {| active := isActive;
         expiry := premiumExpiry this;
         daysLeft :=
           match premiumExpiry this with
           | Some e =>
               if isPremium then Z.max 0 (ceilDiv (e - now) msPerDay) else 0
           | None => 0
           end |} in
    let tomorrow := tomorrow now in
    let hoursUntilDailyReset := ceilDiv (tomorrow - now) msPerHour in
    let nextMonth := nextMonth now in
    let daysUntilMonthlyReset := ceilDiv (nextMonth - now) msPerDay in
    let reason :=
      if negb canDownload then
        if dailyRemaining <=? 0 then
          dailyReason dailyUsed hoursUntilDailyReset
        else if monthlyRemaining <=? 0 then
          monthlyReason monthlyUsed monthlyLimit daysUntilMonthlyReset
            (negb isActive && negb isPremium)
        else "Within limits"
      else "Within limits" in
    ({| canDownload_ := canDownload;
        reason := reason;
        subscription_ := subscription this;
        daily := {| used := dailyUsed; limit := dailyLimit;
                    remaining := dailyRemaining;
                    untilReset := Some hoursUntilDailyReset |};
        monthly := {| used := monthlyUsed; limit := monthlyLimit;
                      remaining := monthlyRemaining;
                      untilReset := Some daysUntilMonthlyReset |};
        total := or0 (totalDownloads this);
        requiresVerification := false;
        subscriptionStatus := subscriptionStatus;
        resetInfo := Some {| dailyReset := dailyReset;
                             monthlyReset := monthlyReset;
                             nextDailyReset := tomorrow;
                             nextMonthlyReset := nextMonth |} |}, this).

(** [userSchema.methods.hasDownloadedRecently], on the embedded history. *)
Definition hasDownloadedRecently (now : Z) (productId : ObjectId)
    (minutes : Z) (this : t) : bool :=
  let recentTime := now - minutes * 60 * 1000 in
  existsb (fun download =>
             N.eqb (History.productId download) productId
             && (History.downloadedAt download >=? recentTime))
          (downloads this).

(** The argument of [incrementDownloadCount]; a missing property is
    [None]. *)
Record ProductData := {
  pd_productId : option ObjectId;
  pd_productTitle : option string;
  pd_productCategory : option string;
  pd_downloadSource : option string;
  pd_ipAddress : option string
}.

(** The statistics block of [incrementDownloadCount]. *)
Definition updateStats (category : option string) (st : Stats.t)
    (total now : Z) : Stats.t :=
  let categoryIs (c : string) :=
    match category with Some c' => String.eqb c' c | None => false end in
  let st := Stats.set_totalDownloads st total in
  let st :=
    if categoryIs "themes" then
      Stats.set_themesDownloaded st (or0 (Stats.themesDownloaded st) + 1)
    else if categoryIs "plugins" then
      Stats.set_pluginsDownloaded st (or0 (Stats.pluginsDownloaded st) + 1)
    else if categoryIs "templates" then
      Stats.set_templatesDownloaded st
        (or0 (Stats.templatesDownloaded st) + 1)
    else if categoryIs "graphics" then
      Stats.set_graphicsDownloaded st (or0 (Stats.graphicsDownloaded st) + 1)
    else st in
  Stats.set_lastStatsUpdate st now.

(** The part of [incrementDownloadCount] before [await this.save()]: the
    changes made to the document in memory. *)
Definition applyIncrement (now : Z) (productData : ProductData) (this : t)
    : t :=
  let this := snd (resetDailyDownloadsIfNeeded now this) in
  let this := snd (resetMonthlyDownloadsIfNeeded now this) in
  let this := set_daily this (or0 (dailyDownloads this) + 1)
                        (dailyDownloadDate this) in
  let this := set_monthly this (or0 (monthlyDownloads this) + 1)
                          (monthlyDownloadMonth this) in
  let this := set_totalDownloads this (or0 (totalDownloads this) + 1) in
  match pd_productId productData with
  | Some productId =>
      set_history this
        (downloads this ++
           [{| History.productId := productId;
               History.productTitle :=
                 orDefault (pd_productTitle productData) "Unknown Product";
               History.productCategory :=
                 orDefault (pd_productCategory productData) "unknown";
               History.downloadedAt := now;
               History.downloadSource :=
                 orDefault (pd_downloadSource productData) "web";
               History.ipAddress :=
                 orDefault (pd_ipAddress productData) "unknown" |}])
        (updateStats (pd_productCategory productData) (downloadStats this)
                      (totalDownloads this) now)
  | None => this
  end.

(** The object [incrementDownloadCount] resolves to. *)
Record Counts := {
  dailyCount : Z;
  monthlyCount : Z;
  totalCount : Z;
  dailyRemaining : Z;
  monthlyRemaining : Z
}.

Definition countsOf (now : Z) (this : t) : Counts :=
  {| dailyCount := dailyDownloads this;
     monthlyCount := monthlyDownloads this;
     totalCount := totalDownloads this;
     dailyRemaining := Z.max 0 (15 - dailyDownloads this);
     monthlyRemaining :=
       Z.max 0 (monthlyLimit now this - monthlyDownloads this) |}.

End User.

(* ===================================================================== *)
(** ** The database, sessions and transactions                           *)
(* ===================================================================== *)

Module Mongo.

Record DB := {
  users : gmap ObjectId User.t;
  products : gmap ObjectId Product.t;
  downloadsColl : list Download.t
}.

(** [staged] is the working copy of the transaction that is open on the
    request's session, if one is.  [commitCalled] tells that
    [commitTransaction] has been called on the session: the driver then
    holds the transaction for committed, whether the commit went through
    or not, and refuses [abortTransaction]. *)
Record Store := {
  committed : DB;
  staged : option DB;
  commitCalled : bool
}.

(** The operations of a handler that reach the database; each may fail. *)
Inductive Op :=
| OpFindUser | OpFindProduct | OpFindDownload
| OpSaveDownload | OpSaveUser | OpSaveProduct | OpCommit.

(** A computation that reads and writes the store and may throw an
    error; the store at the point of the throw is kept, as the [catch]
    block runs on it. *)
Definition M (A : Type) : Type := Store -> (string + A) * Store.

Definition ret {A} (a : A) : M A := fun s => (inr a, s).

Definition bind {A B} (m : M A) (k : A -> M B) : M B :=
  fun s =>
    match m s with
    | (inr a, s') => k a s'
    | (inl e, s') => (inl e, s')
    end.

Definition throw {A} (e : string) : M A := fun s => (inl e, s).

(** [try { body } catch (error) { handler }] *)
Definition tryCatch {A} (body : M A) (handler : string -> M A) : M A :=
  fun s =>
    match body s with
    | (inr a, s') => (inr a, s')
    | (inl e, s') => handler e s'
    end.

(** [try { body } finally { fin }], for a [fin] that does not throw. *)
Definition finally {A} (body : M A) (fin : Store -> Store) : M A :=
  fun s => let '(r, s') := body s in (r, fin s').

Definition modify (f : Store -> Store) : M unit := fun s => (inr tt, f s).

(** The database as seen by a read: through the session when the call
    passes one and a transaction is open on it. *)
Definition view (session : bool) (s : Store) : DB :=
  if session then orDefault (staged s) (committed s) else committed s.

(** A write goes to the open transaction when the call passes the
    session, and straight to the database otherwise. *)
Definition write (session : bool) (f : DB -> DB) (s : Store) : Store :=
  match session, staged s with
  | true, Some d => {| committed := committed s; staged := Some (f d);
                       commitCalled := commitCalled s |}
  | _, _ => {| committed := f (committed s); staged := staged s;
               commitCalled := commitCalled s |}
  end.

Definition startTransaction : M unit :=
  modify (fun s => {| committed := committed s;
                      staged := Some (committed s);
                      commitCalled := false |}).

(** [session.abortTransaction()]: the working copy is dropped.  Once
    [commitTransaction] has been called the driver throws instead
    (a [MongoTransactionError]). *)
Definition abortTransaction : M unit :=
  fun s =>
    if commitCalled s
    then (inl "Cannot call abortTransaction after calling commitTransaction",
          s)
    else (inr tt, {| committed := committed s; staged := None;
                     commitCalled := false |}).

Definition endSession (s : Store) : Store :=
  {| committed := committed s; staged := None; commitCalled := false |}.

Definition putUser (id : ObjectId) (u : User.t) (d : DB) : DB :=
  {| users := <[id := u]> (users d); products := products d;
     downloadsColl := downloadsColl d |}.

Definition putProduct (id : ObjectId) (p : Product.t) (d : DB) : DB :=
  {| users := users d; products := <[id := p]> (products d);
     downloadsColl := downloadsColl d |}.

Definition addDownload (r : Download.t) (d : DB) : DB :=
  {| users := users d; products := products d;
     downloadsColl := downloadsColl d ++ [r] |}.

Section Operations.
(** Which operations of the run at hand fail. *)
Variable fails : Op -> bool.

Definition attempt {A} (op : Op) (m : M A) : M A :=
  if fails op then throw "database operation failed" else m.

(** [session.commitTransaction()]: the working copy becomes the database.
    When the commit fails nothing is applied; either way the session has
    seen its commit. *)
Definition commitTransaction : M unit :=
  fun s =>
    if fails OpCommit
    then (inl "database operation failed",
          {| committed := committed s; staged := staged s;
             commitCalled := true |})
    else (inr tt, {| committed := orDefault (staged s) (committed s);
                     staged := None; commitCalled := true |}).

(** [User.findById(id)], with [.session(session)] when [session]. *)
Definition User_findById (session : bool) (id : option ObjectId)
    : M (option User.t) :=
  attempt OpFindUser
    (fun s => (inr (id ≫= fun i => users (view session s) !! i), s)).

Definition Product_findById (session : bool) (id : ObjectId)
    : M (option Product.t) :=
  attempt OpFindProduct
    (fun s => (inr (products (view session s) !! id), s)).

(** [Download.findOne({ userId, productId, downloadDate: { $gte } })] *)
Definition Download_findOne (session : bool) (userId productId : ObjectId)
    (since : Z) : M (option Download.t) :=
  attempt OpFindDownload
    (fun s =>
       (inr (List.find
               (fun d => N.eqb (Download.userId d) userId
                         && N.eqb (Download.productId d) productId
                         && (Download.downloadDate d >=? since))
               (downloadsColl (view session s))), s)).

Definition Download_save (session : bool) (r : Download.t) : M unit :=
  attempt OpSaveDownload (modify (write session (addDownload r))).

(** [user.save()]; the [pre('save')] hook stamps [lastActivity] on a
    modified document that is not new. *)
Definition User_save (session : bool) (now : Z) (id : ObjectId)
    (u : User.t) : M unit :=
  attempt OpSaveUser
    (modify (write session (putUser id (User.set_lastActivity u now)))).

Definition Product_save (session : bool) (id : ObjectId) (p : Product.t)
    : M unit :=
  attempt OpSaveProduct (modify (write session (putProduct id p))).

End Operations.

End Mongo.

Declare Scope mongo_scope.
Delimit Scope mongo_scope with mongo.
Notation "'let*' x ':=' m 'in' k" := (Mongo.bind m (fun x => k))
  (at level 10, x name, m at level 100, k at level 200) : mongo_scope.

(* ===================================================================== *)
(** ** [models/User.js]: [incrementDownloadCount]                        *)
(* ===================================================================== *)

Section IncrementDownloadCount.
Import Mongo.
Local Open Scope mongo_scope.
Variable fails : Op -> bool.

(** [userSchema.methods.incrementDownloadCount]; [session] tells whether
    the document was loaded through a session, which [this.save()] then
    uses; [id] is the document's [_id]. *)
Definition incrementDownloadCount (session : bool) (now : Z) (id : ObjectId)
    (productData : User.ProductData) (this : User.t)
    : M (User.Counts * User.t) :=
  let this := User.applyIncrement now productData this in
  tryCatch
    (let* _ := User_save fails session now id this in
     ret (User.countsOf now this, this))
    (fun _ => throw "Failed to update download count").
End IncrementDownloadCount.

(* ===================================================================== *)
(** ** [routes/products.js]: POST /api/download/:productId               *)
(* ===================================================================== *)

Module DownloadRoute.
Import Mongo JSDate.
Local Open Scope mongo_scope.

(** [tokenUserId] is [req.user.userId] of the verified token;
    [paramProductId] is [None] when [req.params.productId] is not a valid
    ObjectId. *)
Record Request := {
  tokenUserId : ObjectId;
  paramProductId : option ObjectId;
  ip : option string;
  userAgentHeader : option string;
  now : Z
}.

Inductive ResetType := daily | monthly.

Record ResetInfo := {
  type : ResetType;
  resetTime : Z;
  untilReset : Z
}.

(** The answers of the handler, by status code; message texts are left
    out.  [Unanswered] is the case in which the handler throws out of its
    [catch] block: its promise rejects and no answer is sent. *)
Inductive Response :=
| InvalidProductId                                  (* 400 *)
| UserNotFound                                      (* 404 *)
| VerificationRequired                              (* 403 *)
| LimitExceeded (limitsDaily limitsMonthly : User.Window)
                (subscription : Subscription)
                (resetInfo : option ResetInfo)
                (canUpgrade : bool)                 (* 429 *)
| ProductNotFound                                   (* 404 *)
| Redownload (downloadUrl : string) (userStats : User.Check)
                                                    (* 200, isRedownload *)
| Downloaded (downloadUrl : string) (userStats : User.Check)
             (downloadDate : Z)                     (* 200 *)
| ServerError                                       (* 500 *)
| Unanswered.                                       (* no answer *)

Definition limitResetInfo (now : Z) (downloadCheck : User.Check)
    : option ResetInfo :=
  if User.remaining (User.daily downloadCheck) <=? 0 then
    let tomorrow := setHours0 (setDate now (getDate now + 1)) in
    Some {| type := daily; resetTime := tomorrow;
            untilReset := ceilDiv (tomorrow - now) msPerHour |}
  else if User.remaining (User.monthly downloadCheck) <=? 0 then
    let nextMonth :=
      setHours0 (setDate (setMonth now (getMonth now + 1)) 1) in
    Some {| type := monthly; resetTime := nextMonth;
            untilReset := ceilDiv (nextMonth - now) msPerDay |}
  else None.

Section Handler.
Variable fails : Op -> bool.

(** The body of the [try] block, from [session.startTransaction()] on. *)
Definition transaction (req : Request) (productId : ObjectId)
    : M Response :=
  let now := now req in
  let* _ := startTransaction in
  let* user := User_findById fails true (Some (tokenUserId req)) in
  match user with
  | None => let* _ := abortTransaction in ret UserNotFound
  | Some user =>
    if negb (User.isVerified user) then
      let* _ := abortTransaction in ret VerificationRequired
    else
      let '(downloadCheck, user) := User.canDownload now user in
      if negb (User.canDownload_ downloadCheck) then
        let* _ := abortTransaction in
        ret (LimitExceeded
               (User.daily downloadCheck) (User.monthly downloadCheck)
               (User.subscription_ downloadCheck)
               (limitResetInfo now downloadCheck)
               (Subscription_eqb (User.subscription_ downloadCheck) free))
      else
        let* product := Product_findById fails true productId in
        match product with
        | None => let* _ := abortTransaction in ret ProductNotFound
        | Some product =>
          if negb (Product.isActive product) then
            let* _ := abortTransaction in ret ProductNotFound
          else
            let thirtyMinutesAgo := now - 30 * 60 * 1000 in
            let* existingRecentDownload :=
              Download_findOne fails true (tokenUserId req) productId
                               thirtyMinutesAgo in
            match existingRecentDownload with
            | Some _ =>
              let* _ := abortTransaction in
              ret (Redownload (Product.downloadUrl product) downloadCheck)
            | None =>
              let download :=
                {| Download.userId := tokenUserId req;
                   Download.productId := productId;
                   Download.downloadDate := now;
                   Download.ipAddress := orDefault (ip req) "unknown";
                   Download.userAgent :=
                     orDefault (userAgentHeader req) "unknown";
                   Download.downloadUrl := Product.downloadUrl product |}
              in
              let* _ := Download_save fails true download in
              let* counted :=
                incrementDownloadCount fails true now (tokenUserId req)
                  {| User.pd_productId := Some productId;
                     User.pd_productTitle := Some (Product.title product);
                     User.pd_productCategory :=
                       Some (Product.category product);
                     User.pd_downloadSource := Some "web";
                     User.pd_ipAddress := None |}
                  user in
              let user := snd counted in
              let product :=
                Product.set_downloads product
                  (or0 (Product.downloads product) + 1) in
              let* _ := Product_save fails true productId product in
              let* _ := commitTransaction fails in
              let '(updatedDownloadCheck, _) :=
                User.canDownload now user in
              ret (Downloaded (Product.downloadUrl product)
                              updatedDownloadCheck
                              (Download.downloadDate download))
            end
        end
  end.

(** The handler: [try { ... } catch { abort; 500 } finally { endSession }].
    The [abortTransaction] of the [catch] block throws when the error
    caught is that of [commitTransaction]; the handler then throws. *)
Definition handler (req : Request) : M Response :=
  finally
    (tryCatch
       (match paramProductId req with
        | None => ret InvalidProductId
        | Some productId => transaction req productId
        end)
       (fun _ => let* _ := abortTransaction in ret ServerError))
    endSession.

(** One request served on a database with no transaction open: the
    answer and the database it leaves.  A handler that throws sends no
    answer. *)
Definition consume (req : Request) (db : DB) : Response * DB :=
  match handler req {| committed := db; staged := None;
                       commitCalled := false |} with
  | (inr response, s) => (response, committed s)
  | (inl _, s) => (Unanswered, committed s)
  end.

(** The handler with the store threaded by hand: the same decisions in
    the same order, as a decision tree over the database.  It is proved
    equal to [consume] below ([consume_flat]). *)
Definition consumeFlat (req : Request) (db : DB) : Response * DB :=
  let now := now req in
  let userId := tokenUserId req in
  match paramProductId req with
  | None => (InvalidProductId, db)
  | Some productId =>
    if fails OpFindUser then (ServerError, db) else
    match users db !! userId with
    | None => (UserNotFound, db)
    | Some user =>
      if negb (User.isVerified user) then (VerificationRequired, db) else
      let downloadCheck := fst (User.canDownload now user) in
      let user := snd (User.canDownload now user) in
      if negb (User.canDownload_ downloadCheck) then
        (LimitExceeded
           (User.daily downloadCheck) (User.monthly downloadCheck)
           (User.subscription_ downloadCheck)
           (limitResetInfo now downloadCheck)
           (Subscription_eqb (User.subscription_ downloadCheck) free), db)
      else if fails OpFindProduct then (ServerError, db) else
      match products db !! productId with
      | None => (ProductNotFound, db)
      | Some product =>
        if negb (Product.isActive product) then (ProductNotFound, db) else
        if fails OpFindDownload then (ServerError, db) else
        match List.find
                (fun d => N.eqb (Download.userId d) userId
                          && N.eqb (Download.productId d) productId
                          && (Download.downloadDate d
                              >=? now - 30 * 60 * 1000))
                (downloadsColl db) with
        | Some _ => (Redownload (Product.downloadUrl product) downloadCheck,
                     db)
        | None =>
          if fails OpSaveDownload || fails OpSaveUser || fails OpSaveProduct
          then (ServerError, db)
          else if fails OpCommit then (Unanswered, db)
          else
            let user :=
              User.applyIncrement now
                {| User.pd_productId := Some productId;
                   User.pd_productTitle := Some (Product.title product);
                   User.pd_productCategory :=
                     Some (Product.category product);
                   User.pd_downloadSource := Some "web";
                   User.pd_ipAddress := None |}
                user in
            (Downloaded (Product.downloadUrl product)
                        (fst (User.canDownload now user)) now,
             {| users :=
                  <[userId := User.set_lastActivity user now]> (users db);
                products :=
                  <[productId :=
                      Product.set_downloads product
                        (or0 (Product.downloads product) + 1)]>
                    (products db);
                downloadsColl :=
                  downloadsColl db ++
                    [{| Download.userId := userId;
                        Download.productId := productId;
                        Download.downloadDate := now;
                        Download.ipAddress := orDefault (ip req) "unknown";
                        Download.userAgent :=
                          orDefault (userAgentHeader req) "unknown";
                        Download.downloadUrl :=
                          Product.downloadUrl product |}] |})
        end
      end
    end
  end.
End Handler.

(** The outcome of a request in the terms of the specification. *)
Inductive Outcome := Accepted | Replayed | Denied | NotFound | Invalid | Fault.

Definition outcome (r : Response) : Outcome :=
  match r with
  | Downloaded _ _ _ => Accepted
  | Redownload _ _ => Replayed
  | LimitExceeded _ _ _ _ _ => Denied
  | VerificationRequired => Denied
  | UserNotFound | ProductNotFound => NotFound
  | InvalidProductId => Invalid
  | ServerError | Unanswered => Fault
  end.

(** A call: the request and the failures the database shows while it is
    served. *)
Record Call := {
  request : Request;
  faults : Op -> bool
}.

(** A call served: its answer and the database it leaves. *)
Record Step := {
  call : Call;
  response : Response;
  after : DB
}.

(** Calls served one after the other. *)
Fixpoint run (db : DB) (calls : list Call) : list Step :=
  match calls with
  | [] => []
  | c :: rest =>
      let '(r, db') := consume (faults c) (request c) db in
      {| call := c; response := r; after := db' |} :: run db' rest
  end.

End DownloadRoute.

(* ===================================================================== *)
(** ** [routes/chatbot.js]: POST /download/:productId                    *)
(* ===================================================================== *)

Module ChatbotRoute.
Import Mongo JSDate.
Local Open Scope mongo_scope.

(** [tokenId] is [req.user.id]: [None] when the token has no [id]
    property (the tokens that [routes/auth.js] signs carry [userId] only).
    [paramProductId] is [None] when the parameter does not cast to an
    ObjectId, in which case [Product.findById] throws.  [paramCanonical]
    tells whether the parameter is spelled as [ObjectId.prototype.toString]
    spells the id it casts to (24 lower-case hexadecimal digits): the
    handler compares [download.productId.toString()] with the parameter as
    it came, which holds exactly when the ids are equal and the parameter
    is spelled so. *)
Record Request := {
  tokenId : option ObjectId;
  paramProductId : option ObjectId;
  paramCanonical : bool;
  now : Z
}.

Inductive Response :=
| ProductNotFound                                   (* 404 *)
| ProductUnavailable                                (* 400 *)
| UserNotFound                                      (* 404 *)
| LimitReached (todayDownloads dailyLimit nextResetTime : Z)   (* 429 *)
| Ready (downloadUrl : string)
        (remainingDownloads todayDownloads dailyLimit : Z)
        (isRedownload : bool)                       (* 200 *)
| ServiceUnavailable.                               (* 500 *)

(** [process.env.DAILY_DOWNLOAD_LIMIT || 10]; the variable is [None] when
    unset or empty, and a number otherwise. *)
Definition DAILY_LIMIT (env : option Z) : Z := orDefault env 10.

(** The entries of the embedded history that fall on the day of [now]. *)
Definition todayDownloads (now : Z) (user : User.t) : list History.t :=
  let today := setHours0 now in
  List.filter
    (fun download => setHours0 (History.downloadedAt download) =? today)
    (User.downloads user).

Section Handler.
Variable fails : Op -> bool.
Variable env : option Z.

(** [await Promise.all([user.save(), product.save()])]: both writes are
    issued, and the failure of either rejects. *)
Definition saveBoth (now : Z) (userId : ObjectId) (user : User.t)
    (productId : ObjectId) (product : Product.t) : M unit :=
  fun s =>
    let s := if fails OpSaveUser then s
             else write false
                    (putUser userId (User.set_lastActivity user now)) s in
    let s := if fails OpSaveProduct then s
             else write false (putProduct productId product) s in
    if fails OpSaveUser || fails OpSaveProduct
    then (inl "database operation failed", s)
    else (inr tt, s).

Definition download (req : Request) : M Response :=
  let now := now req in
  let* product :=
    match paramProductId req with
    | Some productId => Product_findById fails false productId
    | None => throw "Cast to ObjectId failed"
    end in
  match product, paramProductId req with
  | Some product, Some productId =>
    if negb (Product.isActive product) then ret ProductUnavailable
    else
      let* user := User_findById fails false (tokenId req) in
      match user, tokenId req with
      | Some user, Some userId =>
        let today := setHours0 now in
        let todayDownloads := todayDownloads now user in
        let count := Z.of_nat (length todayDownloads) in
        let DAILY_LIMIT := DAILY_LIMIT env in
        if count >=? DAILY_LIMIT then
          ret (LimitReached count DAILY_LIMIT (today + msPerDay))
        else
          let alreadyDownloadedToday :=
            List.find
              (fun download =>
                 paramCanonical req
                 && N.eqb (History.productId download) productId)
              todayDownloads in
          match alreadyDownloadedToday with
          | Some _ =>
            ret (Ready (Product.downloadUrl product)
                       (Z.max 0 (DAILY_LIMIT - count)) count DAILY_LIMIT
                       true)
          | None =>
            let user :=
              User.set_history user
                (User.downloads user ++
                   [{| History.productId := productId;
                       History.productTitle := Product.title product;
                       History.productCategory := Product.category product;
                       History.downloadedAt := now;
                       History.downloadSource := "web";
                       History.ipAddress := "unknown" |}])
                (User.downloadStats user) in
            let product :=
              Product.set_downloads product
                (or0 (Product.downloads product) + 1) in
            let* _ := saveBoth now userId user productId product in
            ret (Ready (Product.downloadUrl product)
                       (Z.max 0 (DAILY_LIMIT - (count + 1))) (count + 1)
                       DAILY_LIMIT false)
          end
      | _, _ => ret UserNotFound
      end
  | _, _ => ret ProductNotFound
  end.

Definition handler (req : Request) : M Response :=
  tryCatch (download req) (fun _ => ret ServiceUnavailable).

Definition serve (req : Request) (db : DB) : Response * DB :=
  match handler req {| committed := db; staged := None;
                       commitCalled := false |} with
  | (inr response, s) => (response, committed s)
  | (inl _, s) => (ServiceUnavailable, committed s)
  end.
End Handler.

End ChatbotRoute.

(* ===================================================================== *)
(** ** [routes/auth.js] and [middleware/auth.js]: the tokens of the program *)
(* ===================================================================== *)

Module Tokens.

(** The payload of a token as the routes read it: its properties [userId]
    and [id], each [None] when the payload has no such property. *)
Record Payload := {
  userId : option ObjectId;
  id : option ObjectId
}.

(** [generateToken] of [routes/auth.js], [jwt.sign({ userId }, ...)]: the
    one place of the program that signs a token. *)
Definition generateToken (userId : ObjectId) : Payload :=
  {| userId := Some userId; id := None |}.

(** What [jwt.verify] makes of the [Authorization] header. *)
Inductive Token :=
| NoToken                          (* no header *)
| InvalidToken                     (* the verification throws *)
| Verified (decoded : Payload).    (* the decoded payload *)

(** A token that verifies is one the program has signed. *)
Definition issued (token : Token) : Prop :=
  match token with
  | Verified decoded => exists userId, decoded = generateToken userId
  | _ => True
  end.

End Tokens.

(* ===================================================================== *)
(** ** [routes/chatbot.js] behind [middleware/auth.js]                    *)
(* ===================================================================== *)

Module ChatbotEntry.
Import Mongo.
Local Open Scope mongo_scope.

Record Request := {
  token : Tokens.Token;
  paramProductId : option ObjectId;
  paramCanonical : bool;
  now : Z
}.

Inductive Answer :=
| NoTokenDenied                                 (* 401, by the middleware *)
| TokenNotValid                                 (* 401, by the middleware *)
| AccountNotFound                               (* 401, by the middleware *)
| Handled (response : ChatbotRoute.Response).   (* by the handler *)

Section Route.
Variable fails : Op -> bool.
Variable env : option Z.

(** [router.post('/download/:productId', auth, handler)]: the middleware
    puts the decoded payload in [req.user], looks the account of
    [decoded.userId] up and passes on; the handler reads [req.user.id]. *)
Definition route (req : Request) : M Answer :=
  match token req with
  | Tokens.NoToken => ret NoTokenDenied
  | Tokens.InvalidToken => ret TokenNotValid
  | Tokens.Verified decoded =>
      let* found :=
        tryCatch
          (let* user :=
             User_findById fails false (Tokens.userId decoded) in
           ret (Some user))
          (fun _ => ret None) in
      match found with
      | None => ret TokenNotValid
      | Some None => ret AccountNotFound
      | Some (Some _) =>
          let* response :=
            ChatbotRoute.handler fails env
              {| ChatbotRoute.tokenId := Tokens.id decoded;
                 ChatbotRoute.paramProductId := paramProductId req;
                 ChatbotRoute.paramCanonical := paramCanonical req;
                 ChatbotRoute.now := now req |} in
          ret (Handled response)
      end
  end.

Definition serve (req : Request) (db : DB) : Answer * DB :=
  match route req {| committed := db; staged := None;
                     commitCalled := false |} with
  | (inr answer, s) => (answer, committed s)
  | (inl _, s) => (Handled ChatbotRoute.ServiceUnavailable, committed s)
  end.
End Route.

End ChatbotEntry.


(* ===================================================================== *)
(** ** Sample data                                                       *)
(* ===================================================================== *)

Module Samples.

(** Instants of March 2024 and around, UTC. *)
Definition feb01_0000 : Z := 1706745600000.
Definition mar13_0900 : Z := 1710320400000.
Definition mar15_0000 : Z := 1710460800000.
Definition mar15_1000 : Z := 1710496800000.
Definition mar15_1020 : Z := 1710498000000.
Definition mar15_2200 : Z := 1710540000000.
Definition mar16_0000 : Z := 1710547200000.
Definition jun01_0000 : Z := 1717200000000.

Definition noStats : Stats.t :=
  {| Stats.totalDownloads := 0; Stats.themesDownloaded := 0;
     Stats.pluginsDownloaded := 0; Stats.templatesDownloaded := 0;
     Stats.graphicsDownloaded := 0; Stats.lastStatsUpdate := 0 |}.

Definition account (verified : bool) (tier : Subscription)
    (expiry : option Z) (daily : Z) (anchor : option Z) (monthly : Z)
    (month : string) (history : list History.t) : User.t :=
  {| User.email := "user@example.org"; User.subscription := tier;
     User.isVerified := verified;
     User.dailyDownloads := daily; User.dailyDownloadDate := anchor;
     User.monthlyDownloads := monthly; User.monthlyDownloadMonth := month;
     User.totalDownloads := monthly; User.premiumExpiry := expiry;
     User.lastActivity := feb01_0000; User.downloads := history;
     User.downloadStats := noStats; User.createdAt := feb01_0000 |}.

(** Last touched on 13 March, nothing downloaded that day. *)
Definition idle : User.t :=
  account true free None 0 (Some mar13_0900) 40 "2024-03" [].

(** Last touched on 13 March with seven downloads that day. *)
Definition busy : User.t :=
  account true free None 7 (Some mar13_0900) 47 "2024-03" [].

(** On 15 March: the daily window is used up. *)
Definition dailyExhausted : User.t :=
  account true free None 15 (Some mar15_0000) 120 "2024-03" [].

(** On 15 March: both windows are used up. *)
Definition bothExhausted : User.t :=
  account true free None 15 (Some mar15_0000) 350 "2024-03" [].

(** On 15 March: the monthly window is used up, the daily one is not. *)
Definition monthlyExhausted : User.t :=
  account true free None 3 (Some mar15_0000) 350 "2024-03" [].

(** One download short of the free monthly limit. *)
Definition almostExhausted : User.t :=
  account true free None 3 (Some mar15_0000) 349 "2024-03" [].

Definition lapsedPremium : User.t :=
  account true premium (Some feb01_0000) 3 (Some mar15_0000) 349 "2024-03" [].

Definition activePremium : User.t :=
  account true premium (Some jun01_0000) 3 (Some mar15_0000) 349 "2024-03" [].

Definition unverified : User.t :=
  account false free None 4 (Some mar13_0900) 20 "2024-03" [].

Definition theme : Product.t :=
  {| Product.title := "Starter Theme"; Product.category := "themes";
     Product.downloadUrl := "https://cdn.example.org/starter.zip";
     Product.downloads := 12; Product.isActive := true |}.

Definition db (u : User.t) : Mongo.DB :=
  {| Mongo.users := {[ 1%N := u ]};
     Mongo.products := {[ 7%N := theme ]};
     Mongo.downloadsColl := [] |}.

Definition noFaults (op : Mongo.Op) : bool := false.

Definition failsAt (op' op : Mongo.Op) : bool :=
  match op', op with
  | Mongo.OpFindUser, Mongo.OpFindUser
  | Mongo.OpFindProduct, Mongo.OpFindProduct
  | Mongo.OpFindDownload, Mongo.OpFindDownload
  | Mongo.OpSaveDownload, Mongo.OpSaveDownload
  | Mongo.OpSaveUser, Mongo.OpSaveUser
  | Mongo.OpSaveProduct, Mongo.OpSaveProduct
  | Mongo.OpCommit, Mongo.OpCommit => true
  | _, _ => false
  end.

Definition downloadAt (now : Z) : DownloadRoute.Request :=
  {| DownloadRoute.tokenUserId := 1%N;
     DownloadRoute.paramProductId := Some 7%N;
     DownloadRoute.ip := Some "203.0.113.9";
     DownloadRoute.userAgentHeader := None;
     DownloadRoute.now := now |}.

Definition chatDownloadAt (now : Z) : ChatbotRoute.Request :=
  {| ChatbotRoute.tokenId := Some 1%N;
     ChatbotRoute.paramProductId := Some 7%N;
     ChatbotRoute.paramCanonical := true;
     ChatbotRoute.now := now |}.

(** A request to the chatbot route with the token the program issues to
    the sample account, and one with a payload that has an [id] besides,
    which no code of the program signs. *)
Definition chatRequestAt (now : Z) : ChatbotEntry.Request :=
  {| ChatbotEntry.token := Tokens.Verified (Tokens.generateToken 1%N);
     ChatbotEntry.paramProductId := Some 7%N;
     ChatbotEntry.paramCanonical := true;
     ChatbotEntry.now := now |}.

Definition chatRequestWithIdAt (now : Z) : ChatbotEntry.Request :=
  {| ChatbotEntry.token :=
       Tokens.Verified {| Tokens.userId := Some 1%N; Tokens.id := Some 1%N |};
     ChatbotEntry.paramProductId := Some 7%N;
     ChatbotEntry.paramCanonical := true;
     ChatbotEntry.now := now |}.

(** Ten entries of the embedded history, all of 15 March. *)
Definition tenToday : list History.t :=
  (fun i : N =>
     {| History.productId := (100 + i)%N; History.productTitle := "Plugin";
        History.productCategory := "plugins";
        History.downloadedAt := mar15_0000 + Z.of_N i;
        History.downloadSource := "web"; History.ipAddress := "unknown" |})
  <$> [0; 1; 2; 3; 4; 5; 6; 7; 8; 9]%N.

(** Ten downloads on 15 March, by the counter and by the history. *)
Definition tenDownloads : User.t :=
  account true free None 10 (Some mar15_0000) 10 "2024-03" tenToday.

End Samples.

(* ===================================================================== *)
(** ** The month part of a month token                                   *)
(* ===================================================================== *)

(** [String(m).padStart(2, '0')] for the months 1 to 12, in order. *)
Definition monthNames : list string :=
  ["01"; "02"; "03"; "04"; "05"; "06"; "07"; "08"; "09"; "10"; "11"; "12"].

(* ===================================================================== *)
(** ** [models/User.js]: history, statistics and tier methods            *)
(* ===================================================================== *)

Module DownloadStats.
(** The object [getDownloadStats] returns.  [averageDownloadsPerDay] (a
    stored floating-point value) is left out; the two breakdowns list
    their keys in the order of first occurrence. *)
Record t := {
  dailyDownloads : Z;
  monthlyDownloads : Z;
  totalDownloads : Z;
  todayDownloadsDetailed : Z;
  weekDownloads : Z;
  monthDownloadsDetailed : Z;
  dailyLimit : Z;
  monthlyLimit : Z;
  dailyRemaining : Z;
  monthlyRemaining : Z;
  categoryBreakdown : list (string * Z);
  sourceBreakdown : list (string * Z);
  subscription : Subscription;
  isPremium : bool;
  accountAge : Z;
  mostActiveCategory : string;
  lastDownloadDate : option Z
}.
End DownloadStats.

Module UserMethods.
Import JSDate.

(** [o[k]] on an object used as a table of counts. *)
Definition countOf (o : list (string * Z)) (k : string) : option Z :=
  snd <$> List.find (fun p => String.eqb (fst p) k) o.

(** [acc[k] = (acc[k] || 0) + 1]: a new key goes last. *)
Fixpoint bump (k : string) (acc : list (string * Z)) : list (string * Z) :=
  match acc with
  | [] => [(k, 1)]
  | (k', n) :: rest =>
      if String.eqb k' k then (k', or0 n + 1) :: rest
      else (k', n) :: bump k rest
  end.

(** [keys.reduce((acc, k) => { acc[k] = (acc[k] || 0) + 1; return acc }, {})] *)
Definition tally (keys : list string) : list (string * Z) :=
  fold_left (fun acc k => bump k acc) keys [].

(** The number of times [k] occurs among [keys]: what [tally] is to
    compute for [k]. *)
Definition occurrences (k : string) (keys : list string) : Z :=
  Z.of_nat (length (List.filter (String.eqb k) keys)).

(** [s || dflt] on a string: the empty string is falsy. *)
Definition orString (s dflt : string) : string :=
  if String.eqb s EmptyString then dflt else s.

(** [Object.keys(stats).reduce((a, b) => stats[a] > stats[b] ? a : b, 'none')];
    a comparison with a missing count is false. *)
Definition mostActive (stats : list (string * Z)) : string :=
  fold_left
    (fun a b =>
       match countOf stats a, countOf stats b with
       | Some x, Some y => if x >? y then a else b
       | _, _ => b
       end)
    (fst <$> stats) "none".

(** [userSchema.methods.getDownloadStats]; the document is rolled over in
    place, so it is returned with the result. *)
Definition getDownloadStats (now : Z) (this : User.t)
    : DownloadStats.t * User.t :=
  let this := snd (User.resetDailyDownloadsIfNeeded now this) in
  let this := snd (User.resetMonthlyDownloadsIfNeeded now this) in
  let today := setHours0 now in
  let todayDownloads :=
    List.filter
      (fun download => setHours0 (History.downloadedAt download) =? today)
      (User.downloads this) in
  let weekAgo := today - 7 * 24 * 60 * 60 * 1000 in
  let weekDownloads :=
    List.filter (fun download => History.downloadedAt download >=? weekAgo)
                (User.downloads this) in
  let currentMonth := getMonth now in
  let currentYear := getFullYear now in
  let monthDownloads :=
    List.filter
      (fun download =>
         (getMonth (History.downloadedAt download) =? currentMonth)
         && (getFullYear (History.downloadedAt download) =? currentYear))
      (User.downloads this) in
  let categoryStats :=
    tally ((fun download =>
              orString (History.productCategory download) "unknown")
           <$> User.downloads this) in
  let sourceStats :=
    tally ((fun download => orString (History.downloadSource download) "web")
           <$> User.downloads this) in
  let isActive := User.isActive now this in
  let monthlyLimit := if isActive then 500 else 350 in
  ({| DownloadStats.dailyDownloads := or0 (User.dailyDownloads this);
      DownloadStats.monthlyDownloads := or0 (User.monthlyDownloads this);
      DownloadStats.totalDownloads := or0 (User.totalDownloads this);
      DownloadStats.todayDownloadsDetailed :=
        Z.of_nat (length todayDownloads);
      DownloadStats.weekDownloads := Z.of_nat (length weekDownloads);
      DownloadStats.monthDownloadsDetailed :=
        Z.of_nat (length monthDownloads);
      DownloadStats.dailyLimit := 15;
      DownloadStats.monthlyLimit := monthlyLimit;
      DownloadStats.dailyRemaining :=
        Z.max 0 (15 - or0 (User.dailyDownloads this));
      DownloadStats.monthlyRemaining :=
        Z.max 0 (monthlyLimit - or0 (User.monthlyDownloads this));
      DownloadStats.categoryBreakdown := categoryStats;
      DownloadStats.sourceBreakdown := sourceStats;
      DownloadStats.subscription := User.subscription this;
      DownloadStats.isPremium := isActive;
      DownloadStats.accountAge := (now - User.createdAt this) / msPerDay;
      DownloadStats.mostActiveCategory := mostActive categoryStats;
      DownloadStats.lastDownloadDate :=
        History.downloadedAt <$> last (User.downloads this) |}, this).

(** [list.sort((a, b) => b.downloadedAt - a.downloadedAt)].  The sort of
    the platform is stable, which fixes its result; it is computed here by
    insertion from the right, an entry going in front of the first one that
    is not newer than it. *)
Fixpoint insertNewestFirst (x : History.t) (l : list History.t)
    : list History.t :=
  match l with
  | [] => [x]
  | y :: rest =>
      if History.downloadedAt y >? History.downloadedAt x
      then y :: insertNewestFirst x rest
      else x :: y :: rest
  end.

Definition sortNewestFirst (l : list History.t) : list History.t :=
  foldr insertNewestFirst [] l.

(** [userSchema.methods.getDownloadHistory] *)
Definition getDownloadHistory (now days : Z) (this : User.t)
    : list History.t :=
  let startDate := setDate now (getDate now - days) in
  sortNewestFirst
    (List.filter (fun download => History.downloadedAt download >=? startDate)
                 (User.downloads this)).

Definition set_tier (u : User.t) (s : Subscription) (e : option Z) : User.t :=
  {| User.email := User.email u; User.subscription := s;
     User.isVerified := User.isVerified u;
     User.dailyDownloads := User.dailyDownloads u;
     User.dailyDownloadDate := User.dailyDownloadDate u;
     User.monthlyDownloads := User.monthlyDownloads u;
     User.monthlyDownloadMonth := User.monthlyDownloadMonth u;
     User.totalDownloads := User.totalDownloads u;
     User.premiumExpiry := e;
     User.lastActivity := User.lastActivity u;
     User.downloads := User.downloads u;
     User.downloadStats := User.downloadStats u;
     User.createdAt := User.createdAt u |}.

(** The changes [updatePremiumSubscription] makes to the document before it
    saves it ([premiumStartDate], which nothing reads, is not among the
    fields kept here). *)
Definition applyPremium (now durationInDays : Z) (this : User.t) : User.t :=
  set_tier this premium (Some (now + durationInDays * 24 * 60 * 60 * 1000)).

(** The changes [cancelPremiumSubscription] makes: the tier is free and the
    expiry is now. *)
Definition applyCancel (now : Z) (this : User.t) : User.t :=
  set_tier this free (Some now).

Section Saving.
Import Mongo.
Local Open Scope mongo_scope.
Variable fails : Op -> bool.

(** [userSchema.methods.updatePremiumSubscription] *)
Definition updatePremiumSubscription (session : bool) (now : Z)
    (id : ObjectId) (durationInDays : Z) (this : User.t) : M User.t :=
  let this := applyPremium now durationInDays this in
  tryCatch
    (let* _ := User_save fails session now id this in ret this)
    (fun _ => throw "Failed to update premium subscription").

(** [userSchema.methods.cancelPremiumSubscription] *)
Definition cancelPremiumSubscription (session : bool) (now : Z)
    (id : ObjectId) (this : User.t) : M User.t :=
  let this := applyCancel now this in
  tryCatch
    (let* _ := User_save fails session now id this in ret this)
    (fun _ => throw "Failed to cancel premium subscription").
End Saving.

(** The filter of [resetExpiredPremiumSubscriptions]:
    [{ subscription: 'premium', premiumExpiry: { $lt: now } }]; a missing
    expiry does not match. *)
Definition expiredPremium (now : Z) (u : User.t) : bool :=
  Subscription_eqb (User.subscription u) premium
  && match User.premiumExpiry u with
     | Some e => e <? now
     | None => false
     end.

(** [userSchema.statics.resetExpiredPremiumSubscriptions]: the collection
    after [updateMany(filter, { $set: { subscription: 'free' } })], with the
    number of documents modified. *)
Definition resetExpiredPremiumSubscriptions (now : Z)
    (users : gmap ObjectId User.t) : nat * gmap ObjectId User.t :=
  (size (filter (fun kv => expiredPremium now (snd kv) = true) users),
   (fun u => if expiredPremium now u
             then set_tier u free (User.premiumExpiry u) else u) <$> users).

End UserMethods.

(* ===================================================================== *)
(** ** [middleware/auth.js] and [routes/products.js]: track a download   *)
(* ===================================================================== *)

Module ProductsRoute.
Import Mongo.
Local Open Scope mongo_scope.

(** What [jwt.verify] makes of the [Authorization] header; the payload of
    a verified token may lack [userId]. *)
Inductive Token :=
| NoToken                                 (* no header *)
| InvalidToken                            (* the verification throws *)
| Verified (userId : option ObjectId).    (* the decoded payload *)

(** [paramId] is [None] when [req.params.id] does not cast to an ObjectId,
    in which case [Product.findById] throws. *)
Record Request := {
  token : Token;
  paramId : option ObjectId
}.

Inductive Response :=
| NoTokenDenied                      (* 401, by the middleware *)
| TokenNotValid                      (* 401, by the middleware *)
| UserNotFound                       (* 401, by the middleware *)
| ProductNotFound                    (* 404 *)
| Tracked (downloadUrl : string)     (* 200 *)
| ServerError.                       (* 500 *)

Section Handler.
Variable fails : Op -> bool.

(** [middleware/auth.js]: the handler [next] runs for a verified token of
    an account that exists; a failing lookup is answered like a bad
    token. *)
Definition auth (req : Request) (next : M Response) : M Response :=
  match token req with
  | NoToken => ret NoTokenDenied
  | InvalidToken => ret TokenNotValid
  | Verified userId =>
      let* found :=
        tryCatch
          (let* user := User_findById fails false userId in ret (Some user))
          (fun _ => ret None) in
      match found with
      | None => ret TokenNotValid
      | Some None => ret UserNotFound
      | Some (Some _) => next
      end
  end.

(** The handler of [POST /:id/download]. *)
Definition trackDownload (req : Request) : M Response :=
  tryCatch
    (let* product :=
       match paramId req with
       | Some id => Product_findById fails false id
       | None => throw "Cast to ObjectId failed"
       end in
     match product, paramId req with
     | Some product, Some id =>
       if negb (Product.isActive product) then ret ProductNotFound
       else
         let product :=
           Product.set_downloads product
             (or0 (Product.downloads product) + 1) in
         let* _ := Product_save fails false id product in
         ret (Tracked (Product.downloadUrl product))
     | _, _ => ret ProductNotFound
     end)
    (fun _ => ret ServerError).

Definition serve (req : Request) (db : DB) : Response * DB :=
  match auth req (trackDownload req)
          {| committed := db; staged := None; commitCalled := false |} with
  | (inr response, s) => (response, committed s)
  | (inl _, s) => (ServerError, committed s)
  end.
End Handler.

End ProductsRoute.

(* ===================================================================== *)
(** ** Counting over a run of download requests                          *)
(* ===================================================================== *)

Module Ledger.
Import Mongo DownloadRoute.

(** The number of accepted requests among the steps of a run. *)
Definition accepted (steps : list Step) : Z :=
  Z.of_nat
    (length
       (List.filter
          (fun s =>
             match outcome (response s) with Accepted => true | _ => false end)
          steps)).

(** The database a run leaves: the one after its last step, or the one it
    started on when there was no request. *)
Definition final (db : DB) (steps : list Step) : DB :=
  List.last (after <$> steps) db.

End Ledger.

(* ===================================================================== *)
(** ** Further sample data                                               *)
(* ===================================================================== *)

Module MoreSamples.

(** An account with no anchors of this year: never touched since January,
    its daily anchor missing. *)
Definition stale : User.t :=
  Samples.account true free None 5 None 90 "2024-01" [].

(** On 15 March: one download short of the daily limit. *)
Definition lastDailySlot : User.t :=
  Samples.account true free None 14 (Some Samples.mar15_0000) 100 "2024-03"
    [].

(** 31 January and 1 March 2024, midnight UTC. *)
Definition jan31_0000 : Z := 1706659200000.
Definition mar01_0000 : Z := 1709251200000.

(** Two requests of 15 March for the sample product, with no failure. *)
Definition twoCalls : list DownloadRoute.Call :=
  [ {| DownloadRoute.request := Samples.downloadAt Samples.mar15_1000;
       DownloadRoute.faults := Samples.noFaults |};
    {| DownloadRoute.request := Samples.downloadAt Samples.mar15_2200;
       DownloadRoute.faults := Samples.noFaults |} ].

(** A request to the track-download route by the sample account for the
    sample product. *)
Definition trackRequest : ProductsRoute.Request :=
  {| ProductsRoute.token := ProductsRoute.Verified (Some 1%N);
     ProductsRoute.paramId := Some 7%N |}.

End MoreSamples.

(* ===================================================================== *)
(** ** Facts about the calendar                                          *)
(* ===================================================================== *)

Section CalendarFacts.
Import JSDate.

Lemma yearOfEra_bounds doe :
  0 <= doe < daysPerEra -> 0 <= yearOfEra doe <= 399.
Proof.
  unfold yearOfEra, daysPerEra. intros H.
  Z.div_mod_to_equations; lia.
Qed.

Lemma dayOfYear_bounds doe :
  0 <= doe < daysPerEra ->
  0 <= dayOfYear doe < yearLen (yearOfEra doe).
Proof.
  unfold dayOfYear, yearLen, yearOfEra, daysPerEra. intros H.
  Z.div_mod_to_equations; lia.
Qed.

Lemma yearLen_bounds yoe : 365 <= yearLen yoe <= 366.
Proof. unfold yearLen. Z.div_mod_to_equations; lia. Qed.

Lemma marchMonth_bounds doy : 0 <= doy <= 365 -> 0 <= marchMonth doy <= 11.
Proof. unfold marchMonth. intros H. Z.div_mod_to_equations; lia. Qed.

Lemma marchMonth_span doy :
  daysBeforeMarchMonth (marchMonth doy) <= doy
  < daysBeforeMarchMonth (marchMonth doy + 1).
Proof.
  unfold marchMonth, daysBeforeMarchMonth. Z.div_mod_to_equations; lia.
Qed.

Lemma marchMonth_of_span mp doy :
  daysBeforeMarchMonth mp <= doy < daysBeforeMarchMonth (mp + 1) ->
  marchMonth doy = mp.
Proof.
  unfold marchMonth, daysBeforeMarchMonth. intros H.
  Z.div_mod_to_equations; lia.
Qed.

Lemma yearOfEra_compose yoe doy :
  0 <= yoe <= 399 -> 0 <= doy < yearLen yoe ->
  0 <= yoe * 365 + yoe / 4 - yoe / 100 + doy < daysPerEra
  /\ yearOfEra (yoe * 365 + yoe / 4 - yoe / 100 + doy) = yoe.
Proof.
  unfold yearOfEra, yearLen, daysPerEra. intros Hy Hd.
  Z.div_mod_to_equations; lia.
Qed.

Lemma monthOfMarchMonth_bounds mp :
  0 <= mp <= 11 -> 0 <= monthOfMarchMonth mp <= 11.
Proof.
  unfold monthOfMarchMonth. intros H. destruct (Z.ltb_spec mp 10); lia.
Qed.

Lemma marchMonth_roundtrip mp :
  0 <= mp <= 11 -> marchMonthOfMonth (monthOfMarchMonth mp) = mp.
Proof.
  unfold marchMonthOfMonth, monthOfMarchMonth. intros H.
  destruct (Z.ltb_spec mp 10).
  - destruct (Z.leb_spec (mp + 2) 1); lia.
  - destruct (Z.leb_spec (mp - 10) 1); lia.
Qed.

(** Every day number is a day of a year of an era. *)
Lemma marchDay_decompose z :
  exists era yoe doy,
    0 <= yoe <= 399 /\ 0 <= doy < yearLen yoe /\ z = marchDay era yoe doy.
Proof.
  set (doe := (z + shift) mod daysPerEra).
  assert (Hdoe : 0 <= doe < daysPerEra)
    by (apply Z.mod_pos_bound; reflexivity).
  exists ((z + shift) / daysPerEra), (yearOfEra doe), (dayOfYear doe).
  split; [apply yearOfEra_bounds, Hdoe|].
  split; [apply dayOfYear_bounds, Hdoe|].
  pose proof (Z.div_mod (z + shift) daysPerEra) as Hz.
  unfold marchDay, dayOfYear. cbv zeta. fold doe in Hz.
  unfold daysPerEra in *. lia.
Qed.

(** The calendar fields of a day given by era, year and day of year. *)
Lemma marchDay_fields era yoe doy :
  0 <= yoe <= 399 -> 0 <= doy < yearLen yoe ->
  let m := monthOfMarchMonth (marchMonth doy) in
  monthFromDay (marchDay era yoe doy) = m
  /\ dateFromDay (marchDay era yoe doy)
     = doy - daysBeforeMarchMonth (marchMonth doy) + 1
  /\ yearFromDay (marchDay era yoe doy)
     = yoe + era * 400 + (if m <=? 1 then 1 else 0).
Proof.
  intros Hy Hd m.
  destruct (yearOfEra_compose yoe doy Hy Hd) as [Hdoe Hyoe].
  set (doe := yoe * 365 + yoe / 4 - yoe / 100 + doy) in *.
  assert (Hz : marchDay era yoe doy + shift = doe + era * daysPerEra)
    by (unfold marchDay, doe; lia).
  assert (Hmod : (marchDay era yoe doy + shift) mod daysPerEra = doe).
  { rewrite Hz, Z.mod_add by (unfold daysPerEra; lia).
    apply Z.mod_small, Hdoe. }
  assert (Hdiv : (marchDay era yoe doy + shift) / daysPerEra = era).
  { rewrite Hz, Z.div_add by (unfold daysPerEra; lia).
    rewrite Z.div_small by apply Hdoe. lia. }
  assert (Hdoy : dayOfYear doe = doy).
  { unfold dayOfYear. cbv zeta. rewrite Hyoe. unfold doe. lia. }
  unfold yearFromDay, dateFromDay, monthFromDay. cbv zeta.
  rewrite Hmod, Hdiv, Hyoe, Hdoy. fold m.
  repeat split. destruct (m <=? 1); lia.
Qed.

Lemma dayFromCivil_march y m d :
  0 <= m <= 11 ->
  let Y := if m <=? 1 then y - 1 else y in
  dayFromCivil y m d
  = marchDay (Y / 400) (Y mod 400)
             (daysBeforeMarchMonth (marchMonthOfMonth m) + d - 1).
Proof.
  intros Hm Y. unfold dayFromCivil, marchDay. cbv zeta. fold Y.
  rewrite (Z.mod_eq Y 400) by lia.
  replace (Y - Y / 400 * 400) with (Y - 400 * (Y / 400)) by lia. lia.
Qed.

Lemma marchDay_next_year era yoe :
  0 <= yoe <= 399 ->
  let Y := yoe + era * 400 + 1 in
  marchDay (Y / 400) (Y mod 400) 0 = marchDay era yoe (yearLen yoe).
Proof.
  intros Hy Y. unfold marchDay, yearLen, daysPerEra, shift. subst Y.
  Z.div_mod_to_equations; lia.
Qed.

Lemma marchYear_split era yoe :
  0 <= yoe <= 399 ->
  (yoe + era * 400) / 400 = era /\ (yoe + era * 400) mod 400 = yoe.
Proof.
  intros Hy. split.
  - rewrite Z.div_add by lia. rewrite Z.div_small by lia. lia.
  - rewrite Z.mod_add by lia. apply Z.mod_small. lia.
Qed.

(** The calendar fields of a day number denote that day. *)
Lemma dayFromCivil_fields z :
  dayFromCivil (yearFromDay z) (monthFromDay z) (dateFromDay z) = z.
Proof.
  destruct (marchDay_decompose z) as (era & yoe & doy & Hy & Hd & ->).
  destruct (marchDay_fields era yoe doy Hy Hd) as (Hm & Hdate & Hyear).
  pose proof (yearLen_bounds yoe) as Hlen.
  assert (Hmp : 0 <= marchMonth doy <= 11) by (apply marchMonth_bounds; lia).
  rewrite dayFromCivil_march
    by (rewrite Hm; apply monthOfMarchMonth_bounds, Hmp).
  rewrite Hm, Hdate, Hyear, (marchMonth_roundtrip _ Hmp).
  destruct (marchYear_split era yoe Hy) as [Hdiv Hmod].
  replace (if monthOfMarchMonth (marchMonth doy) <=? 1
           then yoe + era * 400
                + (if monthOfMarchMonth (marchMonth doy) <=? 1 then 1 else 0)
                - 1
           else yoe + era * 400
                + (if monthOfMarchMonth (marchMonth doy) <=? 1 then 1 else 0))
    with (yoe + era * 400)
    by (destruct (monthOfMarchMonth (marchMonth doy) <=? 1); lia).
  rewrite Hdiv, Hmod. f_equal. lia.
Qed.

Lemma monthFromDay_bounds z : 0 <= monthFromDay z <= 11.
Proof.
  destruct (marchDay_decompose z) as (era & yoe & doy & Hy & Hd & ->).
  destruct (marchDay_fields era yoe doy Hy Hd) as (-> & _ & _).
  pose proof (yearLen_bounds yoe).
  apply monthOfMarchMonth_bounds, marchMonth_bounds. lia.
Qed.

Lemma dateFromDay_pos z : 1 <= dateFromDay z.
Proof.
  destruct (marchDay_decompose z) as (era & yoe & doy & Hy & Hd & ->).
  destruct (marchDay_fields era yoe doy Hy Hd) as (_ & -> & _).
  pose proof (marchMonth_span doy). lia.
Qed.

Lemma yearFromDay_epoch z : 0 <= z -> 1970 <= yearFromDay z.
Proof.
  destruct (marchDay_decompose z) as (era & yoe & doy & Hy & Hd & ->).
  destruct (marchDay_fields era yoe doy Hy Hd) as (_ & _ & ->).
  pose proof (yearLen_bounds yoe) as Hlen.
  unfold marchDay, monthOfMarchMonth, marchMonth, daysPerEra, shift.
  intros Hz.
  destruct (Z.ltb_spec ((5 * doy + 2) / 153) 10) as [Hmp|Hmp];
    [destruct (Z.leb_spec ((5 * doy + 2) / 153 + 2) 1)
    |destruct (Z.leb_spec ((5 * doy + 2) / 153 - 10) 1)];
    Z.div_mod_to_equations; lia.
Qed.

(** [MakeDay] of the fields of a day, with another date. *)
Lemma MakeDay_fields z d :
  MakeDay (yearFromDay z) (monthFromDay z) d = z - dateFromDay z + d.
Proof.
  pose proof (monthFromDay_bounds z) as Hm.
  unfold MakeDay.
  rewrite Z.div_small, Z.mod_small, Z.add_0_r by lia.
  pose proof (dayFromCivil_fields z) as Hrt.
  unfold dayFromCivil in *. lia.
Qed.

(** The first day of the month after the one of a day, given by era, year
    and day of year. *)
Lemma MakeDay_next_month_march era yoe mp :
  0 <= yoe <= 399 -> 0 <= mp <= 11 ->
  let m := monthOfMarchMonth mp in
  MakeDay (yoe + era * 400 + (if m <=? 1 then 1 else 0)) (m + 1) 1
  = marchDay era yoe
      (if mp <=? 10 then daysBeforeMarchMonth (mp + 1) else yearLen yoe).
Proof.
  intros Hy Hmp m. subst m.
  assert (Hcases : mp = 0 \/ mp = 1 \/ mp = 2 \/ mp = 3 \/ mp = 4 \/ mp = 5
                   \/ mp = 6 \/ mp = 7 \/ mp = 8 \/ mp = 9 \/ mp = 10
                   \/ mp = 11) by lia.
  unfold MakeDay, dayFromCivil, marchDay, yearLen, daysBeforeMarchMonth,
    marchMonthOfMonth, monthOfMarchMonth, daysPerEra, shift.
  (repeat (destruct Hcases as [->|Hcases]); try subst mp; simpl;
  Z.div_mod_to_equations; lia).
Qed.

(** What [MakeDay y (m + 1) 1] is for the fields [y], [m] of a day: the
    first day of the month that follows. *)
Lemma MakeDay_next_month z :
  let next := MakeDay (yearFromDay z) (monthFromDay z + 1) 1 in
  z < next <= z + 31
  /\ (forall z', z <= z' < next ->
        yearFromDay z' = yearFromDay z /\ monthFromDay z' = monthFromDay z)
  /\ monthFromDay next = (monthFromDay z + 1) mod 12
  /\ dateFromDay next = 1
  /\ yearFromDay next = yearFromDay z + (monthFromDay z + 1) / 12.
Proof.
  destruct (marchDay_decompose z) as (era & yoe & doy & Hy & Hd & ->).
  destruct (marchDay_fields era yoe doy Hy Hd) as (Hm & _ & Hyear).
  pose proof (yearLen_bounds yoe) as Hlen.
  pose proof (marchMonth_span doy) as Hspan.
  assert (Hmp : 0 <= marchMonth doy <= 11) by (apply marchMonth_bounds; lia).
  cbv zeta. rewrite Hm, Hyear, MakeDay_next_month_march by assumption.
  set (mp := marchMonth doy) in *.
  set (E := if mp <=? 10 then daysBeforeMarchMonth (mp + 1) else yearLen yoe).
  assert (HE : doy < E <= yearLen yoe /\ E <= doy + 31
               /\ E <= daysBeforeMarchMonth (mp + 1)).
  { subst E. unfold daysBeforeMarchMonth in *.
    destruct (Z.leb_spec mp 10); Z.div_mod_to_equations; lia. }
  split; [unfold marchDay; lia|].
  split.
  { intros z' Hz'.
    assert (Hz : z' = marchDay era yoe (doy + (z' - marchDay era yoe doy)))
      by (unfold marchDay; lia).
    assert (Hd' : 0 <= doy + (z' - marchDay era yoe doy) < yearLen yoe)
      by (unfold marchDay in *; lia).
    rewrite Hz.
    destruct (marchDay_fields era yoe _ Hy Hd') as (-> & _ & ->).
    rewrite (marchMonth_of_span mp) by (unfold marchDay in *; lia).
    split; reflexivity. }
  destruct (Z.leb_spec mp 10) as [Hle|Hgt]; subst E.
  - assert (Hd' : 0 <= daysBeforeMarchMonth (mp + 1) < yearLen yoe).
    { unfold daysBeforeMarchMonth. Z.div_mod_to_equations; lia. }
    destruct (marchDay_fields era yoe _ Hy Hd') as (-> & -> & ->).
    rewrite (marchMonth_of_span (mp + 1))
      by (unfold daysBeforeMarchMonth; Z.div_mod_to_equations; lia).
    unfold monthOfMarchMonth.
    assert (Hc : mp < 9 \/ mp = 9 \/ mp = 10) by lia.
    destruct Hc as [Hc|[->| ->]];
      [|repeat split; simpl; Z.div_mod_to_equations; lia..].
    destruct (Z.ltb_spec (mp + 1) 10); [|lia].
    destruct (Z.ltb_spec mp 10); [|lia].
    destruct (Z.leb_spec (mp + 1 + 2) 1); [lia|].
    destruct (Z.leb_spec (mp + 2) 1); [lia|].
    rewrite Z.div_small, Z.mod_small by lia. lia.
  - assert (mp = 11) as -> by lia.
    rewrite <- marchDay_next_year by assumption. cbv zeta.
    set (Y := yoe + era * 400 + 1).
    assert (HY : 0 <= Y mod 400 <= 399)
      by (pose proof (Z.mod_pos_bound Y 400); lia).
    assert (H0 : 0 <= 0 < yearLen (Y mod 400))
      by (pose proof (yearLen_bounds (Y mod 400)); lia).
    destruct (marchDay_fields (Y / 400) (Y mod 400) 0 HY H0)
      as (-> & -> & ->).
    change (monthOfMarchMonth (marchMonth 0)) with 2.
    change (monthOfMarchMonth 11) with 1.
    change (daysBeforeMarchMonth (marchMonth 0)) with 0.
    change ((1 + 1) mod 12) with 2. change ((1 + 1) / 12) with 0.
    change (2 <=? 1) with false. change (1 <=? 1) with true.
    pose proof (Z.div_mod Y 400). subst Y. lia.
Qed.
End CalendarFacts.

(* ===================================================================== *)
(** ** Facts about instants: day and month boundaries                    *)
(* ===================================================================== *)

Section BoundaryFacts.
Import JSDate.

Lemma msPerDay_pos : 0 < msPerDay.
Proof. reflexivity. Qed.

Lemma Day_bounds t : Day t * msPerDay <= t < (Day t + 1) * msPerDay.
Proof.
  unfold Day. pose proof msPerDay_pos. generalize dependent msPerDay.
  intros b Hb. Z.div_mod_to_equations; nia.
Qed.

Lemma Day_nonneg t : 0 <= t -> 0 <= Day t.
Proof. intros H. apply Z.div_pos; [assumption|apply msPerDay_pos]. Qed.

Lemma Day_of_midnight z : Day (z * msPerDay) = z.
Proof. unfold Day. apply Z.div_mul. pose proof msPerDay_pos. lia. Qed.

Lemma Day_mono s t : s <= t -> Day s <= Day t.
Proof. intros H. apply Z.div_le_mono; [apply msPerDay_pos|assumption]. Qed.

Lemma Day_lt_midnight s z : s < z * msPerDay -> Day s < z.
Proof.
  intros H. apply Z.div_lt_upper_bound; [apply msPerDay_pos|lia].
Qed.

Lemma Day_between s t : t <= s < (Day t + 1) * msPerDay -> Day s = Day t.
Proof.
  intros [H1 H2]. apply Day_mono in H1. apply Day_lt_midnight in H2. lia.
Qed.

(** From the epoch on, [new Date(y, m, d)] takes the year as it is. *)
Lemma newDate_fields t d :
  0 <= t ->
  newDate (getFullYear t) (getMonth t) d
  = (Day t - getDate t + d) * msPerDay.
Proof.
  intros Ht. unfold newDate, getFullYear, getMonth, getDate.
  pose proof (yearFromDay_epoch (Day t) (Day_nonneg t Ht)) as Hy.
  destruct (Z.leb_spec (yearFromDay (Day t)) 99); [lia|].
  rewrite andb_false_r, MakeDay_fields. reflexivity.
Qed.

(** [startOfDay] is the midnight that opens the day. *)
Lemma startOfDay_eq t : 0 <= t -> User.startOfDay t = Day t * msPerDay.
Proof.
  intros Ht. unfold User.startOfDay. rewrite newDate_fields by assumption.
  f_equal. lia.
Qed.

Lemma startOfDay_idem t :
  0 <= t -> User.startOfDay (User.startOfDay t) = User.startOfDay t.
Proof.
  intros Ht. rewrite (startOfDay_eq t Ht).
  pose proof (Day_nonneg t Ht).
  rewrite startOfDay_eq by (unfold msPerDay; lia).
  now rewrite Day_of_midnight.
Qed.

(** [tomorrow] is the midnight that closes the day. *)
Lemma tomorrow_eq t : 0 <= t -> User.tomorrow t = (Day t + 1) * msPerDay.
Proof.
  intros Ht. unfold User.tomorrow. rewrite newDate_fields by assumption.
  f_equal. unfold getDate. lia.
Qed.

Lemma nextMonth_eq t :
  0 <= t ->
  User.nextMonth t
  = MakeDay (yearFromDay (Day t)) (monthFromDay (Day t) + 1) 1 * msPerDay.
Proof.
  intros Ht. unfold User.nextMonth, newDate, getFullYear, getMonth.
  pose proof (yearFromDay_epoch (Day t) (Day_nonneg t Ht)) as Hy.
  destruct (Z.leb_spec (yearFromDay (Day t)) 99); [lia|].
  now rewrite andb_false_r.
Qed.

Lemma sameCalendarDay_Day s t : sameCalendarDay s t <-> Day s = Day t.
Proof.
  unfold sameCalendarDay, getFullYear, getMonth, getDate. split.
  - intros (Hy & Hm & Hd).
    rewrite <- (dayFromCivil_fields (Day s)), <- (dayFromCivil_fields (Day t)).
    now rewrite Hy, Hm, Hd.
  - now intros ->.
Qed.

Lemma sameCalendarMonth_token s t :
  sameCalendarMonth s t -> User.monthToken s = User.monthToken t.
Proof. unfold User.monthToken. now intros [-> ->]. Qed.

Lemma tomorrow_boundary t :
  0 <= t -> nextBoundary sameCalendarDay t (User.tomorrow t).
Proof.
  intros Ht. rewrite tomorrow_eq by assumption.
  pose proof (Day_bounds t) as Hb.
  split; [lia|]. split.
  - intros s Hs. apply sameCalendarDay_Day, Day_between, Hs.
  - rewrite sameCalendarDay_Day, Day_of_midnight. lia.
Qed.

Lemma nextMonth_boundary t :
  0 <= t -> nextBoundary sameCalendarMonth t (User.nextMonth t).
Proof.
  intros Ht. rewrite nextMonth_eq by assumption.
  pose proof (MakeDay_next_month (Day t)) as H. cbv zeta in H.
  revert H.
  generalize (MakeDay (yearFromDay (Day t)) (monthFromDay (Day t) + 1) 1).
  intros next (Hlt & Hsame & Hm & _ & _).
  pose proof (Day_bounds t) as Hb. pose proof msPerDay_pos as Hpos.
  split; [nia|]. split.
  - intros s [Hs1 Hs2]. apply Hsame. split.
    + apply Day_mono, Hs1.
    + apply Day_lt_midnight, Hs2.
  - intros [_ Hmonth]. unfold getMonth in Hmonth.
    rewrite Day_of_midnight, Hm in Hmonth.
    pose proof (monthFromDay_bounds (Day t)) as Hr.
    revert Hmonth Hr. generalize (monthFromDay (Day t)). intros m Hmonth Hr.
    Z.div_mod_to_equations; lia.
Qed.

(** [ceilDiv a b] is the least number of units of [b] that cover [a]. *)
Lemma ceilDiv_spec a b :
  0 < b -> (ceilDiv a b - 1) * b < a <= ceilDiv a b * b.
Proof.
  intros Hb. unfold ceilDiv. Z.div_mod_to_equations; nia.
Qed.
End BoundaryFacts.

(* ===================================================================== *)
(** ** The download handler as a decision tree                           *)
(* ===================================================================== *)

Section HandlerFacts.
Import Mongo DownloadRoute.

Lemma consume_flat fails req db :
  consume fails req db = consumeFlat fails req db.
Proof.
  unfold consume, consumeFlat, handler, finally, tryCatch.
  destruct (paramProductId req) as [productId|]; [|reflexivity].
  unfold transaction, User_findById, Product_findById, Download_findOne,
    Download_save, Product_save, commitTransaction, incrementDownloadCount,
    User_save, attempt, tryCatch, bind, ret, throw, startTransaction,
    abortTransaction, modify, view, write, orDefault; simpl.
  destruct (fails OpFindUser); simpl; [reflexivity|].
  destruct (users db !! tokenUserId req) as [user|]; simpl; [|reflexivity].
  destruct (User.isVerified user); simpl; [|reflexivity].
  destruct (User.canDownload (now req) user) as [downloadCheck user'].
  simpl.
  destruct (User.canDownload_ downloadCheck); simpl; [|reflexivity].
  destruct (fails OpFindProduct); simpl; [reflexivity|].
  destruct (products db !! productId) as [product|]; simpl; [|reflexivity].
  destruct (Product.isActive product); simpl; [|reflexivity].
  destruct (fails OpFindDownload); simpl; [reflexivity|].
  destruct (List.find _ (downloadsColl db)); simpl; [reflexivity|].
  destruct (fails OpSaveDownload); simpl; [reflexivity|].
  destruct (fails OpSaveUser); simpl; [reflexivity|].
  destruct (fails OpSaveProduct); simpl; [reflexivity|].
  destruct (fails OpCommit); simpl; [reflexivity|].
  destruct (User.canDownload (now req) _) as [updated user'']. reflexivity.
Qed.
End HandlerFacts.

(* ===================================================================== *)
(** ** Roll-over and evaluator: the properties of [models/User.js]       *)
(* ===================================================================== *)

Section UserFacts.
Import JSDate.

Lemma or0_id x : or0 x = x.
Proof. unfold or0. destruct (Z.eqb_spec x 0); congruence. Qed.

Lemma startOfDay_sameCalendarDay s t :
  sameCalendarDay s t -> User.startOfDay s = User.startOfDay t.
Proof. unfold User.startOfDay. now intros (-> & -> & ->). Qed.

(** The daily roll-over touches the daily counter and its anchor only. *)
Lemma resetDaily_shape now u :
  snd (User.resetDailyDownloadsIfNeeded now u) = u
  \/ snd (User.resetDailyDownloadsIfNeeded now u)
     = User.set_daily u 0 (Some (User.startOfDay now)).
Proof.
  unfold User.resetDailyDownloadsIfNeeded. cbv zeta.
  destruct (match User.startOfDay <$> User.dailyDownloadDate u with
            | Some last => User.startOfDay now >? last
            | None => true
            end); simpl; auto.
Qed.

(** The monthly roll-over touches the monthly counter and its anchor
    only. *)
Lemma resetMonthly_shape now u :
  snd (User.resetMonthlyDownloadsIfNeeded now u) = u
  \/ snd (User.resetMonthlyDownloadsIfNeeded now u)
     = User.set_monthly u 0 (User.monthToken now).
Proof.
  unfold User.resetMonthlyDownloadsIfNeeded. cbv zeta.
  destruct (negb _); simpl; auto.
Qed.

(** A roll-over just done is not done again on the same day. *)
Lemma resetDaily_again t1 t2 u :
  0 <= t1 -> sameCalendarDay t1 t2 ->
  User.resetDailyDownloadsIfNeeded t2
    (snd (User.resetDailyDownloadsIfNeeded t1 u))
  = (false, snd (User.resetDailyDownloadsIfNeeded t1 u)).
Proof.
  intros Ht Hsame.
  pose proof (startOfDay_sameCalendarDay _ _ Hsame) as Hday.
  unfold User.resetDailyDownloadsIfNeeded at 2 3. cbv zeta.
  destruct (match User.startOfDay <$> User.dailyDownloadDate u with
            | Some last => User.startOfDay t1 >? last
            | None => true
            end) eqn:Hcond; simpl.
  - unfold User.resetDailyDownloadsIfNeeded. cbv zeta. simpl.
    rewrite <- Hday, (startOfDay_idem t1 Ht), Z.gtb_ltb, Z.ltb_irrefl.
    reflexivity.
  - unfold User.resetDailyDownloadsIfNeeded. cbv zeta.
    rewrite <- Hday, Hcond. reflexivity.
Qed.

Lemma resetMonthly_again now u :
  User.resetMonthlyDownloadsIfNeeded now
    (snd (User.resetMonthlyDownloadsIfNeeded now u))
  = (false, snd (User.resetMonthlyDownloadsIfNeeded now u)).
Proof.
  unfold User.resetMonthlyDownloadsIfNeeded at 2 3. cbv zeta.
  destruct (negb (String.eqb (User.monthlyDownloadMonth u)
                             (User.monthToken now))) eqn:Hcond; simpl.
  - unfold User.resetMonthlyDownloadsIfNeeded. cbv zeta. simpl.
    now rewrite String.eqb_refl.
  - unfold User.resetMonthlyDownloadsIfNeeded. cbv zeta.
    now rewrite Hcond.
Qed.

Lemma monthlyLimit_values now u :
  User.monthlyLimit now u = 500 \/ User.monthlyLimit now u = 350.
Proof. unfold User.monthlyLimit. destruct (User.isActive now u); auto. Qed.

(** The limit depends on the tier fields only. *)
Lemma monthlyLimit_ext now u v :
  User.subscription u = User.subscription v ->
  User.premiumExpiry u = User.premiumExpiry v ->
  User.monthlyLimit now u = User.monthlyLimit now v.
Proof.
  unfold User.monthlyLimit, User.isActive, User.isPremium.
  now intros -> ->.
Qed.

(** The limit of an account can only shrink as time passes. *)
Lemma monthlyLimit_antitone s t u :
  s <= t -> User.monthlyLimit t u <= User.monthlyLimit s u.
Proof.
  intros Hst. unfold User.monthlyLimit, User.isActive.
  destruct (User.isPremium u); simpl; [|lia].
  destruct (User.premiumExpiry u) as [e|]; [|lia].
  destruct (Z.gtb_spec e t), (Z.gtb_spec e s); lia.
Qed.

Lemma rolledOver_tier now u :
  User.subscription (User.rolledOver now u) = User.subscription u
  /\ User.premiumExpiry (User.rolledOver now u) = User.premiumExpiry u
  /\ User.isVerified (User.rolledOver now u) = User.isVerified u
  /\ User.totalDownloads (User.rolledOver now u) = User.totalDownloads u.
Proof.
  unfold User.rolledOver.
  destruct (resetMonthly_shape now
              (snd (User.resetDailyDownloadsIfNeeded now u))) as [-> | ->],
           (resetDaily_shape now u) as [-> | ->]; simpl; auto.
Qed.

Lemma canDownload_verified_snd now u :
  User.isVerified u = true ->
  snd (User.canDownload now u) = User.rolledOver now u.
Proof.
  intros Hv. unfold User.canDownload , User.rolledOver. rewrite Hv. simpl.
  destruct (User.resetDailyDownloadsIfNeeded now u) as [r1 u1]. simpl.
  destruct (User.resetMonthlyDownloadsIfNeeded now u1) as [r2 u2].
  reflexivity.
Qed.
End UserFacts.

Section EvaluatorFacts.
Import JSDate.

(** What [canDownload] answers for a verified account, in terms of the
    document after the roll-overs. *)
Lemma canDownload_verified now u :
  User.isVerified u = true ->
  let v := User.rolledOver now u in
  let c := fst (User.canDownload now u) in
  let hours := ceilDiv (User.tomorrow now - now) msPerHour in
  let days := ceilDiv (User.nextMonth now - now) msPerDay in
  let dailyRemaining := Z.max 0 (15 - User.dailyDownloads v) in
  let monthlyRemaining :=
    Z.max 0 (User.monthlyLimit now u - User.monthlyDownloads v) in
  snd (User.canDownload now u) = v
  /\ User.daily c
     = {| User.used := User.dailyDownloads v; User.limit := 15;
          User.remaining := dailyRemaining;
          User.untilReset := Some hours |}
  /\ User.monthly c
     = {| User.used := User.monthlyDownloads v;
          User.limit := User.monthlyLimit now u;
          User.remaining := monthlyRemaining;
          User.untilReset := Some days |}
  /\ User.canDownload_ c = (dailyRemaining >? 0) && (monthlyRemaining >? 0)
  /\ User.reason c
     = (if negb ((dailyRemaining >? 0) && (monthlyRemaining >? 0)) then
          if dailyRemaining <=? 0 then
            User.dailyReason (User.dailyDownloads v) hours
          else if monthlyRemaining <=? 0 then
            User.monthlyReason (User.monthlyDownloads v)
              (User.monthlyLimit now u) days
              (negb (User.isActive now u) && negb (User.isPremium u))
          else "Within limits"
        else "Within limits").
Proof.
  intros Hv. cbv zeta.
  destruct (rolledOver_tier now u) as (Hsub & Hexp & _ & _).
  assert (Hlim : User.monthlyLimit now (User.rolledOver now u)
                 = User.monthlyLimit now u)
    by (apply monthlyLimit_ext; assumption).
  assert (Hact : User.isActive now (User.rolledOver now u)
                 = User.isActive now u).
  { unfold User.isActive, User.isPremium. now rewrite Hsub, Hexp. }
  assert (Hprem : User.isPremium (User.rolledOver now u) = User.isPremium u).
  { unfold User.isPremium. now rewrite Hsub. }
  revert Hlim Hact Hprem. unfold User.rolledOver, User.canDownload.
  rewrite Hv. simpl negb. cbv iota.
  destruct (User.resetDailyDownloadsIfNeeded now u) as [r1 u1]. simpl snd.
  destruct (User.resetMonthlyDownloadsIfNeeded now u1) as [r2 u2].
  cbv zeta. simpl. intros -> -> ->. rewrite !or0_id.
  repeat split.
Qed.
End EvaluatorFacts.

(* ===================================================================== *)
(** ** The claims about the roll-over and the evaluator                  *)
(* ===================================================================== *)

Section EvaluatorClaims.
Import JSDate.

(** C4.  [resetDailyDownloadsIfNeeded] is idempotent within a calendar
    day: after a call at [t1], a call at an instant [t2] of the same
    calendar day resets nothing, returns [false] and leaves the document,
    so [dailyDownloads] and [dailyDownloadDate], as the first call left
    it. *)
Theorem resetDaily_idempotent_within_day (t1 t2 : Z) (u : User.t) :
  0 <= t1 -> sameCalendarDay t1 t2 ->
  let u1 := snd (User.resetDailyDownloadsIfNeeded t1 u) in
  User.resetDailyDownloadsIfNeeded t2 u1 = (false, u1)
  /\ User.dailyDownloads (snd (User.resetDailyDownloadsIfNeeded t2 u1))
     = User.dailyDownloads u1
  /\ User.dailyDownloadDate (snd (User.resetDailyDownloadsIfNeeded t2 u1))
     = User.dailyDownloadDate u1.
Proof.
  intros Ht Hsame u1. subst u1.
  rewrite (resetDaily_again t1 t2 u Ht Hsame). auto.
Qed.

Lemma resetDaily_idempotent_within_day_witness :
  0 <= Samples.mar15_1000
  /\ sameCalendarDay Samples.mar15_1000 Samples.mar15_2200
  /\ User.resetDailyDownloadsIfNeeded Samples.mar15_1000 Samples.busy
     = (true, User.set_daily Samples.busy 0 (Some Samples.mar15_0000))
  /\ User.resetDailyDownloadsIfNeeded Samples.mar15_2200
       (snd (User.resetDailyDownloadsIfNeeded Samples.mar15_1000
               Samples.busy))
     = (false,
        snd (User.resetDailyDownloadsIfNeeded Samples.mar15_1000
               Samples.busy)).
Proof.
  assert (H0 : 0 <= Samples.mar15_1000) by (vm_compute; discriminate).
  assert (Hs : sameCalendarDay Samples.mar15_1000 Samples.mar15_2200)
    by (vm_compute; auto).
  split; [exact H0|]. split; [exact Hs|]. split; [vm_compute; reflexivity|].
  exact (proj1 (resetDaily_idempotent_within_day
                  Samples.mar15_1000 Samples.mar15_2200 Samples.busy H0 Hs)).
Defined.

(** C5, the claim as stated fails: an account last touched two days
    before, whose [dailyDownloads] is already 0, is reset (the anchor moves
    to today) and the method returns [false]. *)
Lemma resetDaily_zero_count_returns_false :
  User.dailyDownloadDate Samples.idle = Some Samples.mar13_0900
  /\ Day Samples.mar13_0900 < Day Samples.mar15_1000
  /\ User.dailyDownloads Samples.idle = 0
  /\ User.resetDailyDownloadsIfNeeded Samples.mar15_1000 Samples.idle
     = (false, User.set_daily Samples.idle 0 (Some Samples.mar15_0000))
  /\ User.set_daily Samples.idle 0 (Some Samples.mar15_0000) <> Samples.idle.
Proof.
  split; [reflexivity|]. split; [vm_compute; reflexivity|].
  split; [reflexivity|]. split; [vm_compute; reflexivity|].
  intros H. apply (f_equal User.dailyDownloadDate) in H. discriminate H.
Qed.

(** C5 (as amended).  For every account whose [dailyDownloadDate] falls on
    a calendar day before the one of [now], [resetDailyDownloadsIfNeeded]
    sets [dailyDownloads] to 0 and [dailyDownloadDate] to the midnight
    that opens today, and returns [true] exactly when the counter it
    cleared was positive. *)
Theorem resetDaily_on_earlier_day (now anchor : Z) (u : User.t) :
  User.dailyDownloadDate u = Some anchor ->
  0 <= anchor -> Day anchor < Day now ->
  User.resetDailyDownloadsIfNeeded now u
  = (User.dailyDownloads u >? 0,
     User.set_daily u 0 (Some (Day now * msPerDay)))
  /\ (fst (User.resetDailyDownloadsIfNeeded now u) = true
      <-> 0 < User.dailyDownloads u)
  /\ User.dailyDownloads (snd (User.resetDailyDownloadsIfNeeded now u)) = 0
  /\ User.dailyDownloadDate (snd (User.resetDailyDownloadsIfNeeded now u))
     = Some (Day now * msPerDay).
Proof.
  intros Ha H0 Hlt.
  assert (Hnow : 0 <= now).
  { pose proof (Day_bounds now). pose proof (Day_nonneg anchor H0).
    pose proof msPerDay_pos. nia. }
  assert (Hreset : User.resetDailyDownloadsIfNeeded now u
                   = (User.dailyDownloads u >? 0,
                      User.set_daily u 0 (Some (Day now * msPerDay)))).
  { unfold User.resetDailyDownloadsIfNeeded. cbv zeta. rewrite Ha.
    change (User.startOfDay <$> Some anchor)
      with (Some (User.startOfDay anchor)). cbv iota.
    rewrite (startOfDay_eq now Hnow), (startOfDay_eq anchor H0).
    pose proof msPerDay_pos.
    destruct (Z.gtb_spec (Day now * msPerDay) (Day anchor * msPerDay));
      [reflexivity|nia]. }
  split; [exact Hreset|]. rewrite Hreset.
  split; [simpl; apply Z.gtb_lt|]. split; reflexivity.
Qed.

Lemma resetDaily_on_earlier_day_witness :
  User.resetDailyDownloadsIfNeeded Samples.mar15_1000 Samples.busy
  = (true, User.set_daily Samples.busy 0 (Some Samples.mar15_0000)).
Proof.
  exact (proj1 (resetDaily_on_earlier_day
                  Samples.mar15_1000 Samples.mar13_0900 Samples.busy
                  eq_refl
                  ltac:(vm_compute; discriminate)
                  ltac:(vm_compute; reflexivity))).
Defined.

(** C6.  The effective monthly limit is the premium limit (500) exactly
    when the tier is premium and [premiumExpiry] lies strictly after
    [now]; otherwise it is the free limit (350), in particular for a
    premium account whose [premiumExpiry] has passed.  This is the limit
    [canDownload] applies to a verified account. *)
Theorem monthlyLimit_premium_iff_active (now : Z) (u : User.t) :
  (User.monthlyLimit now u = 500 <->
   User.subscription u = premium
   /\ exists e, User.premiumExpiry u = Some e /\ now < e)
  /\ (User.monthlyLimit now u <> 500 -> User.monthlyLimit now u = 350)
  /\ (forall e, User.subscription u = premium ->
                User.premiumExpiry u = Some e -> e <= now ->
                User.monthlyLimit now u = 350)
  /\ (User.isVerified u = true ->
      User.limit (User.monthly (fst (User.canDownload now u)))
      = User.monthlyLimit now u).
Proof.
  assert (Hiff : User.monthlyLimit now u = 500 <->
                 User.subscription u = premium
                 /\ exists e, User.premiumExpiry u = Some e /\ now < e).
  { unfold User.monthlyLimit, User.isActive, User.isPremium.
    destruct (User.subscription u); simpl.
    - split; [discriminate|]. intros [H _]. discriminate.
    - destruct (User.premiumExpiry u) as [e|].
      + destruct (Z.gtb_spec e now).
        * split; [|reflexivity]. intros _. split; [reflexivity|].
          exists e. split; [reflexivity|lia].
        * split; [discriminate|]. intros (_ & e' & He & Hlt).
          injection He as <-. lia.
      + split; [discriminate|]. intros (_ & e' & He & _). discriminate. }
  split; [exact Hiff|]. split.
  { destruct (monthlyLimit_values now u); tauto. }
  split.
  { intros e Hs He Hle. destruct (monthlyLimit_values now u) as [H|H];
      [|exact H].
    apply Hiff in H as (_ & e' & He' & Hlt). rewrite He in He'.
    injection He' as <-. lia. }
  intros Hv.
  destruct (canDownload_verified now u Hv) as (_ & _ & -> & _).
  reflexivity.
Qed.

Lemma monthlyLimit_premium_iff_active_witness :
  User.monthlyLimit Samples.mar15_1000 Samples.lapsedPremium = 350
  /\ User.monthlyLimit Samples.mar15_1000 Samples.activePremium = 500
  /\ User.limit (User.monthly (fst (User.canDownload Samples.mar15_1000
                                      Samples.lapsedPremium))) = 350.
Proof.
  split; [|split].
  - exact (proj1 (proj2 (proj2 (monthlyLimit_premium_iff_active
                                  Samples.mar15_1000 Samples.lapsedPremium)))
             Samples.feb01_0000 eq_refl eq_refl
             ltac:(vm_compute; discriminate)).
  - apply (proj1 (monthlyLimit_premium_iff_active
                    Samples.mar15_1000 Samples.activePremium)).
    split; [reflexivity|]. exists Samples.jun01_0000.
    split; [reflexivity|vm_compute; reflexivity].
  - exact (proj2 (proj2 (proj2 (monthlyLimit_premium_iff_active
                                  Samples.mar15_1000 Samples.lapsedPremium)))
             eq_refl).
Defined.

(** C7, the claim as stated fails: for an unverified account [canDownload]
    answers ineligible although both windows report a positive
    remaining. *)
Lemma unverified_ineligible_with_remaining_left :
  let c := fst (User.canDownload Samples.mar15_1000 Samples.unverified) in
  User.canDownload_ c = false
  /\ User.remaining (User.daily c) = 15
  /\ User.remaining (User.monthly c) = 350
  /\ ~ (User.canDownload_ c = true <->
        0 < User.remaining (User.daily c)
        /\ 0 < User.remaining (User.monthly c)).
Proof.
  vm_compute. repeat split; try reflexivity.
  intros [_ H]. discriminate H. split; reflexivity.
Qed.

(** C7 (as amended).  For every account and instant, [canDownload] reports
    remaining = max(0, limit - used) for each window, and its eligibility
    boolean is true if and only if the account is verified and both the
    daily and the monthly remaining are positive. *)
Theorem canDownload_remaining_and_eligibility (now : Z) (u : User.t) :
  let c := fst (User.canDownload now u) in
  User.remaining (User.daily c)
    = Z.max 0 (User.limit (User.daily c) - User.used (User.daily c))
  /\ User.remaining (User.monthly c)
     = Z.max 0 (User.limit (User.monthly c) - User.used (User.monthly c))
  /\ (User.canDownload_ c = true <->
      User.isVerified u = true
      /\ 0 < User.remaining (User.daily c)
      /\ 0 < User.remaining (User.monthly c)).
Proof.
  cbv zeta. destruct (User.isVerified u) eqn:Hv.
  - destruct (canDownload_verified now u Hv) as (_ & -> & -> & -> & _).
    simpl. split; [reflexivity|]. split; [reflexivity|].
    rewrite andb_true_iff, !Z.gtb_lt. tauto.
  - unfold User.canDownload. rewrite Hv. simpl.
    split; [reflexivity|]. split; [reflexivity|].
    split; [discriminate|]. intros [H _]. discriminate.
Qed.

Lemma canDownload_remaining_and_eligibility_witness :
  let c := fst (User.canDownload Samples.mar15_1000
                  Samples.monthlyExhausted) in
  User.remaining (User.daily c) = 12
  /\ User.remaining (User.monthly c) = 0
  /\ User.canDownload_ c = false.
Proof.
  pose proof (canDownload_remaining_and_eligibility
                Samples.mar15_1000 Samples.monthlyExhausted) as H.
  cbv zeta in H. destruct H as (Hd & Hm & Hiff).
  split; [exact Hd|]. split; [exact Hm|].
  destruct (User.canDownload_
              (fst (User.canDownload Samples.mar15_1000
                      Samples.monthlyExhausted))) eqn:Hc; [|reflexivity].
  destruct (proj1 Hiff eq_refl) as (_ & _ & Hpos). rewrite Hm in Hpos.
  vm_compute in Hpos. discriminate Hpos.
Defined.

(** C10.  For every unverified account [canDownload] answers ineligible
    with the verification reason and rolls no window over: the document,
    so [dailyDownloads], [monthlyDownloads], [dailyDownloadDate] and
    [monthlyDownloadMonth], is left as it was, and both windows report
    used = 0 with the full limit remaining, whatever the stored
    counters. *)
Theorem unverified_account_is_not_rolled_over (now : Z) (u : User.t) :
  User.isVerified u = false ->
  let c := fst (User.canDownload now u) in
  snd (User.canDownload now u) = u
  /\ User.canDownload_ c = false
  /\ User.requiresVerification c = true
  /\ User.reason c
     = "Email not verified - please check your email and verify your account"
  /\ User.daily c
     = {| User.used := 0; User.limit := 15; User.remaining := 15;
          User.untilReset := None |}
  /\ User.monthly c
     = {| User.used := 0; User.limit := 350; User.remaining := 350;
          User.untilReset := None |}
  /\ User.resetInfo c = None.
Proof.
  intros Hv. unfold User.canDownload. rewrite Hv. simpl. repeat split.
Qed.

Lemma unverified_account_is_not_rolled_over_witness :
  User.isVerified Samples.unverified = false
  /\ User.dailyDownloads Samples.unverified = 4
  /\ User.monthlyDownloads Samples.unverified = 20
  /\ Day Samples.mar13_0900 < Day Samples.mar15_1000
  /\ snd (User.canDownload Samples.mar15_1000 Samples.unverified)
     = Samples.unverified
  /\ User.used
       (User.daily (fst (User.canDownload Samples.mar15_1000
                           Samples.unverified))) = 0.
Proof.
  pose proof (unverified_account_is_not_rolled_over Samples.mar15_1000 Samples.unverified
                eq_refl) as H.
  cbv zeta in H. destruct H as (Hsnd & _ & _ & _ & Hd & _).
  split; [reflexivity|]. split; [reflexivity|]. split; [reflexivity|].
  split; [vm_compute; reflexivity|]. split; [exact Hsnd|].
  rewrite Hd. reflexivity.
Defined.



End EvaluatorClaims.

(* ===================================================================== *)
(** ** Facts about [incrementDownloadCount] and the handler              *)
(* ===================================================================== *)

Section TransactionFacts.
Import JSDate Mongo DownloadRoute.

Lemma rolledOver_month now u :
  User.monthlyDownloadMonth (User.rolledOver now u) = User.monthToken now.
Proof.
  unfold User.rolledOver, User.resetMonthlyDownloadsIfNeeded. cbv zeta.
  destruct (String.eqb_spec
              (User.monthlyDownloadMonth
                 (snd (User.resetDailyDownloadsIfNeeded now u)))
              (User.monthToken now)) as [He|Hne]; simpl; auto.
Qed.

(** In the month of its anchor the monthly counter is not rolled over. *)
Lemma rolledOver_monthly_kept now u :
  User.monthlyDownloadMonth u = User.monthToken now ->
  User.monthlyDownloads (User.rolledOver now u) = User.monthlyDownloads u.
Proof.
  intros Hm. unfold User.rolledOver, User.resetMonthlyDownloadsIfNeeded.
  cbv zeta.
  assert (Hd : User.monthlyDownloadMonth
                 (snd (User.resetDailyDownloadsIfNeeded now u))
               = User.monthToken now
               /\ User.monthlyDownloads
                    (snd (User.resetDailyDownloadsIfNeeded now u))
                  = User.monthlyDownloads u).
  { destruct (resetDaily_shape now u) as [-> | ->]; simpl; auto. }
  destruct Hd as [Hd1 Hd2]. rewrite Hd1, String.eqb_refl. simpl. exact Hd2.
Qed.

(** The daily roll-over does nothing on a document whose anchor is today. *)
Lemma resetDaily_current now u :
  0 <= now ->
  User.resetDailyDownloadsIfNeeded now (User.rolledOver now u)
  = (false, User.rolledOver now u).
Proof.
  intros Hnow.
  assert (Hanchor : User.dailyDownloadDate (User.rolledOver now u)
                    = User.dailyDownloadDate
                        (snd (User.resetDailyDownloadsIfNeeded now u))).
  { unfold User.rolledOver.
    destruct (resetMonthly_shape now
                (snd (User.resetDailyDownloadsIfNeeded now u)))
      as [-> | ->]; reflexivity. }
  assert (Hcond : match User.startOfDay <$>
                        User.dailyDownloadDate (User.rolledOver now u) with
                  | Some last => User.startOfDay now >? last
                  | None => true
                  end = false).
  { rewrite Hanchor. unfold User.resetDailyDownloadsIfNeeded. cbv zeta.
    destruct (match User.startOfDay <$> User.dailyDownloadDate u with
              | Some last => User.startOfDay now >? last
              | None => true
              end) eqn:Hc; simpl; [|exact Hc].
    rewrite (startOfDay_idem now Hnow), Z.gtb_ltb. apply Z.ltb_irrefl. }
  unfold User.resetDailyDownloadsIfNeeded at 1. cbv zeta.
  rewrite Hcond. reflexivity.
Qed.

Lemma resetMonthly_current now u :
  User.monthlyDownloadMonth u = User.monthToken now ->
  User.resetMonthlyDownloadsIfNeeded now u = (false, u).
Proof.
  intros Hm. unfold User.resetMonthlyDownloadsIfNeeded. cbv zeta.
  now rewrite Hm, String.eqb_refl.
Qed.

(** What [incrementDownloadCount] does to the monthly window of a
    document whose month anchor is current. *)
Lemma applyIncrement_monthly now pd u :
  User.monthlyDownloadMonth u = User.monthToken now ->
  let w := User.applyIncrement now pd u in
  User.monthlyDownloads w = User.monthlyDownloads u + 1
  /\ User.monthlyDownloadMonth w = User.monthToken now
  /\ User.totalDownloads w = User.totalDownloads u + 1
  /\ User.subscription w = User.subscription u
  /\ User.premiumExpiry w = User.premiumExpiry u.
Proof.
  intros Hm. unfold User.applyIncrement. cbv zeta.
  assert (Hd : User.monthlyDownloadMonth
                 (snd (User.resetDailyDownloadsIfNeeded now u))
               = User.monthToken now).
  { destruct (resetDaily_shape now u) as [-> | ->]; simpl; auto. }
  rewrite (resetMonthly_current now _ Hd). simpl snd.
  destruct (resetDaily_shape now u) as [-> | ->];
    destruct (User.pd_productId pd); simpl; rewrite ?or0_id; auto.
Qed.

(** From the epoch on, [incrementDownloadCount] on a document just rolled
    over adds one to each of the three counters. *)
Lemma applyIncrement_rolledOver now pd u :
  0 <= now ->
  let v := User.rolledOver now u in
  let w := User.applyIncrement now pd v in
  User.dailyDownloads w = User.dailyDownloads v + 1
  /\ User.dailyDownloadDate w = User.dailyDownloadDate v
  /\ User.monthlyDownloads w = User.monthlyDownloads v + 1
  /\ User.monthlyDownloadMonth w = User.monthlyDownloadMonth v
  /\ User.totalDownloads w = User.totalDownloads u + 1.
Proof.
  intros Hnow. cbv zeta. unfold User.applyIncrement. cbv zeta.
  rewrite (resetDaily_current now u Hnow). simpl snd.
  rewrite (resetMonthly_current now _ (rolledOver_month now u)). simpl snd.
  destruct (rolledOver_tier now u) as (_ & _ & _ & Htot).
  destruct (User.pd_productId pd); simpl; rewrite ?or0_id, ?Htot; auto.
Qed.

(** A request either leaves the database as it was and is not accepted,
    or it is accepted and commits the record and the increments. *)
Lemma consume_cases fails req db :
  (outcome (fst (consume fails req db)) <> Accepted
   /\ snd (consume fails req db) = db)
  \/ exists productId user product,
       paramProductId req = Some productId
       /\ users db !! tokenUserId req = Some user
       /\ User.isVerified user = true
       /\ User.canDownload_ (fst (User.canDownload (now req) user)) = true
       /\ products db !! productId = Some product
       /\ Product.isActive product = true
       /\ fails OpSaveDownload = false /\ fails OpSaveUser = false
       /\ fails OpSaveProduct = false /\ fails OpCommit = false
       /\ exists pd stats,
            User.pd_productId pd = Some productId
            /\ consume fails req db
               = (Downloaded (Product.downloadUrl product) stats (now req),
                  {| users :=
                       <[tokenUserId req :=
                           User.set_lastActivity
                             (User.applyIncrement (now req) pd
                                (User.rolledOver (now req) user))
                             (now req)]> (users db);
                     products :=
                       <[productId :=
                           Product.set_downloads product
                             (Product.downloads product + 1)]>
                         (products db);
                     downloadsColl :=
                       downloadsColl db ++
                         [{| Download.userId := tokenUserId req;
                             Download.productId := productId;
                             Download.downloadDate := now req;
                             Download.ipAddress :=
                               orDefault (ip req) "unknown";
                             Download.userAgent :=
                               orDefault (userAgentHeader req) "unknown";
                             Download.downloadUrl :=
                               Product.downloadUrl product |}] |}).
Proof.
  rewrite consume_flat. unfold consumeFlat. cbv zeta.
  destruct (paramProductId req) as [productId|];
    [|left; split; [discriminate|reflexivity]].
  destruct (fails OpFindUser);
    [left; split; [discriminate|reflexivity]|].
  destruct (users db !! tokenUserId req) as [user|];
    [|left; split; [discriminate|reflexivity]].
  destruct (User.isVerified user) eqn:Hv; simpl negb; cbv iota;
    [|left; split; [discriminate|reflexivity]].
  destruct (User.canDownload_ (fst (User.canDownload (now req) user)))
    eqn:Hc; simpl negb; cbv iota;
    [|left; split; [discriminate|reflexivity]].
  destruct (fails OpFindProduct);
    [left; split; [discriminate|reflexivity]|].
  destruct (products db !! productId) as [product|] eqn:Hp;
    [|left; split; [discriminate|reflexivity]].
  destruct (Product.isActive product) eqn:Ha; simpl negb; cbv iota;
    [|left; split; [discriminate|reflexivity]].
  destruct (fails OpFindDownload);
    [left; split; [discriminate|reflexivity]|].
  destruct (List.find _ (downloadsColl db));
    [left; split; [discriminate|reflexivity]|].
  destruct (fails OpSaveDownload); simpl orb; cbv iota;
    [left; split; [discriminate|reflexivity]|].
  destruct (fails OpSaveUser); simpl orb; cbv iota;
    [left; split; [discriminate|reflexivity]|].
  destruct (fails OpSaveProduct); simpl orb; cbv iota;
    [left; split; [discriminate|reflexivity]|].
  destruct (fails OpCommit); simpl orb; cbv iota;
    [left; split; [discriminate|reflexivity]|].
  right. exists productId, user, product.
  rewrite (canDownload_verified_snd _ _ Hv), or0_id.
  split; [reflexivity|]. split; [reflexivity|]. split; [exact Hv|].
  split; [exact Hc|]. split; [exact Hp|]. split; [exact Ha|].
  do 4 (split; [reflexivity|]).
  eexists. eexists. split; [|reflexivity]. reflexivity.
Qed.
End TransactionFacts.

(* ===================================================================== *)
(** ** The claims about the download transaction                         *)
(* ===================================================================== *)

Section TransactionClaims.
Import JSDate Mongo DownloadRoute.

(** C2.  An accepted request commits the four writes together: one record
    appended to the [Download] collection, [dailyDownloads],
    [monthlyDownloads] and [totalDownloads] of the account each raised by
    one, and the product's [downloads] raised by one, everything else of
    the product staying as it was.  A request that is not accepted leaves
    the database as it was; in particular, when any write of the
    transaction or its commit fails, the request is not accepted and no
    counter and no record has changed (a failing write is answered 500; a
    failing commit is not answered at all, as the [abortTransaction] of the
    [catch] block then throws). *)
Theorem consume_all_or_nothing (fails : Op -> bool) (req : Request)
    (db : DB) :
  0 <= now req ->
  let r := fst (consume fails req db) in
  let db' := snd (consume fails req db) in
  (outcome r <> Accepted -> db' = db)
  /\ (fails OpSaveDownload = true \/ fails OpSaveUser = true
      \/ fails OpSaveProduct = true \/ fails OpCommit = true ->
      outcome r <> Accepted /\ db' = db)
  /\ (outcome r = Accepted ->
      exists productId user product user' product' record,
        paramProductId req = Some productId
        /\ users db !! tokenUserId req = Some user
        /\ products db !! productId = Some product
        /\ users db' = <[tokenUserId req := user']> (users db)
        /\ User.dailyDownloads user'
           = User.dailyDownloads (User.rolledOver (now req) user) + 1
        /\ User.monthlyDownloads user'
           = User.monthlyDownloads (User.rolledOver (now req) user) + 1
        /\ User.totalDownloads user' = User.totalDownloads user + 1
        /\ products db' = <[productId := product']> (products db)
        /\ Product.downloads product' = Product.downloads product + 1
        /\ Product.title product' = Product.title product
        /\ Product.category product' = Product.category product
        /\ Product.downloadUrl product' = Product.downloadUrl product
        /\ Product.isActive product' = Product.isActive product
        /\ downloadsColl db' = downloadsColl db ++ [record]
        /\ Download.userId record = tokenUserId req
        /\ Download.productId record = productId
        /\ Download.downloadDate record = now req
        /\ Download.downloadUrl record = Product.downloadUrl product)
  /\ (r = ServerError \/ r = Unanswered -> db' = db)
  /\ (r = Unanswered -> fails OpCommit = true).
Proof.
  intros Hnow. cbv zeta.
  assert (Hcommit : fst (consume fails req db) = Unanswered ->
                    fails OpCommit = true).
  { rewrite consume_flat. unfold consumeFlat. cbv zeta.
    destruct (paramProductId req) as [productId|]; [|discriminate].
    destruct (fails OpFindUser); [discriminate|].
    destruct (users db !! tokenUserId req) as [user|]; [|discriminate].
    destruct (negb (User.isVerified user)); [discriminate|].
    destruct (negb (User.canDownload_ _)); [discriminate|].
    destruct (fails OpFindProduct); [discriminate|].
    destruct (products db !! productId) as [product|]; [|discriminate].
    destruct (negb (Product.isActive product)); [discriminate|].
    destruct (fails OpFindDownload); [discriminate|].
    destruct (List.find _ (downloadsColl db)); [discriminate|].
    destruct (fails OpSaveDownload || fails OpSaveUser
              || fails OpSaveProduct); [discriminate|].
    destruct (fails OpCommit); [reflexivity|discriminate]. }
  destruct (consume_cases fails req db)
    as [[Hout Hdb]
       |(productId & user & product & Hpid & Hu & Hv & Hc & Hp & Ha
         & Hf1 & Hf2 & Hf3 & Hf4 & pd & stats & Hpd & Heq)].
  - split; [intros _; exact Hdb|]. split; [intros _; split; assumption|].
    split; [intros Hacc; contradiction|].
    split; [intros _; exact Hdb|exact Hcommit].
  - rewrite Heq in *. simpl fst in *. simpl snd.
    split; [intros H; exfalso; apply H; reflexivity|].
    split; [intros [H|[H|[H|H]]]; congruence|].
    split; [|split; [intros [H|H]; discriminate H|exact Hcommit]].
    intros _.
    destruct (applyIncrement_rolledOver (now req) pd user Hnow)
      as (Hd & _ & Hm & _ & Ht).
    eexists productId, user, product, _, _, _.
    split; [exact Hpid|]. split; [exact Hu|]. split; [exact Hp|].
    split; [reflexivity|]. split; [exact Hd|]. split; [exact Hm|].
    split; [exact Ht|]. split; [reflexivity|]. repeat split.
Qed.

Lemma consume_all_or_nothing_witness :
  0 <= Samples.mar15_1000
  /\ outcome (fst (consume Samples.noFaults
                     (Samples.downloadAt Samples.mar15_1000)
                     (Samples.db Samples.almostExhausted))) = Accepted
  /\ fst (consume (Samples.failsAt OpSaveProduct)
            (Samples.downloadAt Samples.mar15_1000)
            (Samples.db Samples.almostExhausted)) = ServerError
  /\ snd (consume (Samples.failsAt OpSaveProduct)
            (Samples.downloadAt Samples.mar15_1000)
            (Samples.db Samples.almostExhausted))
     = Samples.db Samples.almostExhausted
  /\ fst (consume (Samples.failsAt OpCommit)
            (Samples.downloadAt Samples.mar15_1000)
            (Samples.db Samples.almostExhausted)) = Unanswered
  /\ snd (consume (Samples.failsAt OpCommit)
            (Samples.downloadAt Samples.mar15_1000)
            (Samples.db Samples.almostExhausted))
     = Samples.db Samples.almostExhausted.
Proof.
  assert (H0 : 0 <= Samples.mar15_1000) by (vm_compute; discriminate).
  split; [exact H0|]. split; [vm_compute; reflexivity|].
  split; [vm_compute; reflexivity|]. split; [|split; [vm_compute; reflexivity|]].
  - exact (proj2 (proj1 (proj2 (consume_all_or_nothing
                                  (Samples.failsAt OpSaveProduct)
                                  (Samples.downloadAt Samples.mar15_1000)
                                  (Samples.db Samples.almostExhausted) H0))
                    (or_intror (or_intror (or_introl eq_refl))))).
  - exact (proj2 (proj1 (proj2 (consume_all_or_nothing
                                  (Samples.failsAt OpCommit)
                                  (Samples.downloadAt Samples.mar15_1000)
                                  (Samples.db Samples.almostExhausted) H0))
                    (or_intror (or_intror (or_intror eq_refl))))).
Defined.

Lemma run_cons db c rest :
  run db (c :: rest)
  = {| call := c;
       response := fst (consume (faults c) (request c) db);
       after := snd (consume (faults c) (request c) db) |}
    :: run (snd (consume (faults c) (request c) db)) rest.
Proof.
  simpl. destruct (consume (faults c) (request c) db). reflexivity.
Qed.

(** An accepted request commits a monthly count within the limit. *)
Lemma consume_accepted_within_limit fails req db :
  outcome (fst (consume fails req db)) = Accepted ->
  exists u',
    users (snd (consume fails req db)) !! tokenUserId req = Some u'
    /\ User.monthlyDownloadMonth u' = User.monthToken (now req)
    /\ User.monthlyDownloads u' <= User.monthlyLimit (now req) u'.
Proof.
  destruct (consume_cases fails req db)
    as [[Hout _]
       |(productId & user & product & Hpid & Hu & Hv & Hc & Hp & Ha
         & Hf1 & Hf2 & Hf3 & Hf4 & pd & stats & Hpd & Heq)];
    [contradiction|].
  intros _. rewrite Heq. simpl snd.
  eexists. split; [apply lookup_insert_eq|].
  destruct (applyIncrement_monthly (now req) pd
              (User.rolledOver (now req) user)
              (rolledOver_month (now req) user))
    as (Hm & Htoken & _ & Hsub & Hexp).
  destruct (rolledOver_tier (now req) user) as (Hsub' & Hexp' & _ & _).
  split; [exact Htoken|].
  change (User.monthlyDownloads
            (User.applyIncrement (now req) pd
               (User.rolledOver (now req) user))
          <= User.monthlyLimit (now req)
               (User.set_lastActivity
                  (User.applyIncrement (now req) pd
                     (User.rolledOver (now req) user)) (now req))).
  rewrite (monthlyLimit_ext (now req) _ user)
    by (simpl; congruence).
  rewrite Hm.
  destruct (canDownload_verified (now req) user Hv)
    as (_ & _ & _ & Hcan & _).
  cbv zeta in Hcan. rewrite Hcan in Hc.
  apply andb_prop in Hc as [_ Hc]. apply Z.gtb_lt in Hc. lia.
Qed.

(** A request for an account whose monthly count has reached the limit,
    in the month of the count, is denied and changes nothing. *)
Lemma consume_at_limit_denied fails req db u t0 :
  users db !! tokenUserId req = Some u ->
  User.monthlyLimit t0 u <= User.monthlyDownloads u ->
  t0 <= now req ->
  User.monthToken (now req) = User.monthlyDownloadMonth u ->
  snd (consume fails req db) = db
  /\ outcome (fst (consume fails req db)) <> Accepted
  /\ (is_Some (paramProductId req) -> fails OpFindUser = false ->
      outcome (fst (consume fails req db)) = Denied).
Proof.
  intros Hu Hlim Ht Hmonth.
  rewrite consume_flat. unfold consumeFlat. cbv zeta.
  destruct (paramProductId req) as [productId|].
  2:{ simpl. split; [reflexivity|]. split; [discriminate|].
      intros [x Hx]. discriminate Hx. }
  destruct (fails OpFindUser).
  { simpl. split; [reflexivity|]. split; [discriminate|]. discriminate. }
  rewrite Hu.
  destruct (User.isVerified u) eqn:Hv; simpl negb; cbv iota.
  2:{ simpl. split; [reflexivity|]. split; [discriminate|]. reflexivity. }
  destruct (canDownload_verified (now req) u Hv) as (_ & _ & _ & Hcan & _).
  cbv zeta in Hcan. rewrite Hcan.
  rewrite (rolledOver_monthly_kept (now req) u) by congruence.
  pose proof (monthlyLimit_antitone t0 (now req) u Ht) as Hanti.
  replace (Z.max 0 (User.monthlyLimit (now req) u - User.monthlyDownloads u))
    with 0 by lia.
  rewrite andb_false_r. simpl.
  split; [reflexivity|]. split; [discriminate|]. reflexivity.
Qed.

(** A request keeps the committed monthly count under any bound that the
    count and the limit of its instant are under, and leaves the tier as it
    was. *)
Lemma consume_preserves_bound fails req db u L :
  users db !! tokenUserId req = Some u ->
  User.monthlyDownloads u <= L ->
  User.monthlyLimit (now req) u <= L ->
  exists u',
    users (snd (consume fails req db)) !! tokenUserId req = Some u'
    /\ User.monthlyDownloads u' <= L
    /\ User.subscription u' = User.subscription u
    /\ User.premiumExpiry u' = User.premiumExpiry u.
Proof.
  intros Hu Hcount Hlimit.
  destruct (consume_cases fails req db)
    as [[_ Hdb]
       |(productId & user & product & Hpid & Hu' & Hv & Hc & Hp & Ha
         & Hf1 & Hf2 & Hf3 & Hf4 & pd & stats & Hpd & Heq)].
  - rewrite Hdb. exists u. auto.
  - rewrite Hu in Hu'. injection Hu' as <-.
    rewrite Heq. simpl snd.
    eexists. split; [apply lookup_insert_eq|].
    destruct (applyIncrement_monthly (now req) pd
                (User.rolledOver (now req) u)
                (rolledOver_month (now req) u))
      as (Hm & _ & _ & Hsub & Hexp).
    destruct (rolledOver_tier (now req) u) as (Hsub' & Hexp' & _ & _).
    destruct (canDownload_verified (now req) u Hv)
      as (_ & _ & _ & Hcan & _).
    cbv zeta in Hcan. rewrite Hcan in Hc.
    apply andb_prop in Hc as [_ Hc]. apply Z.gtb_lt in Hc.
    simpl. rewrite Hm, Hsub, Hexp. split; [lia|]. split; assumption.
Qed.

(** C1.  For any sequence of requests on one account, every accepted
    request commits a [monthlyDownloads] that does not exceed the
    effective monthly limit of that instant; once [monthlyDownloads] has
    reached the limit, every further request of the same month leaves the
    database unchanged and is never accepted: it is answered Denied (unless
    it is malformed or the account cannot be read); and a bound that the
    count starts under and that the limit stays under at every instant of
    the run holds of the committed count after every request. *)
Theorem consume_never_exceeds_monthly_limit (uid : ObjectId)
    (calls : list Call) (db : DB) :
  Forall (fun c => tokenUserId (request c) = uid) calls ->
  Forall (fun s =>
            outcome (response s) = Accepted ->
            exists u',
              users (after s) !! uid = Some u'
              /\ User.monthlyDownloadMonth u'
                 = User.monthToken (now (request (call s)))
              /\ User.monthlyDownloads u'
                 <= User.monthlyLimit (now (request (call s))) u')
         (run db calls)
  /\ (forall u t0,
        users db !! uid = Some u ->
        User.monthlyLimit t0 u <= User.monthlyDownloads u ->
        Forall (fun c =>
                  t0 <= now (request c)
                  /\ User.monthToken (now (request c))
                     = User.monthlyDownloadMonth u) calls ->
        Forall (fun s =>
                  after s = db
                  /\ outcome (response s) <> Accepted
                  /\ (is_Some (paramProductId (request (call s))) ->
                      faults (call s) OpFindUser = false ->
                      outcome (response s) = Denied))
               (run db calls))
  /\ (forall u L,
        users db !! uid = Some u ->
        User.monthlyDownloads u <= L ->
        Forall (fun c => User.monthlyLimit (now (request c)) u <= L) calls ->
        Forall (fun s =>
                  exists u',
                    users (after s) !! uid = Some u'
                    /\ User.monthlyDownloads u' <= L)
               (run db calls)).
Proof.
  intros Huid. split; [|split].
  - revert db. induction Huid as [|c rest Hc _ IH]; intros db.
    + constructor.
    + rewrite run_cons. constructor; [|apply IH].
      simpl. intros Hacc. rewrite <- Hc.
      apply consume_accepted_within_limit, Hacc.
  - intros u t0 Hu Hlim Hcalls.
    induction Hcalls as [|c rest [Ht Hm] Hrest IH].
    + constructor.
    + apply Forall_cons in Huid as [Hc Huid].
      rewrite run_cons.
      destruct (consume_at_limit_denied (faults c) (request c) db u t0)
        as (Hdb & Hout & Hden); try assumption.
      { now rewrite Hc. }
      constructor.
      * simpl. auto.
      * rewrite Hdb. apply IH, Huid.
  - intros u L Hu Hcount Hlimits.
    assert (Hgen : forall db' u',
               users db' !! uid = Some u' ->
               User.monthlyDownloads u' <= L ->
               User.subscription u' = User.subscription u ->
               User.premiumExpiry u' = User.premiumExpiry u ->
               Forall (fun s =>
                         exists u'',
                           users (after s) !! uid = Some u''
                           /\ User.monthlyDownloads u'' <= L)
                      (run db' calls)); [|now apply (Hgen db u)].
    clear Hu Hcount. induction Hlimits as [|c rest Hl Hrest IH];
      intros db' u' Hu' Hcount' Hsub Hexp.
    + constructor.
    + apply Forall_cons in Huid as [Hc Huid].
      rewrite run_cons.
      destruct (consume_preserves_bound (faults c) (request c) db' u' L)
        as (u'' & Hu'' & Hcount'' & Hsub'' & Hexp'').
      { now rewrite Hc. }
      { exact Hcount'. }
      { rewrite (monthlyLimit_ext _ u' u) by assumption. exact Hl. }
      rewrite Hc in Hu''.
      constructor; [simpl; eauto|].
      apply (IH Huid _ u''); congruence.
Qed.

Lemma consume_never_exceeds_monthly_limit_witness :
  let c1 := {| request := Samples.downloadAt Samples.mar15_1000;
               faults := Samples.noFaults |} in
  let c2 := {| request := Samples.downloadAt Samples.mar15_2200;
               faults := Samples.noFaults |} in
  let db0 := Samples.db Samples.almostExhausted in
  let db1 := snd (consume Samples.noFaults
                    (Samples.downloadAt Samples.mar15_1000) db0) in
  Forall (fun c => tokenUserId (request c) = 1%N) [c1; c2]
  /\ (fun s => outcome (response s)) <$> run db0 [c1; c2]
     = [Accepted; Denied]
  /\ User.monthlyDownloads <$> users db1 !! 1%N = Some 350
  /\ User.monthlyLimit Samples.mar15_1000 <$> users db1 !! 1%N = Some 350
  /\ Forall (fun s => after s = db1 /\ outcome (response s) <> Accepted)
            (run db1 [c2])
  /\ Forall (fun s => exists u', users (after s) !! 1%N = Some u'
                                 /\ User.monthlyDownloads u' <= 350)
            (run db0 [c1; c2]).
Proof.
  intros c1 c2 db0 db1.
  assert (Hbound : Forall (fun s => exists u',
                             users (after s) !! 1%N = Some u'
                             /\ User.monthlyDownloads u' <= 350)
                          (run db0 [c1; c2])).
  { apply (proj2 (proj2 (consume_never_exceeds_monthly_limit
                           1%N [c1; c2] db0
                           ltac:(repeat constructor)))
             Samples.almostExhausted 350).
    - apply lookup_singleton_eq.
    - vm_compute. discriminate.
    - repeat constructor; vm_compute; discriminate. }
  assert (Hall : Forall (fun c => tokenUserId (request c) = 1%N) [c1; c2])
    by (repeat constructor).
  assert (Hone : Forall (fun c => tokenUserId (request c) = 1%N) [c2])
    by (repeat constructor).
  assert (Hcount : User.monthlyDownloads <$> users db1 !! 1%N = Some 350)
    by (vm_compute; reflexivity).
  assert (Hlim : User.monthlyLimit Samples.mar15_1000 <$> users db1 !! 1%N
                 = Some 350) by (vm_compute; reflexivity).
  assert (Hmonth : User.monthlyDownloadMonth <$> users db1 !! 1%N
                   = Some "2024-03") by (vm_compute; reflexivity).
  assert (Htoken : User.monthToken Samples.mar15_2200 = "2024-03")
    by (vm_compute; reflexivity).
  split; [exact Hall|]. split; [vm_compute; reflexivity|].
  split; [exact Hcount|]. split; [exact Hlim|].
  destruct (users db1 !! 1%N) as [u1|] eqn:Hlook; [|discriminate Hcount].
  injection Hcount as Hcount. injection Hlim as Hlim.
  injection Hmonth as Hmonth.
  pose proof (proj1 (proj2 (consume_never_exceeds_monthly_limit
                             1%N [c2] db1 Hone))
                u1 Samples.mar15_1000 Hlook
                ltac:(rewrite Hlim, Hcount; reflexivity)
                ltac:(repeat constructor;
                      [vm_compute; discriminate
                      |exact (eq_trans Htoken (eq_sym Hmonth))]))
    as H.
  split; [|exact Hbound].
  eapply Forall_impl; [exact H|]. simpl. intros s (Ha & Hb & _). auto.
Defined.

Lemma applyIncrement_verified now pd u :
  User.isVerified (User.applyIncrement now pd u) = User.isVerified u.
Proof.
  unfold User.applyIncrement. cbv zeta.
  destruct (resetMonthly_shape now
              (snd (User.resetDailyDownloadsIfNeeded now u))) as [-> | ->],
           (resetDaily_shape now u) as [-> | ->],
           (User.pd_productId pd); reflexivity.
Qed.

Lemma find_app_last {A} (P : A -> bool) (l : list A) (x : A) :
  P x = true -> exists y, List.find P (l ++ [x]) = Some y.
Proof.
  intros Hx. induction l as [|a l IH]; simpl.
  - rewrite Hx. eauto.
  - destruct (P a); eauto.
Qed.



End TransactionClaims.

(* ===================================================================== *)
(** ** The daily limit on the two download paths                         *)
(* ===================================================================== *)

Section DailyLimitClaims.
Import JSDate Mongo.

(** What the chatbot route does with the tokens of the program: the
    handler reads [req.user.id], which their payload does not have, so it
    never finds the account; it serves nothing, applies no limit and
    writes nothing. *)
Lemma chatbot_serves_no_issued_token fails env req db :
  Tokens.issued (ChatbotEntry.token req) ->
  snd (ChatbotEntry.serve fails env req db) = db
  /\ (forall url rest count limit again,
        fst (ChatbotEntry.serve fails env req db)
        <> ChatbotEntry.Handled
             (ChatbotRoute.Ready url rest count limit again))
  /\ (forall count limit next,
        fst (ChatbotEntry.serve fails env req db)
        <> ChatbotEntry.Handled (ChatbotRoute.LimitReached count limit next)).
Proof.
  unfold ChatbotEntry.serve, ChatbotEntry.route, ChatbotRoute.handler,
    ChatbotRoute.download, tryCatch, bind, ret, throw, User_findById,
    Product_findById, attempt, view.
  destruct (ChatbotEntry.token req) as [| |decoded]; simpl;
    [repeat split; discriminate..|].
  intros [userId ->]. simpl.
  destruct (fails OpFindUser); simpl; [repeat split; discriminate|].
  destruct (users db !! userId); simpl; [|repeat split; discriminate].
  destruct (ChatbotEntry.paramProductId req) as [productId|]; simpl;
    [|repeat split; discriminate].
  destruct (fails OpFindProduct); simpl; [repeat split; discriminate|].
  destruct (products db !! productId) as [product|]; simpl;
    [|repeat split; discriminate].
  destruct (Product.isActive product); simpl; repeat split; discriminate.
Qed.

End DailyLimitClaims.

(* ===================================================================== *)
(** ** The scenarios of the specification, evaluated                     *)
(* ===================================================================== *)

Section Scenarios.
Import JSDate Mongo DownloadRoute.

(** Scenario A: 15 of 15 used today. *)
Example scenario_daily_gate :
  let c := fst (User.canDownload Samples.mar15_1000 Samples.dailyExhausted) in
  User.canDownload_ c = false
  /\ User.remaining (User.daily c) = 0
  /\ User.reason c
     = "Daily limit reached (15/15). Resets automatically in 14 hours.".
Proof. vm_compute. repeat split. Qed.

(** Scenario B: 349 of 350 used this month; the next request is accepted,
    the one after it is denied on the monthly gate. *)
Example scenario_monthly_gate :
  let db1 := snd (consume Samples.noFaults
                    (Samples.downloadAt Samples.mar15_1000)
                    (Samples.db Samples.almostExhausted)) in
  User.monthlyDownloads <$> users db1 !! 1%N = Some 350
  /\ (User.reason ∘ fst ∘ User.canDownload Samples.mar15_2200)
       <$> users db1 !! 1%N
     = Some ("Monthly limit reached (350/350). Resets in 17 days."
             +:+ " Upgrade to premium for 500 downloads/month!")
  /\ outcome (fst (consume Samples.noFaults
                     (Samples.downloadAt Samples.mar15_2200) db1)) = Denied.
Proof. vm_compute. repeat split. Qed.

(** Scenario D: last touched two days ago; the evaluation rolls the daily
    window over. *)
Example scenario_lazy_reset :
  let u := snd (User.canDownload Samples.mar15_1000 Samples.busy) in
  User.dailyDownloads u = 0
  /\ User.dailyDownloadDate u = Some Samples.mar15_0000.
Proof. vm_compute. repeat split. Qed.

(** The guard on the embedded history agrees with the handler's window:
    after [incrementDownloadCount] for a product, the product counts as
    downloaded recently for the minutes that follow. *)
Lemma hasDownloadedRecently_after_increment now later minutes productId pd u :
  User.pd_productId pd = Some productId ->
  later - minutes * 60 * 1000 <= now ->
  User.hasDownloadedRecently later productId minutes
    (User.applyIncrement now pd u) = true.
Proof.
  intros Hpd Hwin. unfold User.applyIncrement. cbv zeta. rewrite Hpd.
  unfold User.hasDownloadedRecently. cbv zeta. simpl User.downloads.
  rewrite existsb_app. simpl. rewrite N.eqb_refl. simpl.
  apply orb_true_iff. right. apply orb_true_iff. left.
  apply Z.geb_le. lia.
Qed.
End Scenarios.

(* ===================================================================== *)
(** ** The month token as a key of the calendar month *)
(* ===================================================================== *)

Section MonthTokenFacts.
Import JSDate.

Lemma string_app_inj_suffix (a1 a2 b1 b2 : string) :
  String.length a1 = String.length a2 ->
  a1 +:+ b1 = a2 +:+ b2 -> a1 = a2 /\ b1 = b2.
Proof.
  revert a2. induction a1 as [|c a1 IH]; intros [|c2 a2] Hlen H;
    simpl in *; try discriminate; [auto|].
  injection H as -> H. injection Hlen as Hlen.
  destruct (IH a2 Hlen H) as [-> ->]. auto.
Qed.

Lemma padded_month m :
  1 <= m <= 12 ->
  monthNames !! Z.to_nat (m - 1) = Some (padStart2 (pretty m)).
Proof.
  intros Hm.
  assert (Hc : m = 1 \/ m = 2 \/ m = 3 \/ m = 4 \/ m = 5 \/ m = 6 \/ m = 7
               \/ m = 8 \/ m = 9 \/ m = 10 \/ m = 11 \/ m = 12) by lia.
  repeat (destruct Hc as [->|Hc]); try subst m; vm_compute; reflexivity.
Qed.

Lemma string_length_app (a b : string) :
  String.length (a +:+ b) = (String.length a + String.length b)%nat.
Proof. induction a as [|c a IH]; simpl; [reflexivity|now rewrite IH]. Qed.

Lemma padded_month_length m :
  1 <= m <= 12 -> String.length (padStart2 (pretty m)) = 2%nat.
Proof.
  intros Hm. pose proof (padded_month m Hm) as H.
  assert (Hall : Forall (fun s => String.length s = 2%nat) monthNames)
    by (repeat constructor).
  rewrite Forall_lookup in Hall. exact (Hall _ _ H).
Qed.

Lemma padded_month_inj m1 m2 :
  1 <= m1 <= 12 -> 1 <= m2 <= 12 ->
  padStart2 (pretty m1) = padStart2 (pretty m2) -> m1 = m2.
Proof.
  intros H1 H2 Heq.
  pose proof (padded_month m1 H1) as L1.
  pose proof (padded_month m2 H2) as L2. rewrite <- Heq in L2.
  assert (Hnd : NoDup monthNames).
  { apply NoDup_ListNoDup. repeat constructor; simpl; intuition discriminate. }
  pose proof (NoDup_lookup _ _ _ _ Hnd L1 L2). lia.
Qed.

(** The month token is a faithful key of the calendar month. *)
Lemma monthToken_inj s t :
  User.monthToken s = User.monthToken t <-> sameCalendarMonth s t.
Proof.
  split; [|apply sameCalendarMonth_token].
  unfold User.monthToken, sameCalendarMonth. intros H.
  pose proof (monthFromDay_bounds (Day s)) as Hs.
  pose proof (monthFromDay_bounds (Day t)) as Ht.
  fold (getMonth s) in Hs. fold (getMonth t) in Ht.
  assert (Hlen : String.length (pretty (getFullYear s))
                 = String.length (pretty (getFullYear t))).
  { apply (f_equal String.length) in H.
    rewrite !string_length_app, !padded_month_length in H by lia.
    simpl in H. lia. }
  destruct (string_app_inj_suffix _ _ _ _ Hlen H) as [Hy Hm].
  apply (inj pretty) in Hy. split; [exact Hy|].
  injection Hm as Hm. apply padded_month_inj in Hm; lia.
Qed.
End MonthTokenFacts.

(* ===================================================================== *)
(** ** Roll-overs and the evaluator over time *)
(* ===================================================================== *)

Section RollOverProperties.
Import JSDate.

(** X1.  The monthly counter is reset exactly when the calendar month has
    changed since its anchor was written: for an anchor that is the month
    token of an instant [anchor], [resetMonthlyDownloadsIfNeeded] leaves the
    document alone when [now] falls in the month of [anchor], and otherwise
    (an earlier month or a later one) clears the counter, moves the anchor
    to the month of [now] and returns whether the counter was positive. *)
Theorem resetMonthly_fires_iff_month_changed (anchor now : Z) (u : User.t) :
  User.monthlyDownloadMonth u = User.monthToken anchor ->
  (sameCalendarMonth anchor now ->
   User.resetMonthlyDownloadsIfNeeded now u = (false, u))
  /\ (~ sameCalendarMonth anchor now ->
      User.resetMonthlyDownloadsIfNeeded now u
      = (User.monthlyDownloads u >? 0,
         User.set_monthly u 0 (User.monthToken now)))
  /\ (~ sameCalendarMonth anchor now ->
      User.monthlyDownloads (snd (User.resetMonthlyDownloadsIfNeeded now u))
      = 0
      /\ User.monthlyDownloadMonth
           (snd (User.resetMonthlyDownloadsIfNeeded now u))
         = User.monthToken now).
Proof.
  intros Hu. unfold User.resetMonthlyDownloadsIfNeeded. cbv zeta. rewrite Hu.
  destruct (String.eqb_spec (User.monthToken anchor) (User.monthToken now))
    as [Heq|Hne]; simpl.
  - split; [reflexivity|].
    split; intros H; exfalso; apply H; apply monthToken_inj, Heq.
  - split; [|split; [reflexivity|intros _; split; reflexivity]].
    intros H. exfalso. apply Hne. apply monthToken_inj, H.
Qed.

Lemma resetMonthly_fires_iff_month_changed_witness :
  User.monthlyDownloadMonth Samples.busy
  = User.monthToken Samples.mar13_0900
  /\ User.resetMonthlyDownloadsIfNeeded Samples.mar15_1000 Samples.busy
     = (false, Samples.busy)
  /\ User.resetMonthlyDownloadsIfNeeded Samples.jun01_0000 Samples.busy
     = (true, User.set_monthly Samples.busy 0 "2024-06").
Proof.
  assert (Hu : User.monthlyDownloadMonth Samples.busy
               = User.monthToken Samples.mar13_0900)
    by (vm_compute; reflexivity).
  split; [exact Hu|]. split.
  - apply (proj1 (resetMonthly_fires_iff_month_changed
                    Samples.mar13_0900 Samples.mar15_1000 Samples.busy Hu)).
    vm_compute. auto.
  - assert (Htok : User.monthToken Samples.jun01_0000 = "2024-06")
      by (vm_compute; reflexivity).
    rewrite <- Htok.
    apply (proj1 (proj2 (resetMonthly_fires_iff_month_changed
                           Samples.mar13_0900 Samples.jun01_0000
                           Samples.busy Hu))).
    intros [_ H]. vm_compute in H. discriminate H.
Defined.

(** X2.  [resetMonthlyDownloadsIfNeeded] is idempotent within a calendar
    month: after a call at [t1], a call at any instant [t2] of the same
    calendar month returns [false] and leaves the document as the first
    call left it. *)
Theorem resetMonthly_idempotent_within_month (t1 t2 : Z) (u : User.t) :
  sameCalendarMonth t1 t2 ->
  let u1 := snd (User.resetMonthlyDownloadsIfNeeded t1 u) in
  User.monthlyDownloadMonth u1 = User.monthToken t1
  /\ User.resetMonthlyDownloadsIfNeeded t2 u1 = (false, u1).
Proof.
  intros Hsame. cbv zeta.
  assert (Hm : User.monthlyDownloadMonth
                 (snd (User.resetMonthlyDownloadsIfNeeded t1 u))
               = User.monthToken t1).
  { unfold User.resetMonthlyDownloadsIfNeeded. cbv zeta.
    destruct (String.eqb_spec (User.monthlyDownloadMonth u)
                              (User.monthToken t1)); simpl; auto. }
  split; [exact Hm|].
  apply resetMonthly_current. rewrite Hm.
  apply sameCalendarMonth_token, Hsame.
Qed.

Lemma resetMonthly_idempotent_within_month_witness :
  sameCalendarMonth Samples.mar13_0900 Samples.mar15_2200
  /\ User.resetMonthlyDownloadsIfNeeded Samples.mar15_2200
       (snd (User.resetMonthlyDownloadsIfNeeded Samples.mar13_0900
               MoreSamples.stale))
     = (false,
        snd (User.resetMonthlyDownloadsIfNeeded Samples.mar13_0900
               MoreSamples.stale)).
Proof.
  assert (Hs : sameCalendarMonth Samples.mar13_0900 Samples.mar15_2200)
    by (vm_compute; auto).
  split; [exact Hs|].
  exact (proj2 (resetMonthly_idempotent_within_month
                  Samples.mar13_0900 Samples.mar15_2200 MoreSamples.stale Hs)).
Defined.

(** X3.  The daily roll-over looks one way only: with an anchor on the day
    of [now] or on a later day it does nothing and returns [false], and with
    no anchor at all it resets, setting the anchor to the midnight that
    opens today. *)
Theorem resetDaily_anchor_today_or_later (now : Z) (u : User.t) :
  0 <= now ->
  (forall anchor,
     User.dailyDownloadDate u = Some anchor -> 0 <= anchor ->
     Day now <= Day anchor ->
     User.resetDailyDownloadsIfNeeded now u = (false, u))
  /\ (User.dailyDownloadDate u = None ->
      User.resetDailyDownloadsIfNeeded now u
      = (User.dailyDownloads u >? 0,
         User.set_daily u 0 (Some (Day now * msPerDay))))
  /\ (User.dailyDownloadDate u = None ->
      User.dailyDownloads (snd (User.resetDailyDownloadsIfNeeded now u)) = 0
      /\ User.dailyDownloadDate
           (snd (User.resetDailyDownloadsIfNeeded now u))
         = Some (Day now * msPerDay)).
Proof.
  intros Hnow.
  assert (Hnone : User.dailyDownloadDate u = None ->
                  User.resetDailyDownloadsIfNeeded now u
                  = (User.dailyDownloads u >? 0,
                     User.set_daily u 0 (Some (Day now * msPerDay)))).
  { intros Ha. unfold User.resetDailyDownloadsIfNeeded. cbv zeta. rewrite Ha.
    change (User.startOfDay <$> None) with (@None Z). cbv iota.
    now rewrite (startOfDay_eq now Hnow). }
  split; [|split; [exact Hnone|]].
  - intros anchor Ha H0 Hle.
    unfold User.resetDailyDownloadsIfNeeded. cbv zeta. rewrite Ha.
    change (User.startOfDay <$> Some anchor)
      with (Some (User.startOfDay anchor)). cbv iota.
    rewrite (startOfDay_eq now Hnow), (startOfDay_eq anchor H0).
    pose proof msPerDay_pos.
    destruct (Z.gtb_spec (Day now * msPerDay) (Day anchor * msPerDay));
      [nia|reflexivity].
  - intros Ha. rewrite (Hnone Ha). split; reflexivity.
Qed.

Lemma resetDaily_anchor_today_or_later_witness :
  0 <= Samples.mar13_0900
  /\ User.dailyDownloadDate Samples.dailyExhausted = Some Samples.mar15_0000
  /\ Day Samples.mar13_0900 <= Day Samples.mar15_0000
  /\ User.resetDailyDownloadsIfNeeded Samples.mar13_0900
       Samples.dailyExhausted
     = (false, Samples.dailyExhausted)
  /\ User.resetDailyDownloadsIfNeeded Samples.mar13_0900 MoreSamples.stale
     = (true, User.set_daily MoreSamples.stale 0
                (Some (Day Samples.mar13_0900 * msPerDay))).
Proof.
  assert (H0 : 0 <= Samples.mar13_0900) by (vm_compute; discriminate).
  assert (Hle : Day Samples.mar13_0900 <= Day Samples.mar15_0000)
    by (vm_compute; discriminate).
  split; [exact H0|]. split; [reflexivity|]. split; [exact Hle|]. split.
  - exact (proj1 (resetDaily_anchor_today_or_later
                    Samples.mar13_0900 Samples.dailyExhausted H0)
             Samples.mar15_0000 eq_refl ltac:(vm_compute; discriminate) Hle).
  - exact (proj1 (proj2 (resetDaily_anchor_today_or_later
                           Samples.mar13_0900 MoreSamples.stale H0))
             eq_refl).
Defined.

(** X4.  [canDownload] never counts anything: of the document it returns,
    each window counter is the one it was given or 0, and the lifetime
    count, the tier, the verification flag and the history are the ones it
    was given. *)
Theorem canDownload_never_counts (now : Z) (u : User.t) :
  let v := snd (User.canDownload now u) in
  (User.dailyDownloads v = User.dailyDownloads u \/ User.dailyDownloads v = 0)
  /\ (User.monthlyDownloads v = User.monthlyDownloads u
      \/ User.monthlyDownloads v = 0)
  /\ User.totalDownloads v = User.totalDownloads u
  /\ User.subscription v = User.subscription u
  /\ User.premiumExpiry v = User.premiumExpiry u
  /\ User.isVerified v = User.isVerified u
  /\ User.downloads v = User.downloads u
  /\ User.downloadStats v = User.downloadStats u.
Proof.
  cbv zeta. destruct (User.isVerified u) eqn:Hv.
  - rewrite (canDownload_verified_snd now u Hv). unfold User.rolledOver.
    destruct (resetMonthly_shape now
                (snd (User.resetDailyDownloadsIfNeeded now u))) as [-> | ->],
             (resetDaily_shape now u) as [-> | ->]; simpl; rewrite ?Hv; auto 10.
  - unfold User.canDownload. rewrite Hv. simpl. rewrite Hv. auto 10.
Qed.

(** X5.  An evaluation repeated later on the same calendar day, with no
    download in between and the tier neither lapsing nor starting, gives
    the same verdict and the same used, limit and remaining of both
    windows, and leaves the document as the first evaluation left it. *)
Theorem canDownload_stable_within_day (t1 t2 : Z) (u : User.t) :
  0 <= t1 -> sameCalendarDay t1 t2 ->
  User.isActive t2 u = User.isActive t1 u ->
  let c1 := fst (User.canDownload t1 u) in
  let v := snd (User.canDownload t1 u) in
  let c2 := fst (User.canDownload t2 v) in
  snd (User.canDownload t2 v) = v
  /\ User.canDownload_ c2 = User.canDownload_ c1
  /\ User.used (User.daily c2) = User.used (User.daily c1)
  /\ User.remaining (User.daily c2) = User.remaining (User.daily c1)
  /\ User.used (User.monthly c2) = User.used (User.monthly c1)
  /\ User.limit (User.monthly c2) = User.limit (User.monthly c1)
  /\ User.remaining (User.monthly c2) = User.remaining (User.monthly c1).
Proof.
  intros Ht Hsame Hact. cbv zeta.
  destruct (User.isVerified u) eqn:Hv.
  2:{ assert (E : snd (User.canDownload t1 u) = u)
        by (unfold User.canDownload; rewrite Hv; reflexivity).
      rewrite E. unfold User.canDownload. rewrite Hv. simpl.
      repeat split; reflexivity. }
  destruct (canDownload_verified t1 u Hv) as (Hs1 & Hd1 & Hm1 & Hc1 & _).
  cbv zeta in *. rewrite Hs1, Hd1, Hm1, Hc1.
  destruct (rolledOver_tier t1 u) as (Hsub & Hexp & Hver & _).
  assert (Hv' : User.isVerified (User.rolledOver t1 u) = true)
    by congruence.
  assert (Hroll : User.rolledOver t2 (User.rolledOver t1 u)
                  = User.rolledOver t1 u).
  { unfold User.rolledOver at 1.
    assert (Hday : User.resetDailyDownloadsIfNeeded t2 (User.rolledOver t1 u)
                   = User.resetDailyDownloadsIfNeeded t1
                       (User.rolledOver t1 u)).
    { unfold User.resetDailyDownloadsIfNeeded. cbv zeta.
      now rewrite (startOfDay_sameCalendarDay t1 t2 Hsame). }
    rewrite Hday, (resetDaily_current t1 u Ht). simpl snd.
    rewrite resetMonthly_current; [reflexivity|].
    rewrite rolledOver_month. apply sameCalendarMonth_token.
    destruct Hsame as (Hy & Hm & _). split; assumption. }
  assert (Hlim : User.monthlyLimit t2 (User.rolledOver t1 u)
                 = User.monthlyLimit t1 u).
  { rewrite (monthlyLimit_ext t2 _ u) by assumption.
    unfold User.monthlyLimit. now rewrite Hact. }
  destruct (canDownload_verified t2 (User.rolledOver t1 u) Hv')
    as (Hs2 & Hd2 & Hm2 & Hc2 & _).
  cbv zeta in *. rewrite Hs2, Hd2, Hm2, Hc2, Hroll, Hlim. simpl. auto 10.
Qed.

Lemma canDownload_stable_within_day_witness :
  0 <= Samples.mar15_1000
  /\ sameCalendarDay Samples.mar15_1000 Samples.mar15_2200
  /\ snd (User.canDownload Samples.mar15_2200
            (snd (User.canDownload Samples.mar15_1000 Samples.busy)))
     = snd (User.canDownload Samples.mar15_1000 Samples.busy)
  /\ User.canDownload_
       (fst (User.canDownload Samples.mar15_2200
               (snd (User.canDownload Samples.mar15_1000 Samples.busy))))
     = User.canDownload_
         (fst (User.canDownload Samples.mar15_1000 Samples.busy)).
Proof.
  assert (H0 : 0 <= Samples.mar15_1000) by (vm_compute; discriminate).
  assert (Hs : sameCalendarDay Samples.mar15_1000 Samples.mar15_2200)
    by (vm_compute; auto).
  pose proof (canDownload_stable_within_day
                Samples.mar15_1000 Samples.mar15_2200 Samples.busy
                H0 Hs eq_refl) as H.
  cbv zeta in H. destruct H as (Hsnd & Hc & _).
  split; [exact H0|]. split; [exact Hs|]. split; [exact Hsnd|exact Hc].
Defined.
End RollOverProperties.

(* ===================================================================== *)
(** ** [incrementDownloadCount] and the history *)
(* ===================================================================== *)

Section IncrementProperties.
Import JSDate.

Lemma rolledOver_history now u :
  User.downloads (User.rolledOver now u) = User.downloads u
  /\ User.downloadStats (User.rolledOver now u) = User.downloadStats u
  /\ User.createdAt (User.rolledOver now u) = User.createdAt u.
Proof.
  unfold User.rolledOver.
  destruct (resetMonthly_shape now
              (snd (User.resetDailyDownloadsIfNeeded now u))) as [-> | ->],
           (resetDaily_shape now u) as [-> | ->]; simpl; auto.
Qed.

Lemma applyIncrement_unfold now pd u :
  User.applyIncrement now pd u
  = let v := User.rolledOver now u in
    let v := User.set_daily v (User.dailyDownloads v + 1)
                            (User.dailyDownloadDate v) in
    let v := User.set_monthly v (User.monthlyDownloads v + 1)
                              (User.monthlyDownloadMonth v) in
    let v := User.set_totalDownloads v (User.totalDownloads v + 1) in
    match User.pd_productId pd with
    | Some productId =>
        User.set_history v
          (User.downloads v ++
             [{| History.productId := productId;
                 History.productTitle :=
                   orDefault (User.pd_productTitle pd) "Unknown Product";
                 History.productCategory :=
                   orDefault (User.pd_productCategory pd) "unknown";
                 History.downloadedAt := now;
                 History.downloadSource :=
                   orDefault (User.pd_downloadSource pd) "web";
                 History.ipAddress :=
                   orDefault (User.pd_ipAddress pd) "unknown" |}])
          (User.updateStats (User.pd_productCategory pd)
             (User.downloadStats v) (User.totalDownloads v) now)
    | None => v
    end.
Proof.
  unfold User.applyIncrement, User.rolledOver. cbv zeta.
  now rewrite !or0_id.
Qed.

(** X6.  After [incrementDownloadCount] at [now], [hasDownloadedRecently]
    asked at [later] holds of a product exactly when it held before or the
    increment was for that product and [now] lies within the window that
    ends at [later]. *)
Theorem hasDownloadedRecently_applyIncrement
    (now later minutes : Z) (productId : ObjectId)
    (pd : User.ProductData) (u : User.t) :
  User.hasDownloadedRecently later productId minutes
    (User.applyIncrement now pd u)
  = User.hasDownloadedRecently later productId minutes u
    || match User.pd_productId pd with
       | Some p => N.eqb p productId
                   && (now >=? later - minutes * 60 * 1000)
       | None => false
       end.
Proof.
  rewrite applyIncrement_unfold. cbv zeta.
  destruct (rolledOver_history now u) as (Hh & _).
  unfold User.hasDownloadedRecently. cbv zeta.
  destruct (User.pd_productId pd) as [p|]; simpl User.downloads.
  - rewrite Hh, existsb_app. simpl. now rewrite orb_false_r.
  - now rewrite Hh, orb_false_r.
Qed.

End IncrementProperties.

(* ===================================================================== *)
(** ** [getDownloadHistory] and the counts of [getDownloadStats] *)
(* ===================================================================== *)

Section StatisticsProperties.
Import JSDate UserMethods.

Lemma setDate_eq t d : setDate t d = t + (d - getDate t) * msPerDay.
Proof.
  unfold setDate, getFullYear, getMonth, getDate. rewrite MakeDay_fields.
  unfold Day. pose proof msPerDay_pos as Hb.
  pose proof (Z.div_mod t msPerDay ltac:(lia)) as Hdm.
  generalize dependent (t / msPerDay). generalize (t mod msPerDay).
  generalize dependent msPerDay. intros b Hb r q Hdm. nia.
Qed.

Lemma insertNewestFirst_perm x l : insertNewestFirst x l ≡ₚ x :: l.
Proof.
  induction l as [|y l IH]; simpl; [reflexivity|].
  destruct (History.downloadedAt y >? History.downloadedAt x);
    [|reflexivity].
  rewrite IH. apply perm_swap.
Qed.

Lemma sortNewestFirst_perm l : sortNewestFirst l ≡ₚ l.
Proof.
  induction l as [|x l IH]; simpl; [reflexivity|].
  unfold sortNewestFirst in *. simpl.
  now rewrite insertNewestFirst_perm, IH.
Qed.

Lemma insertNewestFirst_sorted x l :
  StronglySorted
    (fun a b => History.downloadedAt b <= History.downloadedAt a) l ->
  StronglySorted
    (fun a b => History.downloadedAt b <= History.downloadedAt a)
    (insertNewestFirst x l).
Proof.
  induction 1 as [|y l Hs IH Hall]; simpl.
  - repeat constructor.
  - destruct (Z.gtb_spec (History.downloadedAt y) (History.downloadedAt x))
      as [Hgt|Hle].
    + constructor; [exact IH|].
      rewrite insertNewestFirst_perm. constructor; [lia|exact Hall].
    + constructor; [constructor; assumption|].
      constructor; [exact Hle|].
      eapply Forall_impl; [exact Hall|]. simpl. intros z Hz. lia.
Qed.

Lemma sortNewestFirst_sorted l :
  StronglySorted
    (fun a b => History.downloadedAt b <= History.downloadedAt a)
    (sortNewestFirst l).
Proof.
  induction l as [|x l IH]; [constructor|].
  apply insertNewestFirst_sorted, IH.
Qed.

(** X8.  [getDownloadHistory] returns exactly the entries of the history
    that are not older than the start instant it computes
    ([setDate(getDate() - days)] applied to now, whatever instant that is
    in the zone of the process), each as often as the history holds it,
    and in an order in which no entry comes before a newer one. *)
Theorem getDownloadHistory_window_sorted (now days : Z) (u : User.t) :
  let startDate := setDate now (getDate now - days) in
  let h := getDownloadHistory now days u in
  h ≡ₚ List.filter
         (fun download => History.downloadedAt download >=? startDate)
         (User.downloads u)
  /\ StronglySorted
       (fun a b => History.downloadedAt b <= History.downloadedAt a) h
  /\ (forall download,
        In download h <->
        In download (User.downloads u)
        /\ startDate <= History.downloadedAt download).
Proof.
  cbv zeta. unfold getDownloadHistory. cbv zeta.
  generalize (setDate now (getDate now - days)). intros startDate.
  split; [apply sortNewestFirst_perm|].
  split; [apply sortNewestFirst_sorted|].
  intros download. split.
  - intros Hin.
    apply (Permutation_in _ (sortNewestFirst_perm _)) in Hin.
    apply filter_In in Hin as [Hin Hge]. apply Z.geb_le in Hge. auto.
  - intros [Hin Hge].
    apply (Permutation_in _ (Permutation_sym (sortNewestFirst_perm _))).
    apply filter_In. split; [exact Hin|apply Z.geb_le, Hge].
Qed.

Lemma filter_length_le {A} (p q : A -> bool) (l : list A) :
  (forall x, p x = true -> q x = true) ->
  (length (List.filter p l) <= length (List.filter q l))%nat.
Proof.
  intros Hpq. induction l as [|x l IH]; simpl; [lia|].
  destruct (p x) eqn:Hp.
  - rewrite (Hpq x Hp). simpl. lia.
  - destruct (q x); simpl; lia.
Qed.

Lemma filter_length_all {A} (p : A -> bool) (l : list A) :
  (length (List.filter p l) <= length l)%nat.
Proof.
  induction l as [|x l IH]; simpl; [lia|]. destruct (p x); simpl; lia.
Qed.

Lemma setHours0_le t : setHours0 t <= t.
Proof. unfold setHours0. pose proof (Day_bounds t). lia. Qed.

Lemma setHours0_Day s t : setHours0 s = setHours0 t -> Day s = Day t.
Proof.
  unfold setHours0. pose proof msPerDay_pos. intros H'. nia.
Qed.

(** X9.  In the object [getDownloadStats] returns, the count of today's
    entries of the history is at most the count of the last seven days and
    at most the count of the current month, and none of the three exceeds
    the length of the history. *)
Theorem getDownloadStats_history_counts (now : Z) (u : User.t) :
  let s := fst (getDownloadStats now u) in
  0 <= DownloadStats.todayDownloadsDetailed s
  /\ DownloadStats.todayDownloadsDetailed s <= DownloadStats.weekDownloads s
  /\ DownloadStats.todayDownloadsDetailed s
     <= DownloadStats.monthDownloadsDetailed s
  /\ DownloadStats.weekDownloads s <= Z.of_nat (length (User.downloads u))
  /\ DownloadStats.monthDownloadsDetailed s
     <= Z.of_nat (length (User.downloads u)).
Proof.
  cbv zeta. unfold getDownloadStats. cbv zeta. simpl.
  fold (User.rolledOver now u).
  destruct (rolledOver_history now u) as (-> & _).
  split; [lia|]. split.
  { apply inj_le, filter_length_le. intros d Hd.
    apply Z.eqb_eq in Hd. apply Z.geb_le.
    pose proof (setHours0_le (History.downloadedAt d)). lia. }
  split.
  { apply inj_le, filter_length_le. intros d Hd.
    apply Z.eqb_eq, setHours0_Day in Hd.
    unfold getMonth, getFullYear. rewrite Hd, !Z.eqb_refl. reflexivity. }
  split; apply inj_le, filter_length_all.
Qed.

Lemma countOf_bump k k' acc :
  countOf (bump k acc) k'
  = if String.eqb k k' then Some (default 0 (countOf acc k) + 1)
    else countOf acc k'.
Proof.
  unfold countOf. induction acc as [|[k0 n] acc IH]; simpl.
  - destruct (String.eqb k k'); reflexivity.
  - destruct (String.eqb_spec k0 k) as [->|Hne]; simpl.
    + destruct (String.eqb_spec k k'); simpl; [now rewrite or0_id|reflexivity].
    + destruct (String.eqb_spec k0 k') as [->|Hne']; simpl.
      * destruct (String.eqb_spec k k'); [congruence|reflexivity].
      * exact IH.
Qed.

Lemma occurrences_cons k k0 keys :
  occurrences k (k0 :: keys)
  = (if String.eqb k k0 then 1 else 0) + occurrences k keys.
Proof.
  unfold occurrences. simpl. destruct (String.eqb k k0); simpl; lia.
Qed.

Lemma occurrences_nonneg k keys : 0 <= occurrences k keys.
Proof. unfold occurrences. lia. Qed.

Lemma countOf_fold_bump keys : forall acc k,
  countOf (fold_left (fun acc k => bump k acc) keys acc) k
  = if occurrences k keys =? 0 then countOf acc k
    else Some (default 0 (countOf acc k) + occurrences k keys).
Proof.
  induction keys as [|k0 keys IH]; intros acc k; simpl; [reflexivity|].
  rewrite IH, countOf_bump, occurrences_cons.
  pose proof (occurrences_nonneg k keys) as Hn.
  rewrite (String.eqb_sym k k0).
  destruct (String.eqb_spec k0 k) as [->|Hne].
  - destruct (Z.eqb_spec (occurrences k keys) 0) as [H0|H0];
      destruct (Z.eqb_spec (1 + occurrences k keys) 0); try lia; simpl.
    + f_equal. lia.
    + f_equal. lia.
  - reflexivity.
Qed.

Lemma countOf_tally keys k :
  countOf (tally keys) k
  = if occurrences k keys =? 0 then None else Some (occurrences k keys).
Proof. unfold tally. rewrite countOf_fold_bump. reflexivity. Qed.

Lemma sum_bump k acc :
  foldr Z.add 0 (snd <$> bump k acc) = foldr Z.add 0 (snd <$> acc) + 1.
Proof.
  unfold fmap. induction acc as [|[k0 n] acc IH]; simpl; [reflexivity|].
  destruct (String.eqb k0 k); simpl; rewrite ?or0_id; lia.
Qed.

Lemma sum_tally keys :
  foldr Z.add 0 (snd <$> tally keys) = Z.of_nat (length keys).
Proof.
  unfold tally.
  assert (H : forall acc,
             foldr Z.add 0
               (snd <$> fold_left (fun acc k => bump k acc) keys acc)
             = foldr Z.add 0 (snd <$> acc) + Z.of_nat (length keys)).
  { induction keys as [|k keys IH]; intros acc; simpl length.
    - simpl. lia.
    - simpl fold_left. rewrite IH, sum_bump. lia. }
  rewrite H. reflexivity.
Qed.

(** X10.  The category breakdown of [getDownloadStats] maps each category
    to the number of entries of the history that carry it (an entry with
    an empty category counting under "unknown"), holds no category that
    does not occur, and its counts add up to the length of the history;
    the source breakdown does the same with "web" as the default. *)
Theorem getDownloadStats_breakdowns (now : Z) (u : User.t) :
  let s := fst (getDownloadStats now u) in
  let categories :=
    (fun download => orString (History.productCategory download) "unknown")
    <$> User.downloads u in
  let srcs :=
    (fun download => orString (History.downloadSource download) "web")
    <$> User.downloads u in
  (forall k,
     countOf (DownloadStats.categoryBreakdown s) k
     = if occurrences k categories =? 0 then None
       else Some (occurrences k categories))
  /\ (forall k,
        countOf (DownloadStats.sourceBreakdown s) k
        = if occurrences k srcs =? 0 then None
          else Some (occurrences k srcs))
  /\ foldr Z.add 0 (snd <$> DownloadStats.categoryBreakdown s)
     = Z.of_nat (length (User.downloads u))
  /\ foldr Z.add 0 (snd <$> DownloadStats.sourceBreakdown s)
     = Z.of_nat (length (User.downloads u)).
Proof.
  cbv zeta. unfold getDownloadStats. cbv zeta. simpl.
  fold (User.rolledOver now u).
  destruct (rolledOver_history now u) as (-> & _).
  split; [intros k; apply countOf_tally|].
  split; [intros k; apply countOf_tally|].
  rewrite !sum_tally, !length_fmap. auto.
Qed.
End StatisticsProperties.

(* ===================================================================== *)
(** ** [mostActiveCategory], and [getDownloadStats] against [canDownload] *)
(* ===================================================================== *)

Section MostActiveProperties.
Import JSDate UserMethods.

Lemma countOf_key stats k m :
  countOf stats k = Some m -> In k (fst <$> stats).
Proof.
  unfold countOf. destruct (List.find _ stats) as [[k0 n]|] eqn:Hf;
    [|discriminate].
  intros _. apply find_some in Hf as [Hin Heq]. simpl in Heq.
  apply String.eqb_eq in Heq. subst k0.
  apply in_map_iff. exists (k, n). auto.
Qed.

Lemma key_countOf stats k :
  In k (fst <$> stats) -> countOf stats k <> None.
Proof.
  intros Hin. apply in_map_iff in Hin as ([k0 n] & <- & Hin).
  simpl. unfold countOf.
  destruct (List.find (fun p => String.eqb (fst p) k0) stats) eqn:Hf;
    [simpl; discriminate|].
  apply (find_none _ _ Hf) in Hin. simpl in Hin.
  now rewrite String.eqb_refl in Hin.
Qed.

Lemma reduce_greatest (c : string -> option Z) (l : list string) :
  (forall b, In b l -> c b <> None) ->
  forall a,
    let r :=
      fold_left
        (fun a b =>
           match c a, c b with
           | Some x, Some y => if x >? y then a else b
           | _, _ => b
           end) l a in
    (forall m, c a = Some m -> exists n, c r = Some n /\ m <= n)
    /\ (forall b m, In b l -> c b = Some m -> exists n, c r = Some n /\ m <= n)
    /\ (l <> [] -> c r <> None).
Proof.
  induction l as [|b l IH]; intros Hkeys a; cbv zeta; simpl.
  - split; [intros m Hm; exists m; split; [exact Hm|lia]|].
    split; [intros b m []|congruence].
  - assert (Hb : c b <> None) by (apply Hkeys; left; reflexivity).
    destruct (c b) as [y|] eqn:Hcb; [clear Hb|congruence].
    specialize (IH (fun k Hk => Hkeys k (or_intror Hk))).
    set (a' := match c a with
               | Some x => if x >? y then a else b
               | None => b
               end).
    destruct (IH a') as (Ha' & Hl & Hne). cbv zeta in *.
    assert (Hstep : (forall m, c a = Some m ->
                       exists n, c a' = Some n /\ m <= n)
                    /\ exists n, c a' = Some n /\ y <= n).
    { subst a'. destruct (c a) as [x|] eqn:Hca.
      - destruct (Z.gtb_spec x y).
        + split; [intros m [= <-]; exists x; split; [exact Hca|lia]|].
          exists x. split; [exact Hca|lia].
        + split; [intros m [= <-]; exists y; split; [exact Hcb|lia]|].
          exists y. split; [exact Hcb|lia].
      - split; [discriminate|]. exists y. split; [exact Hcb|lia]. }
    destruct Hstep as (Hsa & n' & Hn' & Hyn').
    destruct (Ha' n' Hn') as (n & Hn & Hle).
    split.
    { intros m Hm. destruct (Hsa m Hm) as (n1 & Hn1 & Hle1).
      destruct (Ha' n1 Hn1) as (n2 & Hn2 & Hle2). exists n2. split; [exact Hn2|lia]. }
    split.
    { intros k m [<-|Hin] Hm.
      - rewrite Hcb in Hm. injection Hm as <-. exists n. split; [exact Hn|lia].
      - exact (Hl k m Hin Hm). }
    intros _. rewrite Hn. discriminate.
Qed.

Lemma mostActive_greatest stats :
  stats <> [] ->
  exists n,
    countOf stats (mostActive stats) = Some n
    /\ forall k m, countOf stats k = Some m -> m <= n.
Proof.
  intros Hne. unfold mostActive.
  destruct (reduce_greatest (countOf stats) (fst <$> stats)
              (key_countOf stats) "none") as (_ & Hall & Hsome).
  cbv zeta in *.
  set (r := fold_left _ _ _) in *.
  destruct (countOf stats r) as [n|] eqn:Hr.
  2:{ exfalso. apply Hsome; [|reflexivity].
      destruct stats; [congruence|discriminate]. }
  exists n. split; [reflexivity|].
  intros k m Hk.
  destruct (Hall k m (countOf_key stats k m Hk) Hk) as (n' & Hn' & Hle).
  congruence.
Qed.

Lemma tally_nonempty k keys : tally (k :: keys) <> [].
Proof.
  intros He. pose proof (countOf_tally (k :: keys) k) as Hc.
  rewrite He, occurrences_cons, String.eqb_refl in Hc.
  pose proof (occurrences_nonneg k keys).
  destruct (Z.eqb_spec (1 + occurrences k keys) 0); [lia|discriminate].
Qed.

(** X11.  [mostActiveCategory] of [getDownloadStats] is "none" for an
    empty history; otherwise it is a category that occurs in the history,
    and no category occurs in it more often. *)
Theorem getDownloadStats_mostActiveCategory (now : Z) (u : User.t) :
  let s := fst (getDownloadStats now u) in
  let categories :=
    (fun download => orString (History.productCategory download) "unknown")
    <$> User.downloads u in
  match User.downloads u with
  | [] => DownloadStats.mostActiveCategory s = "none"
  | _ :: _ =>
      0 < occurrences (DownloadStats.mostActiveCategory s) categories
      /\ forall k,
           occurrences k categories
           <= occurrences (DownloadStats.mostActiveCategory s) categories
  end.
Proof.
  cbv zeta. unfold getDownloadStats. cbv zeta. simpl.
  fold (User.rolledOver now u).
  destruct (rolledOver_history now u) as (-> & _).
  destruct (User.downloads u) as [|d l]; [reflexivity|].
  set (keys := _ <$> d :: l).
  assert (Hne : tally keys <> []) by apply tally_nonempty.
  destruct (mostActive_greatest (tally keys) Hne) as (n & Hn & Hmax).
  rewrite countOf_tally in Hn.
  destruct (Z.eqb_spec (occurrences (mostActive (tally keys)) keys) 0)
    as [|Hpos]; [discriminate|].
  injection Hn as Hn.
  pose proof (occurrences_nonneg (mostActive (tally keys)) keys).
  split; [lia|].
  intros k. specialize (Hmax k (occurrences k keys)).
  rewrite countOf_tally in Hmax.
  destruct (Z.eqb_spec (occurrences k keys) 0); [lia|].
  specialize (Hmax eq_refl). lia.
Qed.

(** X12.  For a verified account [getDownloadStats] and [canDownload],
    asked at the same instant, leave the same document and report the same
    used, limit and remaining of both windows, the same lifetime count and
    the same answer to whether the premium tier is active. *)
Theorem getDownloadStats_agrees_with_canDownload (now : Z) (u : User.t) :
  User.isVerified u = true ->
  let s := fst (getDownloadStats now u) in
  let c := fst (User.canDownload now u) in
  snd (getDownloadStats now u) = snd (User.canDownload now u)
  /\ DownloadStats.dailyDownloads s = User.used (User.daily c)
  /\ DownloadStats.dailyLimit s = User.limit (User.daily c)
  /\ DownloadStats.dailyRemaining s = User.remaining (User.daily c)
  /\ DownloadStats.monthlyDownloads s = User.used (User.monthly c)
  /\ DownloadStats.monthlyLimit s = User.limit (User.monthly c)
  /\ DownloadStats.monthlyRemaining s = User.remaining (User.monthly c)
  /\ DownloadStats.totalDownloads s = User.total c
  /\ DownloadStats.isPremium s = User.active (User.subscriptionStatus c).
Proof.
  intros Hv. cbv zeta. unfold getDownloadStats, User.canDownload.
  rewrite Hv. cbv zeta. simpl negb. cbv iota.
  destruct (User.resetDailyDownloadsIfNeeded now u) as [r1 u1]. simpl snd.
  destruct (User.resetMonthlyDownloadsIfNeeded now u1) as [r2 u2].
  simpl. unfold User.monthlyLimit, User.dailyLimit.
  repeat split; reflexivity.
Qed.

Lemma getDownloadStats_agrees_with_canDownload_witness :
  DownloadStats.monthlyRemaining
    (fst (getDownloadStats Samples.mar15_1000 Samples.busy))
  = User.remaining
      (User.monthly (fst (User.canDownload Samples.mar15_1000 Samples.busy))).
Proof.
  exact (proj1 (proj2 (proj2 (proj2 (proj2 (proj2 (proj2
           (getDownloadStats_agrees_with_canDownload
              Samples.mar15_1000 Samples.busy eq_refl)))))))).
Defined.
End MostActiveProperties.

(* ===================================================================== *)
(** ** The premium tier: activation, cancellation and the sweep *)
(* ===================================================================== *)

Section TierProperties.
Import JSDate UserMethods Mongo.

Lemma set_tier_limit u s e t :
  User.monthlyLimit t (set_tier u s e)
  = if Subscription_eqb s premium
       && match e with Some e => e >? t | None => false end
    then 500 else 350.
Proof. reflexivity. Qed.

(** X13.  [updatePremiumSubscription] at [now] for [durationInDays] days
    makes the effective monthly limit 500 at every instant before
    [now + durationInDays] days of 24 hours and 350 from that instant on,
    whatever the tier was, and touches no counter; when the save fails the
    error is replaced by the method's own and nothing is written. *)
Theorem updatePremiumSubscription_limit (fails : Op -> bool)
    (session : bool) (now : Z) (id : ObjectId) (durationInDays : Z)
    (u : User.t) (s : Store) :
  let w := applyPremium now durationInDays u in
  (forall t,
     User.monthlyLimit t w
     = if t <? now + durationInDays * msPerDay then 500 else 350)
  /\ User.dailyDownloads w = User.dailyDownloads u
  /\ User.monthlyDownloads w = User.monthlyDownloads u
  /\ User.totalDownloads w = User.totalDownloads u
  /\ updatePremiumSubscription fails session now id durationInDays u s
     = if fails OpSaveUser
       then (inl "Failed to update premium subscription", s)
       else (inr w,
             write session (putUser id (User.set_lastActivity w now)) s).
Proof.
  cbv zeta. split.
  { intros t. unfold applyPremium. rewrite set_tier_limit. simpl.
    replace (now + durationInDays * 24 * 60 * 60 * 1000)
      with (now + durationInDays * msPerDay)
      by (unfold msPerDay; lia).
    rewrite Z.gtb_ltb. reflexivity. }
  split; [reflexivity|]. split; [reflexivity|]. split; [reflexivity|].
  unfold updatePremiumSubscription, tryCatch, bind, User_save, attempt,
    throw, modify, ret. cbv zeta.
  destruct (fails OpSaveUser); reflexivity.
Qed.

(** X14.  [cancelPremiumSubscription] leaves an account whose effective
    monthly limit is 350 at every instant, whatever tier and expiry it had,
    with its counters untouched; when the save fails the error is replaced
    by the method's own and nothing is written. *)
Theorem cancelPremiumSubscription_limit (fails : Op -> bool)
    (session : bool) (now : Z) (id : ObjectId) (u : User.t) (s : Store) :
  let w := applyCancel now u in
  (forall t, User.monthlyLimit t w = 350)
  /\ User.premiumExpiry w = Some now
  /\ User.dailyDownloads w = User.dailyDownloads u
  /\ User.monthlyDownloads w = User.monthlyDownloads u
  /\ User.totalDownloads w = User.totalDownloads u
  /\ cancelPremiumSubscription fails session now id u s
     = if fails OpSaveUser
       then (inl "Failed to cancel premium subscription", s)
       else (inr w,
             write session (putUser id (User.set_lastActivity w now)) s).
Proof.
  cbv zeta. split; [intros t; reflexivity|].
  do 4 (split; [reflexivity|]).
  unfold cancelPremiumSubscription, tryCatch, bind, User_save, attempt,
    throw, modify, ret. cbv zeta.
  destruct (fails OpSaveUser); reflexivity.
Qed.

Lemma expiredPremium_limit now t u :
  now <= t ->
  User.monthlyLimit t
    (if expiredPremium now u
     then set_tier u free (User.premiumExpiry u) else u)
  = User.monthlyLimit t u.
Proof.
  intros Ht. destruct (expiredPremium now u) eqn:He; [|reflexivity].
  rewrite set_tier_limit. simpl.
  unfold expiredPremium in He. apply andb_prop in He as [Hp He].
  unfold User.monthlyLimit, User.isActive, User.isPremium. rewrite Hp.
  destruct (User.premiumExpiry u) as [e|]; [|reflexivity].
  apply Z.ltb_lt in He. simpl.
  destruct (Z.gtb_spec e t); [lia|reflexivity].
Qed.

Lemma expiredPremium_swept now now' u :
  now' <= now ->
  expiredPremium now'
    (if expiredPremium now u
     then set_tier u free (User.premiumExpiry u) else u) = false.
Proof.
  intros Hle. destruct (expiredPremium now u) eqn:He; [reflexivity|].
  unfold expiredPremium in *.
  destruct (Subscription_eqb (User.subscription u) premium);
    [|reflexivity].
  simpl in *. destruct (User.premiumExpiry u) as [e|]; [|reflexivity].
  apply Z.ltb_ge in He. apply Z.ltb_ge. lia.
Qed.

(** X15.  [resetExpiredPremiumSubscriptions] at [now] changes no counter
    and no expiry, and the effective monthly limit of every account at
    every instant from [now] on is what it was before the sweep; the count
    it reports is 0 exactly when it changes no document; and a second
    sweep at [now] or earlier reports 0 and changes nothing. *)
Theorem resetExpiredPremiumSubscriptions_sweep (now : Z)
    (users : gmap ObjectId User.t) :
  let n := fst (resetExpiredPremiumSubscriptions now users) in
  let users' := snd (resetExpiredPremiumSubscriptions now users) in
  (forall id,
     match users !! id, users' !! id with
     | Some u, Some u' =>
         User.dailyDownloads u' = User.dailyDownloads u
         /\ User.monthlyDownloads u' = User.monthlyDownloads u
         /\ User.totalDownloads u' = User.totalDownloads u
         /\ User.premiumExpiry u' = User.premiumExpiry u
         /\ User.downloads u' = User.downloads u
         /\ (forall t, now <= t ->
               User.monthlyLimit t u' = User.monthlyLimit t u)
     | None, None => True
     | _, _ => False
     end)
  /\ (n = 0%nat <-> users' = users)
  /\ (forall now', now' <= now ->
        resetExpiredPremiumSubscriptions now' users' = (0%nat, users')).
Proof.
  cbv zeta. unfold resetExpiredPremiumSubscriptions. simpl fst. simpl snd.
  split.
  { intros id. rewrite lookup_fmap.
    destruct (users !! id) as [u|]; simpl; [|exact I].
    split; [destruct (expiredPremium now u); reflexivity|].
    split; [destruct (expiredPremium now u); reflexivity|].
    split; [destruct (expiredPremium now u); reflexivity|].
    split; [destruct (expiredPremium now u); reflexivity|].
    split; [destruct (expiredPremium now u); reflexivity|].
    intros t Ht. apply expiredPremium_limit, Ht. }
  split.
  { rewrite map_size_empty_iff, map_empty_filter. split.
    - intros Hall. apply map_eq. intros id. rewrite lookup_fmap.
      destruct (users !! id) as [u|] eqn:Hu; [|reflexivity]. simpl.
      specialize (Hall id u Hu). simpl in Hall.
      destruct (expiredPremium now u); [congruence|reflexivity].
    - intros Heq id u Hu. simpl.
      apply (f_equal (fun m => m !! id)) in Heq.
      rewrite lookup_fmap, Hu in Heq. simpl in Heq.
      destruct (expiredPremium now u) eqn:He; [|discriminate].
      injection Heq as Heq. apply (f_equal User.subscription) in Heq.
      simpl in Heq. unfold expiredPremium in He.
      apply andb_prop in He as [Hp _]. rewrite <- Heq in Hp.
      discriminate Hp. }
  intros now' Hle. f_equal.
  - apply map_size_empty_iff, map_empty_filter.
    intros id u' Hu'. simpl. rewrite lookup_fmap in Hu'.
    destruct (users !! id) as [u|]; [|discriminate]. simpl in Hu'.
    injection Hu' as <-. rewrite (expiredPremium_swept now now' u Hle).
    discriminate.
  - apply map_eq. intros id. rewrite !lookup_fmap.
    destruct (users !! id) as [u|]; [|reflexivity]. simpl.
    now rewrite (expiredPremium_swept now now' u Hle).
Qed.
End TierProperties.

(* ===================================================================== *)
(** ** The download route: what a request touches, and runs of requests *)
(* ===================================================================== *)

Section LedgerProperties.
Import JSDate Mongo DownloadRoute Ledger.

(** X16.  A download request touches one account and one product at most:
    every other account and every other product is left as it was, no
    account or product appears or disappears, and the Download collection
    is unchanged or has one more record at its end, of this account, this
    product and this instant. *)
Theorem consume_touches_one_account_and_product (fails : Op -> bool)
    (req : Request) (db : DB) :
  let db' := snd (consume fails req db) in
  delete (tokenUserId req) (users db') = delete (tokenUserId req) (users db)
  /\ dom (users db') = dom (users db)
  /\ match paramProductId req with
     | Some productId =>
         delete productId (products db') = delete productId (products db)
     | None => products db' = products db
     end
  /\ dom (products db') = dom (products db)
  /\ (downloadsColl db' = downloadsColl db
      \/ exists r,
           downloadsColl db' = downloadsColl db ++ [r]
           /\ Download.userId r = tokenUserId req
           /\ Some (Download.productId r) = paramProductId req
           /\ Download.downloadDate r = now req).
Proof.
  cbv zeta.
  destruct (consume_cases fails req db)
    as [[_ Hdb]
       |(productId & user & product & Hpid & Hu & Hv & Hc & Hp & Ha
         & Hf1 & Hf2 & Hf3 & Hf4 & pd & stats & Hpd & Heq)].
  - rewrite Hdb. split; [reflexivity|]. split; [reflexivity|].
    split; [destruct (paramProductId req); reflexivity|].
    split; [reflexivity|]. left. reflexivity.
  - rewrite Heq, Hpid. simpl.
    split; [apply delete_insert_eq|].
    split; [apply dom_insert_lookup_L; eauto|].
    split; [apply delete_insert_eq|].
    split; [apply dom_insert_lookup_L; eauto|].
    right. eexists. split; [reflexivity|]. simpl. auto.
Qed.

Lemma List_last_cons {A} (x : A) (l : list A) (d : A) :
  List.last (x :: l) d = List.last l x.
Proof.
  revert x d. induction l as [|y l IH]; intros x d; [reflexivity|].
  change (List.last (x :: y :: l) d) with (List.last (y :: l) d).
  now rewrite (IH y d), (IH y x).
Qed.

Lemma final_cons db s steps : final db (s :: steps) = final (after s) steps.
Proof. unfold final. simpl. apply List_last_cons. Qed.

Lemma accepted_cons s steps :
  accepted (s :: steps)
  = (match outcome (response s) with Accepted => 1 | _ => 0 end)
    + accepted steps.
Proof.
  unfold accepted. simpl.
  destruct (outcome (response s)); simpl length; lia.
Qed.

Lemma applyIncrement_ledger now pd u p :
  User.pd_productId pd = Some p ->
  User.totalDownloads (User.applyIncrement now pd u)
  = User.totalDownloads u + 1
  /\ length (User.downloads (User.applyIncrement now pd u))
     = S (length (User.downloads u)).
Proof.
  intros Hp. rewrite applyIncrement_unfold. cbv zeta. rewrite Hp.
  destruct (rolledOver_history now u) as (Hh & _).
  destruct (rolledOver_tier now u) as (_ & _ & _ & Ht).
  simpl. rewrite Ht, Hh, length_app. simpl. split; [reflexivity|lia].
Qed.

(** X17.  Over any run of download requests the Download collection grows
    by exactly the number of accepted requests; and when all requests are
    of one account that exists, its lifetime count and the length of its
    history grow by that same number. *)
Theorem run_ledgers_agree (calls : list Call) (db : DB) :
  let steps := run db calls in
  let db' := final db steps in
  Z.of_nat (length (downloadsColl db'))
  = Z.of_nat (length (downloadsColl db)) + accepted steps
  /\ forall uid u,
       users db !! uid = Some u ->
       Forall (fun c => tokenUserId (request c) = uid) calls ->
       exists u',
         users db' !! uid = Some u'
         /\ User.totalDownloads u' = User.totalDownloads u + accepted steps
         /\ Z.of_nat (length (User.downloads u'))
            = Z.of_nat (length (User.downloads u)) + accepted steps.
Proof.
  cbv zeta. revert db.
  induction calls as [|c rest IH]; intros db.
  { simpl. unfold accepted, final. simpl. split; [lia|].
    intros uid u Hu _. exists u. split; [exact Hu|]. lia. }
  rewrite run_cons, final_cons, accepted_cons. simpl after. simpl response.
  destruct (IH (snd (consume (faults c) (request c) db))) as (IHc & IHu).
  destruct (consume_cases (faults c) (request c) db)
    as [[Hout Hdb]
       |(productId & user & product & Hpid & Hu & Hv & Hc & Hp & Ha
         & Hf1 & Hf2 & Hf3 & Hf4 & pd & stats & Hpd & Heq)].
  - assert (H0 : match outcome (fst (consume (faults c) (request c) db)) with
                 | Accepted => 1 | _ => 0 end = 0)
      by (destruct (outcome _); congruence).
    rewrite H0. rewrite Hdb in *. split; [lia|].
    intros uid u Hu Hall. apply Forall_cons in Hall as [_ Hall].
    destruct (IHu uid u Hu Hall) as (u' & Hu' & Ht & Hh).
    exists u'. split; [exact Hu'|]. lia.
  - rewrite Heq in *. simpl fst. simpl snd in *. simpl outcome. cbv iota.
    split.
    { rewrite IHc. simpl downloadsColl. rewrite length_app. simpl. lia. }
    intros uid u Hu' Hall. apply Forall_cons in Hall as [Huid Hall].
    subst uid. rewrite Hu in Hu'. injection Hu' as <-.
    destruct (applyIncrement_ledger (now (request c)) pd
                (User.rolledOver (now (request c)) user) productId Hpd)
      as (Ht & Hh).
    destruct (rolledOver_history (now (request c)) user) as (Hh0 & _).
    destruct (rolledOver_tier (now (request c)) user) as (_ & _ & _ & Ht0).
    edestruct (IHu (tokenUserId (request c))) as (u' & Hu' & Ht' & Hh');
      [simpl; apply lookup_insert_eq|exact Hall|].
    exists u'. split; [exact Hu'|].
    rewrite Ht', Hh'. simpl. rewrite Ht, Hh, Ht0, Hh0. lia.
Qed.

Lemma rolledOver_sameCalendarDay s t u :
  sameCalendarDay s t -> User.rolledOver s u = User.rolledOver t u.
Proof.
  intros Hsame. unfold User.rolledOver, User.resetDailyDownloadsIfNeeded,
    User.resetMonthlyDownloadsIfNeeded. cbv zeta.
  rewrite (startOfDay_sameCalendarDay s t Hsame).
  destruct Hsame as (Hy & Hm & _).
  now rewrite (sameCalendarMonth_token s t (conj Hy Hm)).
Qed.

Lemma rolledOver_anchor_current now u :
  0 <= now ->
  match User.startOfDay <$> User.dailyDownloadDate (User.rolledOver now u) with
  | Some last => User.startOfDay now >? last
  | None => true
  end = false.
Proof.
  intros Hnow.
  assert (Hanchor : User.dailyDownloadDate (User.rolledOver now u)
                    = User.dailyDownloadDate
                        (snd (User.resetDailyDownloadsIfNeeded now u))).
  { unfold User.rolledOver.
    destruct (resetMonthly_shape now
                (snd (User.resetDailyDownloadsIfNeeded now u)))
      as [-> | ->]; reflexivity. }
  rewrite Hanchor. unfold User.resetDailyDownloadsIfNeeded. cbv zeta.
  destruct (match User.startOfDay <$> User.dailyDownloadDate u with
            | Some last => User.startOfDay now >? last
            | None => true
            end) eqn:Hc; simpl; [|exact Hc].
  rewrite (startOfDay_idem now Hnow), Z.gtb_ltb. apply Z.ltb_irrefl.
Qed.

(** The account a request accepted at [now] commits: its daily counter is
    one above the rolled-over one, and a roll-over at [now] keeps it. *)
Lemma accepted_daily now pd u :
  0 <= now ->
  let v := User.rolledOver now u in
  let u' := User.set_lastActivity (User.applyIncrement now pd v) now in
  User.dailyDownloads u' = User.dailyDownloads v + 1
  /\ User.dailyDownloads (User.rolledOver now u')
     = User.dailyDownloads v + 1.
Proof.
  intros Hnow. cbv zeta.
  destruct (applyIncrement_rolledOver now pd u Hnow)
    as (Hd & Ha & _). cbv zeta in Hd, Ha.
  split; [exact Hd|].
  unfold User.rolledOver at 1.
  assert (Hno : User.resetDailyDownloadsIfNeeded now
                  (User.set_lastActivity
                     (User.applyIncrement now pd (User.rolledOver now u)) now)
                = (false,
                   User.set_lastActivity
                     (User.applyIncrement now pd (User.rolledOver now u))
                     now)).
  { unfold User.resetDailyDownloadsIfNeeded at 1. cbv zeta.
    simpl User.dailyDownloadDate. rewrite Ha.
    now rewrite (rolledOver_anchor_current now u Hnow). }
  rewrite Hno. simpl snd.
  destruct (resetMonthly_shape now
              (User.set_lastActivity
                 (User.applyIncrement now pd (User.rolledOver now u)) now))
    as [-> | ->]; simpl; exact Hd.
Qed.

(** X18.  Within one calendar day the download route accepts no more
    requests of an account than the daily allowance the account has left
    when the day's requests begin (15 less the rolled-over daily count,
    and so never more than 15 for a count that is not negative), and every
    accepted request commits a daily count of at most 15. *)
Theorem run_daily_cap (uid : ObjectId) (t0 : Z) (calls : list Call)
    (db : DB) (u : User.t) :
  users db !! uid = Some u ->
  Forall (fun c =>
            tokenUserId (request c) = uid
            /\ 0 <= now (request c)
            /\ sameCalendarDay t0 (now (request c))) calls ->
  accepted (run db calls)
  <= Z.max 0 (15 - User.dailyDownloads (User.rolledOver t0 u))
  /\ (0 <= User.dailyDownloads u -> accepted (run db calls) <= 15)
  /\ Forall (fun s =>
               outcome (response s) = Accepted ->
               exists u',
                 users (after s) !! uid = Some u'
                 /\ User.dailyDownloads u' <= 15)
            (run db calls).
Proof.
  intros Hu Hall.
  assert (Hmain :
            accepted (run db calls)
            <= Z.max 0 (15 - User.dailyDownloads (User.rolledOver t0 u))
            /\ Forall (fun s =>
                         outcome (response s) = Accepted ->
                         exists u',
                           users (after s) !! uid = Some u'
                           /\ User.dailyDownloads u' <= 15)
                      (run db calls)).
  { revert db u Hu.
    induction calls as [|c rest IH]; intros db u Hu.
    { simpl. unfold accepted. simpl. split; [lia|constructor]. }
    apply Forall_cons in Hall as [(Huid & Hnow & Hday) Hall].
    specialize (IH Hall).
    rewrite run_cons, accepted_cons. simpl response.
    destruct (consume_cases (faults c) (request c) db)
      as [[Hout Hdb]
         |(productId & user & product & Hpid & Hu' & Hv & Hc & Hp & Ha
           & Hf1 & Hf2 & Hf3 & Hf4 & pd & stats & Hpd & Heq)].
    - assert (H0 : match outcome (fst (consume (faults c) (request c) db))
                   with Accepted => 1 | _ => 0 end = 0)
        by (destruct (outcome _); congruence).
      rewrite H0, Hdb. destruct (IH db u Hu) as (IHn & IHs).
      split; [lia|]. constructor; [|exact IHs].
      simpl. intros Hacc. contradiction.
    - subst uid. rewrite Hu in Hu'. injection Hu' as <-.
      destruct (accepted_daily (now (request c)) pd u Hnow) as (Hd & Hd').
      cbv zeta in Hd, Hd'.
      destruct (canDownload_verified (now (request c)) u Hv)
        as (_ & _ & _ & Hcan & _). cbv zeta in Hcan.
      rewrite Hc in Hcan. symmetry in Hcan.
      apply andb_prop in Hcan as [Hcan _]. apply Z.gtb_lt in Hcan.
      pose proof (fun x => rolledOver_sameCalendarDay t0 _ x Hday) as Hsame.
      pose proof (IH (snd (consume (faults c) (request c) db))) as IH'.
      rewrite Heq in *. simpl fst. simpl snd in *. simpl outcome. cbv iota.
      edestruct IH' as (IHn & IHs); [simpl; apply lookup_insert_eq|].
      rewrite Hsame, Hd' in IHn. rewrite Hsame.
      split; [lia|]. constructor; [|exact IHs].
      simpl. intros _. eexists. split; [apply lookup_insert_eq|].
      rewrite Hd. lia. }
  destruct Hmain as (Hn & Hs). split; [exact Hn|]. split; [|exact Hs].
  intros H0.
  assert (Hr : User.dailyDownloads (User.rolledOver t0 u)
               = User.dailyDownloads u
               \/ User.dailyDownloads (User.rolledOver t0 u) = 0).
  { unfold User.rolledOver.
    destruct (resetMonthly_shape t0
                (snd (User.resetDailyDownloadsIfNeeded t0 u))) as [-> | ->],
             (resetDaily_shape t0 u) as [-> | ->]; simpl; auto. }
  lia.
Qed.

Lemma run_daily_cap_witness :
  users (Samples.db Samples.busy) !! 1%N = Some Samples.busy
  /\ Ledger.accepted
       (DownloadRoute.run (Samples.db Samples.busy) MoreSamples.twoCalls)
     <= Z.max 0
          (15 - User.dailyDownloads
                  (User.rolledOver Samples.mar15_1000 Samples.busy)).
Proof.
  assert (Hu : users (Samples.db Samples.busy) !! 1%N = Some Samples.busy)
    by apply lookup_singleton_eq.
  split; [exact Hu|].
  assert (Hcalls :
            Forall (fun c =>
                      DownloadRoute.tokenUserId (DownloadRoute.request c)
                      = 1%N
                      /\ 0 <= DownloadRoute.now (DownloadRoute.request c)
                      /\ sameCalendarDay Samples.mar15_1000
                           (DownloadRoute.now (DownloadRoute.request c)))
                   MoreSamples.twoCalls).
  { apply Forall_cons. split.
    { split; [reflexivity|]. split; [vm_compute; discriminate|].
      vm_compute. auto. }
    apply Forall_cons. split; [|constructor].
    split; [reflexivity|]. split; [vm_compute; discriminate|].
    vm_compute. auto. }
  exact (proj1 (run_daily_cap 1%N Samples.mar15_1000 MoreSamples.twoCalls
                  (Samples.db Samples.busy) Samples.busy Hu Hcalls)).
Defined.
End LedgerProperties.

(* ===================================================================== *)
(** ** The track-download route *)
(* ===================================================================== *)

Section TrackDownloadProperties.
Import Mongo ProductsRoute.

(** What the track-download route does, by cases: it writes nothing, or it
    finds the account of the token and an active product and adds one to
    the counter of the product. *)
Lemma track_cases fails req db :
  (snd (serve fails req db) = db
   /\ forall url, fst (serve fails req db) <> Tracked url
                  \/ fails OpSaveProduct = true)
  \/ exists id product,
       paramId req = Some id
       /\ products db !! id = Some product
       /\ Product.isActive product = true
       /\ serve fails req db
          = (Tracked (Product.downloadUrl product),
             {| users := users db;
                products :=
                  <[id := Product.set_downloads product
                            (Product.downloads product + 1)]> (products db);
                downloadsColl := downloadsColl db |}).
Proof.
  unfold serve, auth, trackDownload, tryCatch, bind, ret, throw,
    User_findById, Product_findById, Product_save, attempt, modify, write,
    putProduct, view.
  destruct (token req) as [| |userId]; simpl;
    try (left; split; [reflexivity|intros url; left; discriminate]).
  destruct (fails OpFindUser); simpl;
    try (left; split; [reflexivity|intros url; left; discriminate]).
  destruct (userId ≫= _) as [user|]; simpl;
    try (left; split; [reflexivity|intros url; left; discriminate]).
  destruct (paramId req) as [id|]; simpl;
    try (left; split; [reflexivity|intros url; left; discriminate]).
  destruct (fails OpFindProduct); simpl;
    try (left; split; [reflexivity|intros url; left; discriminate]).
  destruct (products db !! id) as [product|] eqn:Hp; simpl;
    try (left; split; [reflexivity|intros url; left; discriminate]).
  destruct (Product.isActive product) eqn:Ha; simpl;
    try (left; split; [reflexivity|intros url; left; discriminate]).
  destruct (fails OpSaveProduct) eqn:Hs; simpl.
  - left. split; [destruct db; reflexivity|]. intros url. right. reflexivity.
  - right. exists id, product. rewrite or0_id. auto.
Qed.

(** X19.  The track-download route of [routes/products.js] never counts a
    download against anyone: whatever the request and whatever fails, the
    accounts and the Download collection are left as they were, no product
    appears or disappears, and a product other than the one named is left
    as it was. *)
Theorem trackDownload_never_counts (fails : Op -> bool) (req : Request)
    (db : DB) :
  let db' := snd (serve fails req db) in
  users db' = users db
  /\ downloadsColl db' = downloadsColl db
  /\ dom (products db') = dom (products db)
  /\ match paramId req with
     | Some id => delete id (products db') = delete id (products db)
     | None => products db' = products db
     end.
Proof.
  cbv zeta.
  destruct (track_cases fails req db)
    as [[Hdb _]|(id & product & Hid & Hp & Ha & Heq)].
  - rewrite Hdb. split; [reflexivity|]. split; [reflexivity|].
    split; [reflexivity|]. destruct (paramId req); reflexivity.
  - rewrite Heq, Hid. simpl. split; [reflexivity|]. split; [reflexivity|].
    split; [apply dom_insert_lookup_L; eauto|apply delete_insert_eq].
Qed.

(** X20.  The track-download route hands out the download link with no
    check of verification or quota: for a token that names an account
    that exists, whatever that account holds, and a product that is
    active, the answer is the link of the product and the one change is
    that the counter of the product stands one higher. *)
Theorem trackDownload_serves_any_account (fails : Op -> bool)
    (req : Request) (db : DB) (userId id : ObjectId) (user : User.t)
    (product : Product.t) :
  token req = Verified (Some userId) ->
  users db !! userId = Some user ->
  paramId req = Some id ->
  products db !! id = Some product ->
  Product.isActive product = true ->
  fails OpFindUser = false -> fails OpFindProduct = false ->
  fails OpSaveProduct = false ->
  exists product',
    serve fails req db
    = (Tracked (Product.downloadUrl product),
       {| users := users db;
          products := <[id := product']> (products db);
          downloadsColl := downloadsColl db |})
    /\ Product.downloads product' = Product.downloads product + 1
    /\ Product.title product' = Product.title product
    /\ Product.category product' = Product.category product
    /\ Product.downloadUrl product' = Product.downloadUrl product
    /\ Product.isActive product' = Product.isActive product.
Proof.
  intros Ht Hu Hid Hp Ha Hf1 Hf2 Hf3.
  exists (Product.set_downloads product (Product.downloads product + 1)).
  split; [|repeat split].
  unfold serve, auth, trackDownload, tryCatch, bind, ret, throw,
    User_findById, Product_findById, Product_save, attempt, modify, write,
    putProduct, view.
  rewrite Ht, Hf1. simpl. rewrite Hu. simpl. rewrite Hid, Hf2. simpl.
  rewrite Hp. simpl. rewrite Ha. simpl. rewrite Hf3. simpl.
  now rewrite or0_id.
Qed.

Lemma trackDownload_serves_any_account_witness :
  User.canDownload_
    (fst (User.canDownload Samples.mar15_1000 Samples.bothExhausted)) = false
  /\ exists product',
       ProductsRoute.serve Samples.noFaults MoreSamples.trackRequest
         (Samples.db Samples.bothExhausted)
       = (ProductsRoute.Tracked (Product.downloadUrl Samples.theme),
          {| users := users (Samples.db Samples.bothExhausted);
             products :=
               <[7%N := product']>
                 (products (Samples.db Samples.bothExhausted));
             downloadsColl :=
               downloadsColl (Samples.db Samples.bothExhausted) |})
       /\ Product.downloads product' = Product.downloads Samples.theme + 1.
Proof.
  split; [vm_compute; reflexivity|].
  destruct (trackDownload_serves_any_account Samples.noFaults
              MoreSamples.trackRequest (Samples.db Samples.bothExhausted)
              1%N 7%N Samples.bothExhausted Samples.theme
              eq_refl (lookup_singleton_eq _ _) eq_refl
              (lookup_singleton_eq _ _) eq_refl eq_refl eq_refl eq_refl)
    as (product' & Heq & Hcount & _).
  exists product'. split; [exact Heq|exact Hcount].
Defined.

End TrackDownloadProperties.

(* ===================================================================== *)
(** ** The chatbot route *)
(* ===================================================================== *)

Section ChatbotProperties.
Import JSDate Mongo ChatbotRoute.

(** The entry the chatbot handler adds to the history. *)
Lemma chatbot_cases fails env req db :
  (snd (serve fails env req db) = db
   /\ forall url rest count limit,
        fst (serve fails env req db) <> Ready url rest count limit false)
  \/ exists productId userId product user,
       paramProductId req = Some productId
       /\ tokenId req = Some userId
       /\ products db !! productId = Some product
       /\ Product.isActive product = true
       /\ users db !! userId = Some user
       /\ Z.of_nat (length (todayDownloads (now req) user)) < DAILY_LIMIT env
       /\ List.find
            (fun download =>
               paramCanonical req
               && N.eqb (History.productId download) productId)
            (todayDownloads (now req) user) = None
       /\ serve fails env req db
          = (if fails OpSaveUser || fails OpSaveProduct
             then ServiceUnavailable
             else Ready (Product.downloadUrl product)
                    (Z.max 0
                       (DAILY_LIMIT env
                        - (Z.of_nat (length (todayDownloads (now req) user))
                           + 1)))
                    (Z.of_nat (length (todayDownloads (now req) user)) + 1)
                    (DAILY_LIMIT env) false,
             {| users :=
                  if fails OpSaveUser then users db
                  else <[userId :=
                           User.set_lastActivity
                             (User.set_history user
                                (User.downloads user ++
                                   [{| History.productId := productId;
                                       History.productTitle :=
                                         Product.title product;
                                       History.productCategory :=
                                         Product.category product;
                                       History.downloadedAt := now req;
                                       History.downloadSource := "web";
                                       History.ipAddress := "unknown" |}])
                                (User.downloadStats user))
                             (now req)]> (users db);
                products :=
                  if fails OpSaveProduct then products db
                  else <[productId :=
                           Product.set_downloads product
                             (Product.downloads product + 1)]> (products db);
                downloadsColl := downloadsColl db |}).
Proof.
  unfold serve, handler, download, saveBoth, tryCatch, bind, ret, throw,
    User_findById, Product_findById, attempt, write, putUser, putProduct,
    view.
  destruct (paramProductId req) as [productId|]; simpl;
    try (left; split; [reflexivity|discriminate]).
  destruct (fails OpFindProduct); simpl;
    try (left; split; [reflexivity|discriminate]).
  destruct (products db !! productId) as [product|] eqn:Hp; simpl;
    try (left; split; [reflexivity|discriminate]).
  destruct (Product.isActive product) eqn:Ha; simpl;
    try (left; split; [reflexivity|discriminate]).
  destruct (fails OpFindUser); simpl;
    try (left; split; [reflexivity|discriminate]).
  destruct (tokenId req) as [userId|]; simpl;
    try (left; split; [reflexivity|discriminate]).
  destruct (users db !! userId) as [user|] eqn:Hu; simpl;
    try (left; split; [reflexivity|discriminate]).
  destruct (Z.geb_spec (Z.of_nat (length (todayDownloads (now req) user)))
              (DAILY_LIMIT env)) as [Hge|Hlt]; simpl;
    try (left; split; [reflexivity|discriminate]).
  destruct (List.find _ (todayDownloads (now req) user)) eqn:Hfind; simpl;
    try (left; split; [reflexivity|discriminate]).
  right. exists productId, userId, product, user.
  do 7 (split; [first [reflexivity|assumption]|]).
  rewrite or0_id.
  destruct (fails OpSaveUser), (fails OpSaveProduct); simpl;
    try reflexivity; destruct db; reflexivity.
Qed.

(** [canDownload] reads neither the history nor [lastActivity]. *)
Lemma canDownload_ignores_history t u h st n :
  fst (User.canDownload t (User.set_lastActivity (User.set_history u h st) n))
  = fst (User.canDownload t u).
Proof.
  unfold User.canDownload, User.resetDailyDownloadsIfNeeded,
    User.resetMonthlyDownloadsIfNeeded. cbv zeta. simpl.
  destruct (User.isVerified u); simpl; [|reflexivity].
  destruct (match User.startOfDay <$> User.dailyDownloadDate u with
            | Some last => User.startOfDay t >? last
            | None => true
            end); simpl;
    destruct (String.eqb (User.monthlyDownloadMonth u) (User.monthToken t));
    reflexivity.
Qed.

(** X21.  A download through the chatbot route is not seen by the quota:
    whatever the request and whatever fails, the Download collection is
    left as it was, no account appears or disappears, and of every account
    [canDownload] answers at every instant what it answered before the
    request, and its three counters are what they were. *)
Theorem chatbot_download_not_counted (fails : Op -> bool) (env : option Z)
    (req : Request) (db : DB) :
  let db' := snd (serve fails env req db) in
  downloadsColl db' = downloadsColl db
  /\ forall id,
       match users db !! id, users db' !! id with
       | Some u, Some u' =>
           User.dailyDownloads u' = User.dailyDownloads u
           /\ User.monthlyDownloads u' = User.monthlyDownloads u
           /\ User.totalDownloads u' = User.totalDownloads u
           /\ forall t, fst (User.canDownload t u')
                        = fst (User.canDownload t u)
       | None, None => True
       | _, _ => False
       end.
Proof.
  cbv zeta.
  destruct (chatbot_cases fails env req db)
    as [[Hdb _]
       |(productId & userId & product & user & Hpid & Htok & Hp & Ha & Hu
         & Hlt & Hfind & Heq)].
  - rewrite Hdb. split; [reflexivity|]. intros id.
    destruct (users db !! id); auto.
  - rewrite Heq. simpl. split; [reflexivity|]. intros id.
    destruct (fails OpSaveUser); [destruct (users db !! id); auto|].
    destruct (N.eq_dec id userId) as [->|Hne].
    + rewrite Hu, lookup_insert_eq.
      split; [reflexivity|]. split; [reflexivity|]. split; [reflexivity|].
      intros t. apply canDownload_ignores_history.
    + rewrite lookup_insert_ne by congruence.
      destruct (users db !! id); auto.
Qed.

Lemma todayDownloads_app now u st n entry :
  History.downloadedAt entry = now ->
  todayDownloads now
    (User.set_lastActivity
       (User.set_history u (User.downloads u ++ [entry]) st) n)
  = todayDownloads now u ++ [entry].
Proof.
  intros Hat. unfold todayDownloads. cbv zeta. simpl User.downloads.
  rewrite List.filter_app. simpl. now rewrite Hat, Z.eqb_refl.
Qed.

(** X22.  The chatbot route answers a fresh download only below its daily
    limit and commits a history with at most that many entries of the day:
    an answer that is not a re-download reports a count of the day that is
    one above the count found, within the limit, and the remaining
    allowance that goes with it, and the history written holds exactly
    that many entries of the day; every other answer but a failure leaves
    the database as it was. *)
Theorem chatbot_fresh_download_within_limit (fails : Op -> bool)
    (env : option Z) (req : Request) (db : DB) :
  let r := fst (serve fails env req db) in
  let db' := snd (serve fails env req db) in
  match r with
  | Ready url rest count limit false =>
      limit = DAILY_LIMIT env /\ count <= limit /\ rest = limit - count
      /\ exists userId user user',
           tokenId req = Some userId
           /\ users db !! userId = Some user
           /\ users db' !! userId = Some user'
           /\ Z.of_nat (length (todayDownloads (now req) user)) = count - 1
           /\ Z.of_nat (length (todayDownloads (now req) user')) = count
  | ServiceUnavailable => True
  | _ => db' = db
  end.
Proof.
  cbv zeta.
  destruct (chatbot_cases fails env req db)
    as [[Hdb Hno]
       |(productId & userId & product & user & Hpid & Htok & Hp & Ha & Hu
         & Hlt & Hfind & Heq)].
  - destruct (fst (serve fails env req db)) as [| | | | url rest count limit [|] |];
      try exact Hdb; try exact I.
    exfalso. exact (Hno url rest count limit eq_refl).
  - rewrite Heq. simpl.
    destruct (fails OpSaveUser); simpl; [exact I|].
    destruct (fails OpSaveProduct); simpl; [exact I|].
    split; [reflexivity|]. split; [lia|]. split; [lia|].
    exists userId, user. eexists.
    split; [exact Htok|]. split; [exact Hu|].
    split; [apply lookup_insert_eq|]. split; [lia|].
    rewrite todayDownloads_app by reflexivity.
    rewrite length_app. simpl. lia.
Qed.

End ChatbotProperties.

(* ===================================================================== *)
(** ** The reset instant of the 429 answer *)
(* ===================================================================== *)

Section ResetInfoProperties.
Import JSDate Mongo DownloadRoute.

Lemma month_at_least_28 z :
  dateFromDay z = 1 ->
  z + 28 <= MakeDay (yearFromDay z) (monthFromDay z + 1) 1.
Proof.
  destruct (marchDay_decompose z) as (era & yoe & doy & Hy & Hd & ->).
  destruct (marchDay_fields era yoe doy Hy Hd) as (Hm & Hdate & Hyear).
  pose proof (yearLen_bounds yoe) as Hlen.
  assert (Hmp : 0 <= marchMonth doy <= 11) by (apply marchMonth_bounds; lia).
  cbv zeta in *. rewrite Hm, Hyear, Hdate, MakeDay_next_month_march
    by assumption.
  intros H1. unfold marchDay.
  set (mp := marchMonth doy) in *.
  destruct (Z.leb_spec mp 10).
  - unfold daysBeforeMarchMonth in *. Z.div_mod_to_equations; lia.
  - assert (mp = 11) as Hmp11 by lia. rewrite Hmp11 in H1.
    change (daysBeforeMarchMonth 11) with 337 in H1. lia.
Qed.

Lemma MakeDay_date y m d : MakeDay y m d = MakeDay y m 1 + d - 1.
Proof. unfold MakeDay. lia. Qed.

Lemma Day_add_days t k : Day (t + k * msPerDay) = Day t + k.
Proof. unfold Day. apply Z.div_add. pose proof msPerDay_pos. lia. Qed.

Lemma Day_setMonth t m :
  Day (setMonth t m) = MakeDay (getFullYear t) m (getDate t).
Proof.
  unfold setMonth. rewrite Z.add_comm, Day_add_days.
  unfold Day at 1. rewrite Z.div_small; [lia|].
  apply Z.mod_pos_bound, msPerDay_pos.
Qed.

(** The day [MakeDay y (m + 1) d] reached by [setMonth] from a day of
    which [d <= 28] is the date: it is the [d]-th of the next month. *)
Lemma next_month_same_date z :
  dateFromDay z <= 28 ->
  let next := MakeDay (yearFromDay z) (monthFromDay z + 1) 1 in
  dateFromDay (next + dateFromDay z - 1) = dateFromDay z.
Proof.
  intros Hd. cbv zeta.
  pose proof (dateFromDay_pos z) as Hpos.
  destruct (MakeDay_next_month z) as (_ & _ & _ & Hfirst & _).
  cbv zeta in Hfirst.
  set (next := MakeDay (yearFromDay z) (monthFromDay z + 1) 1) in *.
  pose proof (month_at_least_28 next Hfirst) as Hlen.
  destruct (MakeDay_next_month next) as (_ & Hsame & _). cbv zeta in Hsame.
  destruct (Hsame (next + dateFromDay z - 1) ltac:(lia)) as (Hy & Hm).
  pose proof (MakeDay_fields (next + dateFromDay z - 1) 1) as H1.
  pose proof (MakeDay_fields next 1) as H2.
  rewrite Hy, Hm in H1. lia.
Qed.

(** X24.  The instant of the next reset that the 429 answer of the
    download route names is computed by the route, not taken from the
    evaluator.  From the epoch on, for the daily window it is the midnight
    [canDownload] names; for the monthly window it is the first of next
    month that [canDownload] names whenever the date of [now] is at most
    the 28th, but not in general: on 31 January 2024 the route names
    1 March where [canDownload] names 1 February. *)
Theorem limitResetInfo_agrees_with_evaluator (now : Z) (c : User.Check) :
  0 <= now ->
  (User.remaining (User.daily c) <= 0 ->
   limitResetInfo now c
   = Some {| type := daily; resetTime := User.tomorrow now;
             untilReset := ceilDiv (User.tomorrow now - now) msPerHour |})
  /\ (0 < User.remaining (User.daily c) ->
      User.remaining (User.monthly c) <= 0 ->
      getDate now <= 28 ->
      limitResetInfo now c
      = Some {| type := monthly; resetTime := User.nextMonth now;
                untilReset := ceilDiv (User.nextMonth now - now) msPerDay |})
  /\ (0 < User.remaining (User.daily c) ->
      User.remaining (User.monthly c) <= 0 ->
      resetTime <$> limitResetInfo MoreSamples.jan31_0000 c
      = Some MoreSamples.mar01_0000
      /\ User.nextMonth MoreSamples.jan31_0000 = Samples.feb01_0000).
Proof.
  intros Hnow. unfold limitResetInfo. split; [|split].
  - intros Hd. destruct (Z.leb_spec (User.remaining (User.daily c)) 0);
      [|lia].
    cbv zeta.
    assert (Ht : setHours0 (setDate now (getDate now + 1))
                 = User.tomorrow now).
    { rewrite setDate_eq, tomorrow_eq by assumption.
      unfold setHours0.
      replace (getDate now + 1 - getDate now) with 1 by lia.
      now rewrite Day_add_days. }
    now rewrite Ht.
  - intros Hd Hm H28.
    destruct (Z.leb_spec (User.remaining (User.daily c)) 0); [lia|].
    destruct (Z.leb_spec (User.remaining (User.monthly c)) 0); [|lia].
    cbv zeta.
    assert (Ht : setHours0 (setDate (setMonth now (getMonth now + 1)) 1)
                 = User.nextMonth now).
    { rewrite setDate_eq, nextMonth_eq by assumption.
      unfold setHours0. rewrite Day_add_days.
      unfold getDate at 1. rewrite Day_setMonth.
      unfold getFullYear, getMonth, getDate in *.
      rewrite MakeDay_date.
      pose proof (next_month_same_date (Day now) H28) as Hsame.
      cbv zeta in Hsame. rewrite Hsame. f_equal. lia. }
    now rewrite Ht.
  - intros Hd Hm.
    destruct (Z.leb_spec (User.remaining (User.daily c)) 0); [lia|].
    destruct (Z.leb_spec (User.remaining (User.monthly c)) 0); [|lia].
    split; vm_compute; reflexivity.
Qed.

Lemma limitResetInfo_agrees_with_evaluator_witness :
  0 <= Samples.mar15_1000
  /\ resetTime
     <$> limitResetInfo Samples.mar15_1000
           (fst (User.canDownload Samples.mar15_1000 Samples.dailyExhausted))
     = Some (User.tomorrow Samples.mar15_1000).
Proof.
  assert (H0 : 0 <= Samples.mar15_1000) by (vm_compute; discriminate).
  split; [exact H0|].
  rewrite (proj1 (limitResetInfo_agrees_with_evaluator Samples.mar15_1000
                    (fst (User.canDownload Samples.mar15_1000
                            Samples.dailyExhausted)) H0)).
  - reflexivity.
  - vm_compute. discriminate.
Defined.
End ResetInfoProperties.

(* ===================================================================== *)
(** ** The time until a reset *)
(* ===================================================================== *)

Section UntilResetProperties.
Import JSDate.

Lemma ceilDiv_bounds a b n :
  0 < b -> 0 < a <= n * b -> 1 <= ceilDiv a b <= n.
Proof.
  intros Hb Ha. pose proof (ceilDiv_spec a b Hb) as Hs. nia.
Qed.

(** X25.  With the process in UTC, the zone of this development, in which
    the clock is never changed: from the epoch on, [canDownload] tells a
    verified account that its daily window resets in 1 to 24 hours and its
    monthly window in 1 to 31 days.  (Where the local clock is moved
    forward or back between now and the reset, the local midnight that
    [new Date(y, m, d + 1)] names is an hour nearer or farther, and the
    bounds move with it.) *)
Theorem canDownload_until_reset_bounds (now : Z) (u : User.t) :
  0 <= now -> User.isVerified u = true ->
  let c := fst (User.canDownload now u) in
  exists hours days,
    User.untilReset (User.daily c) = Some hours /\ 1 <= hours <= 24
    /\ User.untilReset (User.monthly c) = Some days /\ 1 <= days <= 31.
Proof.
  intros Hnow Hv. cbv zeta.
  destruct (canDownload_verified now u Hv) as (_ & Hd & Hm & _).
  cbv zeta in Hd, Hm. rewrite Hd, Hm. simpl.
  eexists. eexists. split; [reflexivity|]. split; [|split; [reflexivity|]].
  - rewrite tomorrow_eq by assumption.
    pose proof (Day_bounds now) as Hb.
    assert (H24 : msPerDay = 24 * msPerHour) by reflexivity.
    apply ceilDiv_bounds; [reflexivity|].
    rewrite <- H24. lia.
  - rewrite nextMonth_eq by assumption.
    pose proof (Day_bounds now) as Hb.
    destruct (MakeDay_next_month (Day now)) as (Hnext & _).
    cbv zeta in Hnext. pose proof msPerDay_pos as Hpos.
    apply ceilDiv_bounds; [exact Hpos|]. nia.
Qed.

Lemma canDownload_until_reset_bounds_witness :
  exists hours days,
    User.untilReset
      (User.daily (fst (User.canDownload Samples.mar15_1000 Samples.busy)))
    = Some hours /\ 1 <= hours <= 24
    /\ User.untilReset
         (User.monthly
            (fst (User.canDownload Samples.mar15_1000 Samples.busy)))
       = Some days /\ 1 <= days <= 31.
Proof.
  apply (canDownload_until_reset_bounds Samples.mar15_1000 Samples.busy).
  - vm_compute. discriminate.
  - reflexivity.
Defined.
End UntilResetProperties.

(* ===================================================================== *)
(** ** The download route: what the 200 answer reports, and the product counter *)
(* ===================================================================== *)

Section AnswerProperties.
Import JSDate Mongo DownloadRoute Ledger.

Lemma rolledOver_after_increment now pd u :
  0 <= now ->
  User.rolledOver now (User.applyIncrement now pd (User.rolledOver now u))
  = User.applyIncrement now pd (User.rolledOver now u).
Proof.
  intros Hnow.
  destruct (applyIncrement_rolledOver now pd u Hnow)
    as (_ & Ha & _ & Hm & _). cbv zeta in Ha, Hm.
  unfold User.rolledOver at 1.
  assert (Hno : User.resetDailyDownloadsIfNeeded now
                  (User.applyIncrement now pd (User.rolledOver now u))
                = (false,
                   User.applyIncrement now pd (User.rolledOver now u))).
  { unfold User.resetDailyDownloadsIfNeeded at 1. cbv zeta. rewrite Ha.
    now rewrite (rolledOver_anchor_current now u Hnow). }
  rewrite Hno. simpl snd.
  rewrite resetMonthly_current; [reflexivity|].
  rewrite Hm. apply rolledOver_month.
Qed.

Lemma canDownload_total now u :
  User.isVerified u = true ->
  User.total (fst (User.canDownload now u)) = User.totalDownloads u.
Proof.
  intros Hv. destruct (rolledOver_tier now u) as (_ & _ & _ & Ht).
  rewrite <- Ht. unfold User.rolledOver, User.canDownload.
  rewrite Hv. cbv zeta. simpl negb. cbv iota.
  destruct (User.resetDailyDownloadsIfNeeded now u) as [r1 u1]. simpl snd.
  destruct (User.resetMonthlyDownloadsIfNeeded now u1) as [r2 u2].
  simpl. apply or0_id.
Qed.

(** What stands behind a 200 answer to a fresh download. *)
Lemma consume_downloaded fails req db :
  (forall url stats date,
     fst (consume fails req db) <> Downloaded url stats date)
  \/ exists (user : User.t) (product : Product.t),
       users db !! tokenUserId req = Some user
       /\ User.isVerified user = true
       /\ exists (pd : User.ProductData) (db' : DB),
            users db' !! tokenUserId req
            = Some (User.set_lastActivity
                      (User.applyIncrement (now req) pd
                         (User.rolledOver (now req) user))
                      (now req))
            /\ consume fails req db
               = (Downloaded (Product.downloadUrl product)
                    (fst (User.canDownload (now req)
                            (User.applyIncrement (now req) pd
                               (User.rolledOver (now req) user))))
                    (now req), db').
Proof.
  rewrite consume_flat. unfold consumeFlat. cbv zeta.
  destruct (paramProductId req) as [productId|]; [|left; discriminate].
  destruct (fails OpFindUser); [left; discriminate|].
  destruct (users db !! tokenUserId req) as [user|]; [|left; discriminate].
  destruct (User.isVerified user) eqn:Hv; simpl negb; cbv iota;
    [|left; discriminate].
  destruct (User.canDownload_ (fst (User.canDownload (now req) user)));
    simpl negb; cbv iota; [|left; discriminate].
  destruct (fails OpFindProduct); [left; discriminate|].
  destruct (products db !! productId) as [product|]; [|left; discriminate].
  destruct (Product.isActive product); simpl negb; cbv iota;
    [|left; discriminate].
  destruct (fails OpFindDownload); [left; discriminate|].
  destruct (List.find _ (downloadsColl db)); [left; discriminate|].
  destruct (fails OpSaveDownload); simpl orb; cbv iota; [left; discriminate|].
  destruct (fails OpSaveUser); simpl orb; cbv iota; [left; discriminate|].
  destruct (fails OpSaveProduct); simpl orb; cbv iota; [left; discriminate|].
  destruct (fails OpCommit); simpl orb; cbv iota; [left; discriminate|].
  right. exists user, product.
  rewrite (canDownload_verified_snd _ _ Hv).
  split; [reflexivity|]. split; [exact Hv|].
  eexists. eexists. split; [|reflexivity]. apply lookup_insert_eq.
Qed.

(** X26.  From the epoch on, the 200 answer to a fresh download tells the
    account what was stored: its date is the instant of the request, and
    the used and remaining of both windows and the lifetime count it
    carries are those of the account as committed. *)
Theorem consume_answer_reports_committed_counts (fails : Op -> bool)
    (req : Request) (db : DB) :
  0 <= now req ->
  match fst (consume fails req db) with
  | Downloaded url stats date =>
      date = now req
      /\ exists u',
           users (snd (consume fails req db)) !! tokenUserId req = Some u'
           /\ User.used (User.daily stats) = User.dailyDownloads u'
           /\ User.remaining (User.daily stats)
              = Z.max 0 (15 - User.dailyDownloads u')
           /\ User.used (User.monthly stats) = User.monthlyDownloads u'
           /\ User.remaining (User.monthly stats)
              = Z.max 0 (User.monthlyLimit (now req) u'
                         - User.monthlyDownloads u')
           /\ User.total stats = User.totalDownloads u'
  | _ => True
  end.
Proof.
  intros Hnow.
  destruct (consume_downloaded fails req db)
    as [Hno|(user & product & Hu & Hv & pd & db' & Hlookup & Heq)].
  { destruct (fst (consume fails req db))
      as [| | | | | |url stats date| |];
      try exact I.
    exfalso. exact (Hno url stats date eq_refl). }
  assert (Hw : User.isVerified
                 (User.applyIncrement (now req) pd
                    (User.rolledOver (now req) user)) = true).
  { rewrite applyIncrement_verified.
    destruct (rolledOver_tier (now req) user) as (_ & _ & -> & _).
    exact Hv. }
  pose proof (rolledOver_after_increment (now req) pd user Hnow) as Hr.
  revert Hlookup Heq Hw Hr.
  generalize (User.applyIncrement (now req) pd
                (User.rolledOver (now req) user)).
  intros w Hlookup Heq Hw Hr.
  destruct (canDownload_verified (now req) w Hw) as (_ & Hd & Hm & _).
  cbv zeta in Hd, Hm. rewrite Hr in Hd, Hm.
  pose proof (canDownload_total (now req) w Hw) as Ht.
  revert Hd Hm Ht. rewrite Heq.
  generalize (fst (User.canDownload (now req) w)). intros stats Hd Hm Ht.
  unfold fst, snd. split; [reflexivity|].
  exists (User.set_lastActivity w (now req)).
  split; [exact Hlookup|].
  rewrite Hd, Hm, Ht.
  repeat split; reflexivity.
Qed.

Lemma consume_answer_reports_committed_counts_witness :
  match fst (consume Samples.noFaults (Samples.downloadAt Samples.mar15_1000)
               (Samples.db Samples.busy)) with
  | Downloaded url stats date =>
      date = now (Samples.downloadAt Samples.mar15_1000)
      /\ exists u',
           users (snd (consume Samples.noFaults
                         (Samples.downloadAt Samples.mar15_1000)
                         (Samples.db Samples.busy)))
           !! tokenUserId (Samples.downloadAt Samples.mar15_1000) = Some u'
           /\ User.used (User.daily stats) = User.dailyDownloads u'
           /\ User.remaining (User.daily stats)
              = Z.max 0 (15 - User.dailyDownloads u')
           /\ User.used (User.monthly stats) = User.monthlyDownloads u'
           /\ User.remaining (User.monthly stats)
              = Z.max 0 (User.monthlyLimit
                           (now (Samples.downloadAt Samples.mar15_1000)) u'
                         - User.monthlyDownloads u')
           /\ User.total stats = User.totalDownloads u'
  | _ => True
  end.
Proof.
  apply (consume_answer_reports_committed_counts Samples.noFaults
           (Samples.downloadAt Samples.mar15_1000) (Samples.db Samples.busy)).
  vm_compute. discriminate.
Defined.

(** X27.  Over any run of requests to the download route that name one
    product that exists, the download counter of the product grows by
    exactly the number of accepted requests, and its link and its active
    flag stay as they were. *)
Theorem run_product_counter (productId : ObjectId) (calls : list Call)
    (db : DB) (product : Product.t) :
  products db !! productId = Some product ->
  Forall (fun c => paramProductId (request c) = Some productId) calls ->
  exists product',
    products (final db (run db calls)) !! productId = Some product'
    /\ Product.downloads product'
       = Product.downloads product + accepted (run db calls)
    /\ Product.downloadUrl product' = Product.downloadUrl product
    /\ Product.isActive product' = Product.isActive product.
Proof.
  intros Hp Hall. revert db product Hp.
  induction calls as [|c rest IH]; intros db product Hp.
  { exists product. unfold final, accepted. simpl.
    split; [exact Hp|]. split; [lia|]. auto. }
  apply Forall_cons in Hall as [Hpid Hall]. specialize (IH Hall).
  rewrite run_cons, final_cons, accepted_cons. simpl after. simpl response.
  destruct (consume_cases (faults c) (request c) db)
    as [[Hout Hdb]
       |(productId0 & user & product0 & Hpid0 & Hu & Hv & Hc & Hp0 & Ha
         & Hf1 & Hf2 & Hf3 & Hf4 & pd & stats & Hpd & Heq)].
  - assert (H0 : match outcome (fst (consume (faults c) (request c) db)) with
                 | Accepted => 1 | _ => 0 end = 0)
      by (destruct (outcome _); congruence).
    rewrite H0, Hdb. destruct (IH db product Hp) as (p' & Hp' & Hn & Hrest).
    exists p'. split; [exact Hp'|]. split; [lia|exact Hrest].
  - rewrite Hpid in Hpid0. injection Hpid0 as <-.
    rewrite Hp in Hp0. injection Hp0 as <-.
    pose proof (IH (snd (consume (faults c) (request c) db))) as IH'.
    rewrite Heq in *. simpl fst. simpl snd in *. simpl outcome. cbv iota.
    edestruct IH' as (p' & Hp' & Hn & Hurl & Hact);
      [simpl; apply lookup_insert_eq|].
    exists p'. split; [exact Hp'|]. simpl in Hn, Hurl, Hact.
    split; [lia|]. split; assumption.
Qed.

Lemma run_product_counter_witness :
  exists product',
    products (final (Samples.db Samples.busy)
                (run (Samples.db Samples.busy) MoreSamples.twoCalls))
    !! 7%N = Some product'
    /\ Product.downloads product'
       = Product.downloads Samples.theme
         + accepted (run (Samples.db Samples.busy) MoreSamples.twoCalls)
    /\ Product.downloadUrl product' = Product.downloadUrl Samples.theme
    /\ Product.isActive product' = Product.isActive Samples.theme.
Proof.
  apply (run_product_counter 7%N MoreSamples.twoCalls
           (Samples.db Samples.busy) Samples.theme).
  - apply lookup_singleton_eq.
  - apply Forall_cons. split; [reflexivity|].
    apply Forall_cons. split; [reflexivity|constructor].
Defined.
End AnswerProperties.
